(** * User-Admin-managment: CSV ingestion and reporting queries

    A shallow embedding of [page/import_csv.py] and [page/dashboard.py]:
    the header cleaning, the required-column check, the per-column type
    coercion, the de-duplication on ["Unique ID"], the batched insert and
    the five reporting queries, followed by the properties of the
    specification that concern them. *)

From Stdlib Require Import Bool Arith NArith ZArith QArith Lia List Ascii String.
From Stdlib Require Import DecimalString Permutation Sorted.
Import ListNotations.

Local Open Scope string_scope.
Local Open Scope list_scope.
Local Open Scope nat_scope.

(* ================================================================== *)
(** ** Python [str] methods used by the source *)
(* ================================================================== *)

(** A Python [str] is a sequence of Unicode code points.  The model keeps
    the code points below 256 (ASCII and Latin-1), one per [ascii]:
    character [160] is U+00A0, the non-breaking space. *)
Module PyStr.

(** [str.isspace] on one code point below 256: TAB..CR, FS..US, SPACE,
    NEL (U+0085) and NBSP (U+00A0). *)
Definition isspace (c : ascii) : bool :=
  let n := N_of_ascii c in
  (((9 <=? n) && (n <=? 13)) || ((28 <=? n) && (n <=? 32))
   || (n =? 133) || (n =? 160))%N.

(** [s.lstrip()] *)
Fixpoint lstrip (s : string) : string :=
  match s with
  | EmptyString => EmptyString
  | String c s' => if isspace c then lstrip s' else s
  end.

(** [s.rstrip()] *)
Fixpoint rstrip (s : string) : string :=
  match s with
  | EmptyString => EmptyString
  | String c s' =>
      match rstrip s' with
      | EmptyString => if isspace c then EmptyString else String c EmptyString
      | r => String c r
      end
  end.

(** [s.strip()]: both ends. *)
Definition strip (s : string) : string := rstrip (lstrip s).

(** [str.lower] on one code point below 256: A..Z and the Latin-1
    capitals U+00C0..U+00DE (U+00D7, the multiplication sign, apart)
    move up by 32. *)
Definition lower_char (c : ascii) : ascii :=
  let n := N_of_ascii c in
  if (((65 <=? n) && (n <=? 90))
      || ((192 <=? n) && (n <=? 222) && negb (n =? 215)))%N
  then ascii_of_N (n + 32) else c.

(** [s.lower()] *)
Fixpoint lower (s : string) : string :=
  match s with
  | EmptyString => EmptyString
  | String c s' => String (lower_char c) (lower s')
  end.

(** [s.replace(old, new)] for one-character [old] and [new]. *)
Fixpoint replace (old new : ascii) (s : string) : string :=
  match s with
  | EmptyString => EmptyString
  | String c s' =>
      String (if Ascii.eqb c old then new else c) (replace old new s')
  end.

(** [s.startswith(p)] *)
Definition startswith (s p : string) : bool := String.prefix p s.

(** [sep.join(l)] *)
Definition join (sep : string) (l : list string) : string :=
  String.concat sep l.

(** [x in l] for a list of strings. *)
Definition mem (x : string) (l : list string) : bool :=
  existsb (String.eqb x) l.

(** Every character of [s] is white space. *)
Fixpoint all_space (s : string) : bool :=
  match s with
  | EmptyString => true
  | String c s' => isspace c && all_space s'
  end.

(** First and last character, when there is one. *)
Definition head (s : string) : option ascii :=
  match s with EmptyString => None | String c _ => Some c end.

Fixpoint last (s : string) : option ascii :=
  match s with
  | EmptyString => None
  | String c EmptyString => Some c
  | String _ s' => last s'
  end.

(** [c in s] for a character. *)
Fixpoint contains (c : ascii) (s : string) : bool :=
  match s with
  | EmptyString => false
  | String d s' => Ascii.eqb d c || contains c s'
  end.

(** [str(n)] for a natural number. *)
Definition of_nat (n : nat) : string :=
  NilZero.string_of_uint (Nat.to_uint n).

(** [s.zfill(w)]-style padding of a digit string on the left. *)
Fixpoint zeros (k : nat) : string :=
  match k with O => EmptyString | S k' => String "0" (zeros k') end.

Definition zfill (w : nat) (s : string) : string :=
  zeros (w - String.length s) ++ s.

End PyStr.

(** U+00A0 and U+0020. *)
Definition nbsp : ascii := ascii_of_nat 160.
Definition space : ascii := " "%char.

(* ================================================================== *)
(** ** [import_csv.py]: the schema catalog *)
(* ================================================================== *)

Definition REQUIRED_COLUMNS : list string :=
  [ "Timestamp"; "Email Address"; "OCR"; "Bill Ref Code"; "Track ID";
    "Annotation ID"; "Document Type";
    "Matched Payee ID"; "Payer"; "Review"; "Bill Lines"; "Payee Name";
    "Invoice"; "Invoice Date";
    "Invoice Due Date"; "Terms"; "PO"; "Tax Amt"; "Total Amt"; "Currency";
    "Foreign Language";
    "Quality Analyst"; "Invoice Pages"; "Multiple Payees"; "Comments";
    "PST to IST"; "US Date";
    "IND Date"; "IND Time"; "Team"; "Agent"; "Unique ID"; "Priority";
    "Month"; "Hour"; "EMEA" ].

Definition TABLE_NAME : string := "managed_services".

(** The dict [COLUMN_DATA_TYPES], in insertion order (the order in which
    [.items()] yields it); the type names stay the strings of the source. *)
Definition COLUMN_DATA_TYPES : list (string * string) :=
  [ ("Timestamp", "datetime64");
    ("Email Address", "string");
    ("OCR", "string");
    ("Bill Ref Code", "string");
    ("Track ID", "string");
    ("Annotation ID", "string");
    ("Document Type", "string");
    ("Matched Payee ID", "string");
    ("Payer", "string");
    ("Review", "string");
    ("Bill Lines", "Int64");
    ("Payee Name", "string");
    ("Invoice", "Int64");
    ("Invoice Date", "string");
    ("Invoice Due Date", "string");
    ("Terms", "string");
    ("PO", "string");
    ("Tax Amt", "float64");
    ("Total Amt", "float64");
    ("Currency", "string");
    ("Foreign Language", "string");
    ("Quality Analyst", "string");
    ("Invoice Pages", "Int64");
    ("Multiple Payees", "string");
    ("Comments", "string");
    ("PST to IST", "string");
    ("US Date", "datetime64");
    ("IND Date", "datetime64");
    ("IND Time", "string");
    ("Team", "string");
    ("Agent", "string");
    ("Unique ID", "string");
    ("Priority", "string");
    ("Month", "string");
    ("Hour", "Int64");
    ("EMEA", "string") ].

(** [clean_column_names]:
    [[col.strip().replace("\xa0", " ") for col in columns]]. *)
Definition clean_column_names (columns : list string) : list string :=
  map (fun col => PyStr.replace nbsp space (PyStr.strip col)) columns.

(* ================================================================== *)
(** ** The pandas data frame and the library calls of the source *)
(* ================================================================== *)

(** A calendar date and time of day, as [pd.to_datetime] yields it. *)
Record datetime : Type := mkDatetime {
  year : N; month : N; day : N; hour : N; minute : N; second : N
}.

Definition datetime_eqb (a b : datetime) : bool :=
  ((year a =? year b) && (month a =? month b) && (day a =? day b)
   && (hour a =? hour b) && (minute a =? minute b)
   && (second a =? second b))%N.

(** One cell of a frame.  A Python [str]; a number (the value of an
    [int64] or [float64] entry; the machine type is not part of the
    model, and neither is the rounding to binary64); [NaN] as
    [pd.to_numeric] leaves it, an entry of a [float64] column; [NaN] as
    an entry of a column of dtype [object], where [pd.read_csv] puts it
    for an empty field and [.dt.strftime] for [NaT]; a [pd.Timestamp]
    with its offset from UTC in minutes, and [NaT] beside it, the entries
    of the [object] column that [pd.to_datetime] returns when the offsets
    of a column differ.  The dtype of a column is not kept apart from its
    cells: a column is numeric when all its cells are numbers or the
    first [NaN], as [pd.DataFrame] infers it. *)
Inductive cell : Type :=
| CStr (s : string)
| CNum (q : Q)
| CNaN
| CMissing
| CTimestamp (d : datetime) (utcoffset : Z)
| CNaT.

(** A frame: its column labels and its rows, each row aligned with the
    labels.  Labels may repeat, as pandas allows. *)
Record DataFrame : Type := mkDataFrame {
  columns : list string;
  rows : list (list cell)
}.

(** [len(df)] and [df.empty] *)
Definition len (df : DataFrame) : nat := List.length (rows df).
Definition empty (df : DataFrame) : bool :=
  match rows df with [] => true | _ => false end.

(** [df.columns = new_columns] *)
Definition set_columns (df : DataFrame) (new_columns : list string) : DataFrame :=
  mkDataFrame new_columns (rows df).

(** Position of the first label equal to [name]. *)
Fixpoint index_of (name : string) (labels : list string) : option nat :=
  match labels with
  | [] => None
  | l :: ls =>
      if String.eqb name l then Some 0
      else match index_of name ls with
           | Some i => Some (S i)
           | None => None
           end
  end.

(** Number of labels equal to [name]. *)
Fixpoint label_count (name : string) (labels : list string) : nat :=
  match labels with
  | [] => 0
  | l :: ls => (if String.eqb name l then 1 else 0) + label_count name ls
  end.

(** The cell of a row at a position ([NaN] past the end of a ragged row,
    which a frame never has). *)
Definition cell_at (i : nat) (row : list cell) : cell := nth i row CNaN.

(** What [df[name]] evaluates to: a Series when the label occurs once, a
    sub-frame when it is repeated, a [KeyError] when it is absent. *)
Inductive selection : Type :=
| Series (values : list cell)
| SubFrame
| NoSuchLabel.

Definition getitem (df : DataFrame) (name : string) : selection :=
  match index_of name (columns df) with
  | None => NoSuchLabel
  | Some i =>
      if label_count name (columns df) =? 1
      then Series (map (cell_at i) (rows df))
      else SubFrame
  end.

Fixpoint set_nth {A : Type} (i : nat) (x : A) (l : list A) : list A :=
  match l, i with
  | [], _ => []
  | _ :: t, O => x :: t
  | h :: t, S j => h :: set_nth j x t
  end.

Fixpoint set_column (i : nat) (rs : list (list cell)) (values : list cell)
  : list (list cell) :=
  match rs, values with
  | r :: rs', v :: values' => set_nth i v r :: set_column i rs' values'
  | _, _ => rs
  end.

(** [df[name] = values] for a label that is present and a Series of the
    frame's length. *)
Definition setitem (df : DataFrame) (name : string) (values : list cell)
  : DataFrame :=
  match index_of name (columns df) with
  | None => df
  | Some i => mkDataFrame (columns df) (set_column i (rows df) values)
  end.

(** [pd.notna] on one cell. *)
Definition notna (c : cell) : bool :=
  match c with CNaN | CMissing | CNaT => false | _ => true end.

(** [df.fillna("")] *)
Definition fillna (fill : string) (df : DataFrame) : DataFrame :=
  mkDataFrame (columns df)
    (map (map (fun c => if notna c then c else CStr fill)) (rows df)).

(** Python exceptions, with their text. *)
Inductive exn : Type :=
| AttributeError (text : string)
| TypeError (text : string)
| ValueError (text : string)
| ParserError (text : string)
| ProgrammingError (text : string).

Definition exn_text (e : exn) : string :=
  match e with
  | AttributeError t | TypeError t | ValueError t | ParserError t
  | ProgrammingError t => t
  end.

Inductive result (A : Type) : Type :=
| Ok (a : A)
| Raise (e : exn).
Arguments Ok {A} a.
Arguments Raise {A} e.

(** What [pd.to_datetime(series, errors="coerce")] returns: a column of
    dtype [datetime64], [NaT] where a value was given up on; or, when the
    values parsed carry different offsets from UTC, a column of dtype
    [object] holding one [Timestamp] for each, with its offset in
    minutes, and [NaT]. *)
Inductive datetimes : Type :=
| DatetimeSeries (values : list (option datetime))
| ObjectSeries (values : list (option (datetime * Z))).

Definition datetimes_length (r : datetimes) : nat :=
  match r with
  | DatetimeSeries values => List.length values
  | ObjectSeries values => List.length values
  end.

(** What the source takes from pandas and Python without defining it:
    the two parsers behind [errors="coerce"] and the printing of a
    number.  [to_datetime] works on a whole Series (pandas may infer one
    format for the column) and gives [None] where it gives [NaT];
    [to_numeric_str] parses one string and gives [None] where pandas gives
    [NaN]; [num_to_str] is [str] on a number. *)
Class Pandas : Type := {
  to_datetime : list cell -> datetimes;
  to_datetime_length :
    forall s, datetimes_length (to_datetime s) = List.length s;
  to_numeric_str : string -> option Q;
  num_to_str : Q -> string
}.

(** Decimal digits of a number. *)
Definition str_of_N (n : N) : string :=
  NilZero.string_of_uint (N.to_uint n).

(** [d.strftime('%Y-%m-%d %H:%M:%S')] *)
Definition strftime (d : datetime) : string :=
  PyStr.zfill 4 (str_of_N (year d)) ++ "-" ++
  PyStr.zfill 2 (str_of_N (month d)) ++ "-" ++
  PyStr.zfill 2 (str_of_N (day d)) ++ " " ++
  PyStr.zfill 2 (str_of_N (hour d)) ++ ":" ++
  PyStr.zfill 2 (str_of_N (minute d)) ++ ":" ++
  PyStr.zfill 2 (str_of_N (second d)).

(** [series.dt.strftime(...)] on a column of dtype [datetime64]: the
    result is a column of dtype [object], with [NaN] for [NaT]. *)
Definition dt_strftime (s : list (option datetime)) : list cell :=
  map (fun o => match o with
                | Some d => CStr (strftime d)
                | None => CMissing
                end) s.

(** The cells of the [object] column of [pd.to_datetime]. *)
Definition timestamps (s : list (option (datetime * Z))) : list cell :=
  map (fun o => match o with
                | Some (d, utcoffset) => CTimestamp d utcoffset
                | None => CNaT
                end) s.

(** [str(ts)] for a [Timestamp] with an offset: the date and time, then
    the offset as [+HH:MM] or [-HH:MM]. *)
Definition timestamp_str (d : datetime) (utcoffset : Z) : string :=
  let minutes := Z.to_N (Z.abs utcoffset) in
  strftime d ++ (if (utcoffset <? 0)%Z then "-" else "+") ++
  PyStr.zfill 2 (str_of_N (minutes / 60)) ++ ":" ++
  PyStr.zfill 2 (str_of_N (minutes mod 60)).

(** The calls to streamlit, in the order they are made. *)
Inductive message : Type :=
| st_error (text : string)
| st_warning (text : string)
| st_success (text : string)
| st_write (text : string)
| st_dataframe (df : DataFrame)
| st_subheader (text : string)
| st_plotly_chart (df : DataFrame).

Section Coercion.
Context {pandas : Pandas}.

(** [pd.to_numeric(..., errors="coerce")] on one cell: a number stays,
    a string is parsed, anything that does not parse, a [Timestamp]
    among it, is [NaN]. *)
Definition to_numeric_cell (c : cell) : cell :=
  match c with
  | CStr s => match to_numeric_str s with
              | Some q => CNum q
              | None => CNaN
              end
  | CNum q => CNum q
  | CNaN | CMissing | CTimestamp _ _ | CNaT => CNaN
  end.

(** [pd.to_numeric(series, errors="coerce")].  With
    [downcast="integer"] pandas moves the column to a smaller integer
    machine type when every value of it is integral, and leaves it alone
    otherwise: no value changes, so the flag is kept for the record and
    the cells are those of the plain call. *)
Definition to_numeric (s : list cell) (downcast : option string) : list cell :=
  map to_numeric_cell s.

(** [series.astype(str)] on one cell. *)
Definition astype_str (c : cell) : string :=
  match c with
  | CStr s => s
  | CNum q => num_to_str q
  | CNaN | CMissing => "nan"
  | CTimestamp d utcoffset => timestamp_str d utcoffset
  | CNaT => "NaT"
  end.

(** The body of the [try] of [enforce_data_types] for one column: the
    frame as the statements that ran have left it, and the exception if
    one was raised.  For a timestamp column the body is two assignments,
    and the second raises when the first has stored a column that is not
    of dtype [datetime64]. *)
Definition convert (df : DataFrame) (column dtype : string)
  : DataFrame * option exn :=
  if PyStr.startswith dtype "datetime64" then
    match getitem df column with
    | Series s =>
        (* df[column] = pd.to_datetime(df[column], errors="coerce") *)
        match to_datetime s with
        | DatetimeSeries values =>
            (* df[column] = df[column].dt.strftime('%Y-%m-%d %H:%M:%S') *)
            (setitem df column (dt_strftime values), None)
        | ObjectSeries values =>
            (setitem df column (timestamps values),
             Some (AttributeError
                     "Can only use .dt accessor with datetimelike values"))
        end
    | _ => (df, Some (ValueError "cannot assemble with duplicate keys"))
    end
  else if String.eqb dtype "float64" then
    match getitem df column with
    | Series s => (setitem df column (to_numeric s None), None)
    | _ => (df, Some (TypeError
                        "arg must be a list, tuple, 1-d array, or Series"))
    end
  else if String.eqb dtype "Int64" then
    match getitem df column with
    | Series s => (setitem df column (to_numeric s (Some "integer")), None)
    | _ => (df, Some (TypeError
                        "arg must be a list, tuple, 1-d array, or Series"))
    end
  else
    match getitem df column with
    | Series s =>
        (setitem df column
           (map (fun c => CStr (PyStr.strip (astype_str c))) s), None)
    | _ => (df, Some (AttributeError
                        "'DataFrame' object has no attribute 'str'"))
    end.

(** One turn of the loop of [enforce_data_types]; the warnings come
    after those already issued. *)
Definition enforce_step (acc : DataFrame * list message)
           (item : string * string) : DataFrame * list message :=
  let '(df, log) := acc in
  let '(column, dtype) := item in
  if PyStr.mem column (columns df) then
    match convert df column dtype with
    | (df', None) => (df', log)
    | (df', Some e) =>
        (df', log ++ [st_warning ("Could not convert column " ++ column
                                  ++ " to " ++ dtype ++ ": " ++ exn_text e)])
    end
  else (df, log).

(** [enforce_data_types]: the frame it returns and its warnings. *)
Definition enforce_data_types (df : DataFrame) : DataFrame * list message :=
  fold_left enforce_step COLUMN_DATA_TYPES (df, []).

End Coercion.

(* ================================================================== *)
(** ** The storage table and the database connection *)
(* ================================================================== *)

(** A value handed to, or read from, the database driver; [VNull] is
    Python's [None], SQL's [NULL]; [VNaN] is the float [nan] and
    [VTimestamp] a [Timestamp], which the code can hand to the driver as
    they are. *)
Inductive sqlval : Type :=
| VNull
| VStr (s : string)
| VNum (q : Q)
| VNaN
| VTimestamp (d : datetime) (utcoffset : Z).

(** A stored row: the values under the column names of the [INSERT] that
    wrote it. *)
Definition sqlrow : Type := list (string * sqlval).

(** The connection and the table [managed_services] behind it:
    whether [SHOW TABLES LIKE] finds the table, the rows committed, the
    rows written since the last commit, and the size of every
    [executemany] so far.  The table takes every row it is given: what
    the server may refuse on its own account is not modelled. *)
Record connection : Type := mkConnection {
  table_present : bool;
  committed : list sqlrow;
  pending : list sqlrow;
  round_trips : list nat
}.

(** Column names of MySQL are compared without regard to case. *)
Definition sql_ident_eqb (a b : string) : bool :=
  String.eqb (PyStr.lower a) (PyStr.lower b).

(** The value of a row under a column name; a column the [INSERT] did
    not name holds [NULL]. *)
Fixpoint sql_get (name : string) (row : sqlrow) : sqlval :=
  match row with
  | [] => VNull
  | (n, v) :: row' => if sql_ident_eqb name n then v else sql_get name row'
  end.

(** [table_exists]: [SHOW TABLES LIKE '{table_name}'] returned a row. *)
Definition table_exists (conn : connection) (table_name : string) : bool :=
  table_present conn.

(** [cursor.execute("SELECT ... FROM `managed_services`")] followed by
    [fetchall()]: the rows this connection sees. *)
Definition select_all (conn : connection) : result (list sqlrow) :=
  if table_present conn then Ok (committed conn ++ pending conn)
  else Raise (ProgrammingError "Table 'managed_services' doesn't exist").

(** [cursor.executemany(insert_query, batch_data)]: one round trip. *)
Definition executemany (conn : connection) (names : list string)
           (batch_data : list (list sqlval)) : connection :=
  mkConnection (table_present conn) (committed conn)
    (pending conn ++ map (combine names) batch_data)
    (round_trips conn ++ [List.length batch_data]).

(** [connection.commit()] *)
Definition commit (conn : connection) : connection :=
  mkConnection (table_present conn) (committed conn ++ pending conn) []
    (round_trips conn).

(** [connection.close()]: what was not committed is lost. *)
Definition close (conn : connection) : connection :=
  mkConnection (table_present conn) (committed conn) [] (round_trips conn).

(* ================================================================== *)
(** ** [import_csv.py]: de-duplication and batched insert *)
(* ================================================================== *)

(** [range(start, stop, step)] for [step >= 1]. *)
Fixpoint range_from (fuel start stop step : nat) : list nat :=
  match fuel with
  | O => []
  | S fuel' =>
      if start <? stop
      then start :: range_from fuel' (start + step) stop step
      else []
  end.

Definition range (start stop step : nat) : list nat :=
  range_from stop start stop step.

(** [df.iloc[i:j]] on the rows. *)
Definition iloc {A : Type} (rs : list A) (i j : nat) : list A :=
  firstn (j - i) (skipn i rs).

(** [row.where(pd.notna(row), None)] on one cell of a row of dtype
    [object], as the driver gets it: [None] for what is missing. *)
Definition sql_of_cell (c : cell) : sqlval :=
  match c with
  | CStr s => VStr s
  | CNum q => VNum q
  | CNaN | CMissing | CNaT => VNull
  | CTimestamp d utcoffset => VTimestamp d utcoffset
  end.

(** The same on one cell of a row of dtype [float64]: a float Series
    holds no [None], and [NaN] stays. *)
Definition sql_of_float (c : cell) : sqlval :=
  match c with
  | CNaN => VNaN
  | _ => sql_of_cell c
  end.

(** A cell that a numeric column can hold. *)
Definition float_cell (c : cell) : bool :=
  match c with CNum _ | CNaN => true | _ => false end.

(** The rows that [df.iterrows()] yields are of dtype [float64] when
    every column of the frame is numeric, and of dtype [object] as soon
    as one is not. *)
Definition float_frame (df : DataFrame) : bool :=
  forallb (forallb float_cell) (rows df).

(** [tuple(row.where(pd.notna(row), None))] for a row that
    [df.iloc[...].iterrows()] yields. *)
Definition row_tuple (df : DataFrame) (row : list cell) : list sqlval :=
  if float_frame df then map sql_of_float row else map sql_of_cell row.

(** The body of the loop of [insert_data_in_batches] for one start [i]. *)
Definition batch_step (df : DataFrame) (batch_size : nat)
           (conn : connection) (i : nat) : connection :=
  let batch_data := map (row_tuple df) (iloc (rows df) i (i + batch_size)) in
  commit (executemany conn (columns df) batch_data).

(** The loop, over the given starts: the whole loop runs over
    [range 0 (len df) batch_size], a run cut short over a prefix of it. *)
Definition run_batches (df : DataFrame) (batch_size : nat)
           (starts : list nat) (conn : connection) : connection :=
  fold_left (batch_step df batch_size) starts conn.

(** [insert_data_in_batches(connection, df, batch_size)] *)
Definition insert_data_in_batches (conn : connection) (df : DataFrame)
           (batch_size : nat) : result connection :=
  if batch_size =? 0 then Raise (ValueError "range() arg 3 must not be zero")
  else Ok (run_batches df batch_size (range 0 (len df) batch_size) conn).

(** The default of the keyword argument [batch_size]. *)
Definition default_batch_size : nat := 2000.

(** Equality of cells, as [drop_duplicates] compares them. *)
Definition cell_eqb (a b : cell) : bool :=
  match a, b with
  | CStr s, CStr t => String.eqb s t
  | CNum p, CNum q => Qeq_bool p q
  | (CNaN | CMissing), (CNaN | CMissing) => true
  | CTimestamp d o, CTimestamp d' o' => datetime_eqb d d' && (o =? o')%Z
  | CNaT, CNaT => true
  | _, _ => false
  end.

(** Rows whose cell at position [i] was not seen before. *)
Fixpoint drop_duplicate_rows (i : nat) (seen : list cell)
         (rs : list (list cell)) : list (list cell) :=
  match rs with
  | [] => []
  | r :: rs' =>
      if existsb (cell_eqb (cell_at i r)) seen
      then drop_duplicate_rows i seen rs'
      else r :: drop_duplicate_rows i (cell_at i r :: seen) rs'
  end.

(** [df.drop_duplicates(subset=[name], inplace=True)]: the first row of
    every key stays. *)
Definition drop_duplicates (df : DataFrame) (name : string) : DataFrame :=
  match index_of name (columns df) with
  | None => df
  | Some i => mkDataFrame (columns df) (drop_duplicate_rows i [] (rows df))
  end.

(** [series.isin(values)] on one cell, for a set of strings. *)
Definition isin (values : list string) (c : cell) : bool :=
  match c with
  | CStr s => PyStr.mem s values
  | _ => false
  end.

(** [df[mask]] for a Boolean Series. *)
Fixpoint select_rows (rs : list (list cell)) (mask : list bool)
  : list (list cell) :=
  match rs, mask with
  | r :: rs', b :: mask' =>
      if b then r :: select_rows rs' mask' else select_rows rs' mask'
  | _, _ => []
  end.

Definition primary_key_col : string := "Unique ID".

Section Ingestion.
Context {pandas : Pandas}.

(** [str(v)] for a value read from the database. *)
Definition py_str (v : sqlval) : string :=
  match v with
  | VNull => "None"
  | VStr s => s
  | VNum q => num_to_str q
  | VNaN => "nan"
  | VTimestamp d utcoffset => timestamp_str d utcoffset
  end.

(** [{str(row[0]).strip().lower() for row in cursor.fetchall()}]; only
    membership in the set is ever asked. *)
Definition existing_keys (fetched : list sqlrow) : list string :=
  map (fun row => PyStr.lower (PyStr.strip (py_str (sql_get primary_key_col row))))
      fetched.

(** [series.astype(str).str.strip().str.lower()] on one cell. *)
Definition normalize_key (c : cell) : cell :=
  CStr (PyStr.lower (PyStr.strip (astype_str c))).

(** [insert_unique_data(connection, df)]: the connection afterwards and
    the messages shown. *)
Definition insert_unique_data (conn : connection) (df : DataFrame)
  : result (connection * list message) :=
  let df := set_columns df (clean_column_names (columns df)) in
  if negb (PyStr.mem primary_key_col (columns df)) then
    Ok (conn, [st_error ("Missing primary key column: " ++ primary_key_col)])
  else
    match getitem df primary_key_col with
    | Series keys =>
        let df := setitem df primary_key_col (map normalize_key keys) in
        let df := drop_duplicates df primary_key_col in
        match select_all conn with
        | Raise e => Raise e
        | Ok fetched =>
            let existing_records := existing_keys fetched in
            match getitem df primary_key_col with
            | Series keys' =>
                let new_records :=
                  mkDataFrame (columns df)
                    (select_rows (rows df)
                       (map (fun c => negb (isin existing_records c)) keys')) in
                if empty new_records then
                  Ok (conn, [st_warning "No new unique records found."])
                else
                  match insert_data_in_batches conn new_records
                          default_batch_size with
                  | Raise e => Raise e
                  | Ok conn' =>
                      Ok (conn',
                          [st_success (PyStr.of_nat (len new_records)
                             ++ " unique records uploaded successfully.")])
                  end
            | _ => Raise (AttributeError "'DataFrame' object has no attribute 'isin'")
            end
        end
    | _ => Raise (AttributeError "'DataFrame' object has no attribute 'str'")
    end.

(** [import_csv_page]: [uploaded_file] is what [pd.read_csv(uploaded_file,
    dtype=str)] made of the upload (nothing when no file was chosen, an
    exception when it is not tabular text), [button] is
    [st.button("Upload Data")], [db] is what [get_connection()] returns.
    The result is the messages shown below the title, the template
    download and the file chooser, which every run shows, and the
    database afterwards.  The row index the source renumbers from 1 is
    not part of a frame here. *)
Definition import_csv_page (uploaded_file : option (result DataFrame))
           (button : bool) (db : option connection)
  : list message * option connection :=
  match uploaded_file with
  | None => ([st_warning "Please upload a file."], db)
  | Some (Raise e) => ([st_error ("Error loading file: " ++ exn_text e)], db)
  | Some (Ok df) =>
      let df := fillna "" df in
      let df := set_columns df (clean_column_names (columns df)) in
      let missing_columns :=
        filter (fun col => negb (PyStr.mem col (columns df))) REQUIRED_COLUMNS in
      match missing_columns with
      | _ :: _ =>
          ([st_error ("Invalid file: Missing required columns - "
                      ++ PyStr.join ", " missing_columns)], db)
      | [] =>
          let '(df, warnings) := enforce_data_types df in
          let log :=
            warnings ++
            [st_write ("Total records: " ++ PyStr.of_nat (len df));
             st_success "File loaded successfully!";
             st_dataframe df] in
          if button then
            match db with
            | Some conn =>
                if table_exists conn TABLE_NAME then
                  match insert_unique_data conn df with
                  | Ok (conn', shown) => (log ++ shown, Some (close conn'))
                  | Raise e =>
                      (log ++ [st_error ("Error loading file: " ++ exn_text e)],
                       Some conn)
                  end
                else
                  (log ++ [st_error ("Table `" ++ TABLE_NAME ++
                     "` does not exist. Please create it manually in the database.")],
                   Some (close conn))
            | None => (log ++ [st_error "Could not connect to the database."], db)
            end
          else (log, db)
      end
  end.

End Ingestion.

(* ================================================================== *)
(** ** [dashboard.py]: the reporting queries *)
(* ================================================================== *)

(** A [datetime.date]. *)
Record date : Type := mkDate { date_year : N; date_month : N; date_day : N }.

(** The text the driver puts in place of [%s] for a [datetime.date]. *)
Definition date_literal (d : date) : string :=
  PyStr.zfill 4 (str_of_N (date_year d)) ++ "-" ++
  PyStr.zfill 2 (str_of_N (date_month d)) ++ "-" ++
  PyStr.zfill 2 (str_of_N (date_day d)).

(** [a > b] on dates. *)
Definition date_gtb (a b : date) : bool :=
  ((date_year b <? date_year a)
   || ((date_year b =? date_year a)
       && ((date_month b <? date_month a)
           || ((date_month b =? date_month a)
               && (date_day b <? date_day a)))))%N.

(** One statement of [QUERIES]:
    [SELECT c AS a, COUNT( * ) AS n FROM managed_services
     WHERE c IS NOT NULL AND timestamp BETWEEN %s AND %s
     GROUP BY c ORDER BY n DESC [LIMIT k]]. *)
Record select_query : Type := mkQuery {
  group_column : string;
  group_alias : string;
  count_alias : string;
  limit : option nat
}.

Definition QUERIES : list (string * select_query) :=
  [ ("processing_tool_usage", mkQuery "OCR" "OCR" "user_count" None);
    ("top_payers", mkQuery "payer" "payer" "payer_count" (Some 20));
    ("emea_distribution", mkQuery "EMEA" "EMEA" "count" None);
    ("priority_distribution", mkQuery "priority" "priority" "count" None);
    ("top_languages", mkQuery "foreign language" "language" "count" (Some 5)) ].

Definition is_null (v : sqlval) : bool :=
  match v with VNull => true | _ => false end.

(** [v BETWEEN lo AND hi] for two text parameters: both ends belong to
    the range, text is compared character by character, and [NULL] is in
    no range. *)
Definition sql_between (v : sqlval) (lo hi : string) : bool :=
  match v with
  | VStr s => String.leb lo s && String.leb s hi
  | _ => false
  end.

(** The [WHERE] clause of a query on one row. *)
Definition where_clause (q : select_query) (lo hi : string) (row : sqlrow) : bool :=
  negb (is_null (sql_get (group_column q) row))
  && sql_between (sql_get "timestamp" row) lo hi.

Definition sqlval_eqb (a b : sqlval) : bool :=
  match a, b with
  | VNull, VNull => true
  | VStr s, VStr t => String.eqb s t
  | VNum p, VNum q => Qeq_bool p q
  | VNaN, VNaN => true
  | VTimestamp d o, VTimestamp d' o' => datetime_eqb d d' && (o =? o')%Z
  | _, _ => false
  end.

(** The distinct values of a column, in order of first appearance. *)
Fixpoint distinct_values (seen : list sqlval) (values : list sqlval)
  : list sqlval :=
  match values with
  | [] => []
  | v :: values' =>
      if existsb (sqlval_eqb v) seen then distinct_values seen values'
      else v :: distinct_values (v :: seen) values'
  end.

(** [COUNT( * )] of the group of [v]. *)
Definition count_value (v : sqlval) (values : list sqlval) : nat :=
  List.length (filter (fun x => sqlval_eqb x v) values).

(** [GROUP BY] with [COUNT( * )]: one row per distinct value, with the
    number of rows that hold it. *)
Definition group_count (values : list sqlval) : list (sqlval * nat) :=
  map (fun v => (v, count_value v values)) (distinct_values [] values).

(** [ORDER BY n DESC]; the order among equal counts is the server's. *)
Fixpoint insert_desc (g : sqlval * nat) (sorted : list (sqlval * nat))
  : list (sqlval * nat) :=
  match sorted with
  | [] => [g]
  | h :: t => if snd h <? snd g then g :: h :: t else h :: insert_desc g t
  end.

Definition order_by_count_desc (groups : list (sqlval * nat))
  : list (sqlval * nat) :=
  fold_right insert_desc [] groups.

Definition apply_limit {A : Type} (k : option nat) (l : list A) : list A :=
  match k with Some n => firstn n l | None => l end.

(** The groups a query returns over the rows of a table. *)
Definition aggregate (q : select_query) (lo hi : string) (table : list sqlrow)
  : list (sqlval * nat) :=
  apply_limit (limit q)
    (order_by_count_desc
       (group_count
          (map (sql_get (group_column q)) (filter (where_clause q lo hi) table)))).

(** [cursor.execute(query, (start_date, end_date))] and [fetchall()]
    with [dictionary=True]: one dict per group. *)
Definition execute_query (conn : connection) (q : select_query)
           (start_date end_date : date) : result (list sqlrow) :=
  match select_all conn with
  | Raise e => Raise e
  | Ok table =>
      Ok (map (fun g => [(group_alias q, fst g);
                         (count_alias q, VNum (inject_Z (Z.of_nat (snd g))))])
              (aggregate q (date_literal start_date) (date_literal end_date)
                 table))
  end.

Definition cell_of_sql (v : sqlval) : cell :=
  match v with
  | VNull | VNaN => CNaN
  | VStr s => CStr s
  | VNum q => CNum q
  | VTimestamp d utcoffset => CTimestamp d utcoffset
  end.

(** [pd.DataFrame(result)] for a list of dicts with the same keys. *)
Definition DataFrame_of_records (records : list sqlrow) : DataFrame :=
  mkDataFrame
    (match records with [] => [] | r :: _ => map fst r end)
    (map (map (fun kv => cell_of_sql (snd kv))) records).

(** [fetch_data(query, start_date, end_date)]: the pair it returns. *)
Definition fetch_data (query : select_query) (start_date end_date : date)
           (db : option connection) : option DataFrame * option string :=
  match db with
  | None => (None, Some "Failed to connect to the database.")
  | Some conn =>
      match execute_query conn query start_date end_date with
      | Ok records => (Some (DataFrame_of_records records), None)
      | Raise e => (None, Some (exn_text e))
      end
  end.

(** The table [data_fetchers] of [admin_dashboard]: section title and
    query key. *)
Definition data_fetchers : list (string * string) :=
  [ ("OCR wise volume", "processing_tool_usage");
    ("Top Payers", "top_payers");
    ("EMEA Contribution", "emea_distribution");
    ("Priority Distribution", "priority_distribution");
    ("Top 5 Languages", "top_languages") ].

(** [QUERIES[key]] *)
Fixpoint lookup_query (key : string) (qs : list (string * select_query))
  : option select_query :=
  match qs with
  | [] => None
  | (k, q) :: qs' => if String.eqb key k then Some q else lookup_query key qs'
  end.

(** One turn of the loop of [admin_dashboard]: an error is shown, an
    empty frame is passed over in silence, anything else is shown under
    its title, the five languages as a table ([st.write(df)]), the
    others as a chart.  The message carries the frame fetched: the
    sorting, the percentages and the totals row the source derives from
    it for the drawing are left to the presentation. *)
Definition show_section (start_date end_date : date) (db : option connection)
           (entry : string * string) : list message :=
  let '(section, query_key) := entry in
  match lookup_query query_key QUERIES with
  | None => []
  | Some q =>
      match fetch_data q start_date end_date db with
      | (_, Some error) =>
          [st_error ("Error fetching " ++ PyStr.lower section ++ " data: " ++ error)]
      | (Some df, None) =>
          if empty df then []
          else if String.eqb section "Top 5 Languages"
               then [st_subheader section; st_dataframe df]
               else [st_subheader section; st_plotly_chart df]
      | (None, None) => []
      end
  end.

(** [admin_dashboard], from the chosen [date_range] on. *)
Definition admin_dashboard (date_range : list date) (db : option connection)
  : list message :=
  match date_range with
  | [start_date; end_date] =>
      if date_gtb start_date end_date
      then [st_error "Start date cannot be after end date."]
      else flat_map (show_section start_date end_date db) data_fetchers
  | _ => [st_warning "Please select a valid date range."]
  end.

(* ================================================================== *)
(** ** A reference instance of the library calls *)
(* ================================================================== *)

(** To run the model, the parsers of pandas are instantiated on the
    inputs they agree on with any version of the library: plain decimal
    literals for numbers, ISO dates with an optional time of day and an
    optional offset from UTC for timestamps; every other text is
    unparseable here. *)
Module Reference.

Definition digit (c : ascii) : option N :=
  let n := N_of_ascii c in
  if ((48 <=? n) && (n <=? 57))%N then Some (n - 48)%N else None.

(** Value of a run of digits read after [acc]; [None] on any other
    character. *)
Fixpoint digits (acc : N) (s : string) : option N :=
  match s with
  | EmptyString => Some acc
  | String c s' =>
      match digit c with
      | Some d => digits (acc * 10 + d)%N s'
      | None => None
      end
  end.

(** The text before and after the first ['.']. *)
Fixpoint split_dot (s : string) : string * option string :=
  match s with
  | EmptyString => (EmptyString, None)
  | String c s' =>
      if Ascii.eqb c "."%char then (EmptyString, Some s')
      else let '(a, b) := split_dot s' in (String c a, b)
  end.

(** An unsigned decimal literal: digits, optionally a point and more
    digits, with at least one digit in all. *)
Definition unsigned_literal (s : string) : option Q :=
  let '(int_part, frac) := split_dot s in
  let frac_part := match frac with Some f => f | None => EmptyString end in
  if (String.length int_part + String.length frac_part =? 0)%nat then None
  else
    match digits 0 int_part, digits 0 frac_part with
    | Some i, Some f =>
        let scale := (10 ^ N.of_nat (String.length frac_part))%N in
        Some (Qred (Z.of_N (i * scale + f) # Pos.of_nat (N.to_nat scale)))
    | _, _ => None
    end.

(** A decimal literal with an optional sign. *)
Definition decimal_literal (s : string) : option Q :=
  match s with
  | String "-" s' => option_map Qopp (unsigned_literal s')
  | String "+" s' => unsigned_literal s'
  | _ => unsigned_literal s
  end.

(** The number read from [n] characters of [s] from position [i]. *)
Definition field (i n : nat) (s : string) : option N :=
  let t := String.substring i n s in
  if (String.length t =? n)%nat then digits 0 t else None.

Definition char_is (i : nat) (c : ascii) (s : string) : bool :=
  match String.get i s with
  | Some d => Ascii.eqb c d
  | None => false
  end.

(** [YYYY-MM-DD] or [YYYY-MM-DD HH:MM:SS], within the calendar ranges. *)
Definition iso_datetime (s : string) : option datetime :=
  let n := String.length s in
  if negb ((n =? 10)%nat || (n =? 19)%nat) then None
  else if negb (char_is 4 "-" s && char_is 7 "-" s) then None
  else
    match field 0 4 s, field 5 2 s, field 8 2 s with
    | Some y, Some m, Some d =>
        if negb ((1 <=? m) && (m <=? 12) && (1 <=? d) && (d <=? 31))%N then None
        else if (n =? 10)%nat then Some (mkDatetime y m d 0 0 0)
        else if negb (char_is 10 " " s && char_is 13 ":" s && char_is 16 ":" s)
        then None
        else
          match field 11 2 s, field 14 2 s, field 17 2 s with
          | Some h, Some mi, Some se =>
              if ((h <? 24) && (mi <? 60) && (se <? 60))%N
              then Some (mkDatetime y m d h mi se)
              else None
          | _, _, _ => None
          end
    | _, _, _ => None
    end.

(** [+HH:MM] or [-HH:MM]: the offset in minutes. *)
Definition utc_offset (s : string) : option Z :=
  if negb (String.length s =? 6)%nat then None
  else if negb (char_is 3 ":" s) then None
  else
    match field 1 2 s, field 4 2 s with
    | Some h, Some m =>
        if negb ((h <? 24) && (m <? 60))%N then None
        else if char_is 0 "+" s then Some (Z.of_N (h * 60 + m))
        else if char_is 0 "-" s then Some (- Z.of_N (h * 60 + m))%Z
        else None
    | _, _ => None
    end.

(** A date and time as above, with or without an offset after it. *)
Definition iso_timestamp (s : string) : option (datetime * option Z) :=
  if (String.length s =? 25)%nat then
    match iso_datetime (String.substring 0 19 s),
          utc_offset (String.substring 19 6 s) with
    | Some d, Some o => Some (d, Some o)
    | _, _ => None
    end
  else option_map (fun d => (d, None)) (iso_datetime s).

Definition timestamp_cell (c : cell) : option (datetime * option Z) :=
  match c with
  | CStr s => iso_timestamp s
  | _ => None
  end.

(** Does the first value that parses carry an offset?  The column is
    read in the format of that value, and a value of the other format
    is given up on. *)
Fixpoint first_has_offset (l : list (option (datetime * option Z))) : bool :=
  match l with
  | [] => false
  | Some (_, Some _) :: _ => true
  | Some (_, None) :: _ => false
  | None :: l' => first_has_offset l'
  end.

Definition with_offset (p : option (datetime * option Z))
  : option (datetime * Z) :=
  match p with
  | Some (d, Some o) => Some (d, o)
  | _ => None
  end.

Definition without_offset (p : option (datetime * option Z))
  : option datetime :=
  match p with
  | Some (d, None) => Some d
  | _ => None
  end.

(** Every offset of the column is the first one. *)
Fixpoint same_offset (first : option Z) (l : list (option (datetime * Z)))
  : bool :=
  match l with
  | [] => true
  | None :: l' => same_offset first l'
  | Some (_, o) :: l' =>
      match first with
      | None => same_offset (Some o) l'
      | Some o' => (o =? o')%Z && same_offset first l'
      end
  end.

(** The column as [pd.to_datetime] returns it: without offsets, or with
    one offset throughout, a [datetime64] column of the times as written;
    with offsets that differ, [Timestamp] objects. *)
Definition parse_datetimes (s : list cell) : datetimes :=
  let parsed := map timestamp_cell s in
  if first_has_offset parsed then
    let aware := map with_offset parsed in
    if same_offset None aware
    then DatetimeSeries (map (option_map fst) aware)
    else ObjectSeries aware
  else DatetimeSeries (map without_offset parsed).


(** The least [k] from [k] on, within [fuel] steps, for which [den]
    divides the [k]-th power of ten. *)
Fixpoint places (fuel : nat) (den k : N) : N :=
  match fuel with
  | O => k
  | S fuel' =>
      if ((10 ^ k) mod den =? 0)%N then k else places fuel' den (k + 1)%N
  end.

(** A number printed in decimal: the digits of an integer, or the
    integer part, a point and the decimals. *)
Definition print_num (q : Q) : string :=
  let r := Qred q in
  let d := Npos (Qden r) in
  let k := places 40 d 0 in
  let scaled := (Z.abs_N (Qnum r) * 10 ^ k / d)%N in
  let sign := if (Qnum r <? 0)%Z then "-" else "" in
  let int_part := str_of_N (scaled / 10 ^ k) in
  if (k =? 0)%N then sign ++ int_part
  else sign ++ int_part ++ "."
       ++ PyStr.zfill (N.to_nat k) (str_of_N (scaled mod 10 ^ k)).

#[export] Instance pandas : Pandas := {|
  to_datetime := parse_datetimes;
  to_datetime_length :=
    ltac:(intros s; unfold parse_datetimes;
          destruct (first_has_offset _); [destruct (same_offset _ _)|];
          cbn [datetimes_length]; now rewrite ?length_map);
  to_numeric_str := decimal_literal;
  num_to_str := print_num
|}.

End Reference.

(* ================================================================== *)
(** ** Vocabulary of the properties *)
(* ================================================================== *)

(** Nothing is left to strip at either end of [s]. *)
Definition stripped (s : string) : bool :=
  match PyStr.head s with
  | None => true
  | Some c => negb (PyStr.isspace c)
  end
  && match PyStr.last s with
     | None => true
     | Some c => negb (PyStr.isspace c)
     end.

(** [s] is [core] between two runs of white space. *)
Definition padded (core s : string) : Prop :=
  exists p q, PyStr.all_space p = true /\ PyStr.all_space q = true
              /\ s = (p ++ core ++ q)%string.

(** Two headers that differ only in the white space around them. *)
Definition differ_only_in_padding (a b : string) : Prop :=
  exists core, padded core a /\ padded core b.

(** The cells of the column at position [j], from the first row down. *)
Definition column_at (j : nat) (df : DataFrame) : list cell :=
  map (cell_at j) (rows df).

(** Every row has one cell per label. *)
Definition rectangular (df : DataFrame) : Prop :=
  Forall (fun r => List.length r = List.length (columns df)) (rows df).

(** The type the catalog gives a column, if it knows the column. *)
Fixpoint lookup_dtype (name : string) (items : list (string * string))
  : option string :=
  match items with
  | [] => None
  | (n, t) :: items' =>
      if String.eqb name n then Some t else lookup_dtype name items'
  end.

(** Calendar ranges of a [datetime] with a four-digit year. *)
Definition valid_datetime (d : datetime) : Prop :=
  (1000 <= year d <= 9999 /\ 1 <= month d <= 12 /\ 1 <= day d <= 31
   /\ hour d < 24 /\ minute d < 60 /\ second d < 60)%N.

(** No two labels name the same column of the table. *)
Definition sql_distinct (names : list string) : Prop :=
  NoDup (map PyStr.lower names).

(** What [enforce_data_types] puts in a column of the given type, from
    the cells the column had. *)
Definition converted {pandas : Pandas} (dtype : string) (s : list cell)
  : list cell :=
  if PyStr.startswith dtype "datetime64" then
    match to_datetime s with
    | DatetimeSeries values => dt_strftime values
    | ObjectSeries values => timestamps values
    end
  else if String.eqb dtype "float64" then map to_numeric_cell s
  else if String.eqb dtype "Int64" then map to_numeric_cell s
  else map (fun c => CStr (PyStr.strip (astype_str c))) s.

(** The padded digits of [n] are [width] characters that read back as
    [n]; checked over every [n] a field of the format can hold. *)
Definition two_digit_ok (n : N) : bool :=
  match PyStr.zfill 2 (str_of_N n) with
  | String a (String b EmptyString) =>
      match Reference.digits 0 (String a (String b EmptyString)) with
      | Some m => N.eqb m n
      | None => false
      end
  | _ => false
  end.

Definition four_digit_ok (n : N) : bool :=
  match PyStr.zfill 4 (str_of_N n) with
  | String a (String b (String c (String d EmptyString))) =>
      match Reference.digits 0
              (String a (String b (String c (String d EmptyString)))) with
      | Some m => N.eqb m n
      | None => false
      end
  | _ => false
  end.

(** The frames of the examples: a timestamp, a decimal and a text column
    with one bad cell each way; an integer and a decimal column holding
    the same text. *)
Definition example_frame : DataFrame :=
  mkDataFrame ["Timestamp"; "Tax Amt"; "Payer"]
    [ [CStr "not-a-date"; CStr "12.5"; CStr " Acme "];
      [CStr "2024-01-05"; CStr "abc"; CStr "Initech"] ].

Definition fraction_frame : DataFrame :=
  mkDataFrame ["Bill Lines"; "Tax Amt"] [ [CStr "12.5"; CStr "12.5"] ].

(** A row of a frame with a column that is not numeric, as the table
    holds it once inserted. *)
Definition stored_row (names : list string) (row : list cell) : sqlrow :=
  combine names (map sql_of_cell row).

(** A row of any frame as the table holds it once inserted. *)
Definition stored_as (df : DataFrame) (row : list cell) : sqlrow :=
  combine (columns df) (row_tuple df row).

(** What the [try] of [enforce_data_types] raises on a column of the
    given type that it could select. *)
Definition conversion_error {pandas : Pandas} (dtype : string) (s : list cell)
  : option exn :=
  if PyStr.startswith dtype "datetime64" then
    match to_datetime s with
    | DatetimeSeries _ => None
    | ObjectSeries _ =>
        Some (AttributeError
                "Can only use .dt accessor with datetimelike values")
    end
  else None.

(** A frame whose two timestamps carry different offsets from UTC. *)
Definition offsets_frame : DataFrame :=
  mkDataFrame ["Timestamp"; "Payer"]
    [ [CStr "2024-01-01 10:00:00+01:00"; CStr "Acme"];
      [CStr "2024-01-02 10:00:00+02:00"; CStr "Initech"] ].

(** A frame with two columns cleaned to the label ["Timestamp"]. *)
Definition twice_dated_frame : DataFrame :=
  mkDataFrame ["Timestamp"; "Payer"; "Timestamp"]
    [ [CStr "2024-01-05"; CStr " Acme "; CStr "2024-01-06"] ].

(** A frame of 4500 rows and a connection to the empty table. *)
Definition frame_4500 : DataFrame :=
  mkDataFrame ["Unique ID"] (repeat [CStr "id"] 4500).

Definition empty_table : connection := mkConnection true [] [] [].

Section KeyVocabulary.
Context {pandas : Pandas}.

(** The normalized key of a row of the upload: the cell under
    ["Unique ID"] as text, trimmed and lowered. *)
Definition key_of (j : nat) (r : list cell) : string :=
  PyStr.lower (PyStr.strip (astype_str (cell_at j r))).

(** The row with its key cell rewritten to the normalized key. *)
Definition with_key (j : nat) (r : list cell) : list cell :=
  set_nth j (normalize_key (cell_at j r)) r.

(** The normalized key of a stored row, as [insert_unique_data] reads
    it back. *)
Definition stored_key (row : sqlrow) : string :=
  PyStr.lower (PyStr.strip (py_str (sql_get primary_key_col row))).

(** The rows whose key is neither in [seen] nor the key of an earlier
    row. *)
Fixpoint first_rows (j : nat) (seen : list string) (rs : list (list cell))
  : list (list cell) :=
  match rs with
  | [] => []
  | r :: rs' =>
      if PyStr.mem (key_of j r) seen then first_rows j seen rs'
      else r :: first_rows j (key_of j r :: seen) rs'
  end.

(** The rows of the upload that [insert_unique_data] inserts: the first
    row of every key that storage does not hold. *)
Definition new_rows (j : nat) (existing : list string) (rs : list (list cell))
  : list (list cell) :=
  filter (fun r => negb (PyStr.mem (key_of j r) existing)) (first_rows j [] rs).

End KeyVocabulary.

(** Rows of the upload beyond the first of their key. *)
Definition intra_upload_duplicates (keys : list string) : nat :=
  List.length keys - List.length (nodup string_dec keys).

(** Keys of the upload, each counted once, that storage already holds. *)
Definition pre_existing_duplicates (existing keys : list string) : nat :=
  List.length (filter (fun k => PyStr.mem k existing) (nodup string_dec keys)).

(** The first row of the upload with the key [k]. *)
Definition first_with_key {pandas : Pandas} (j : nat) (k : string)
           (rs : list (list cell)) : option (list cell) :=
  find (fun r => String.eqb (key_of j r) k) rs.

(** An upload of four rows: the second repeats the key of the first up
    to case and white space, the third is already in the table. *)
Definition upload_four : DataFrame :=
  mkDataFrame ["Unique ID"; "Payer"]
    [ [CStr " A1 "; CStr "Acme"];
      [CStr "a1"; CStr "Acme again"];
      [CStr "B2"; CStr "Initech"];
      [CStr "c3"; CStr "Globex"] ].

Definition table_with_b2 : connection :=
  mkConnection true [ [("Unique ID", VStr "b2"); ("Payer", VStr "Initech")] ] [] [].

(** An upload with every required column: a row is given by its
    ["Unique ID"] and its ["Bill Lines"], and holds ["x"] elsewhere. *)
Definition upload_of (entries : list (string * string)) : DataFrame :=
  mkDataFrame REQUIRED_COLUMNS
    (map (fun e =>
            map (fun col =>
                   if String.eqb col "Unique ID" then CStr (fst e)
                   else if String.eqb col "Bill Lines" then CStr (snd e)
                   else CStr "x")
                REQUIRED_COLUMNS)
         entries).

(** The rows of the table after a page run. *)
Definition table_after (outcome : list message * option connection)
  : list sqlrow :=
  match snd outcome with
  | Some conn => committed conn
  | None => []
  end.

(** A table with five rows, three of them in January 2024. *)
Definition report_row (ts ocr : string) : sqlrow :=
  [("Timestamp", VStr ts); ("OCR", VStr ocr)].

Definition five_rows : connection :=
  mkConnection true
    [ report_row "2023-12-31 23:59:59" "Tool A";
      report_row "2024-01-01 00:00:00" "Tool A";
      report_row "2024-01-15 12:00:00" "Tool B";
      report_row "2024-01-30 08:30:00" "Tool A";
      report_row "2024-02-01 00:00:00" "Tool B" ]
    [] [].

Definition processing_tool_usage : select_query :=
  mkQuery "OCR" "OCR" "user_count" None.

(** A table with three rows of January 2024, two of them of the 31st. *)
Definition end_day_rows : connection :=
  mkConnection true
    [ report_row "2024-01-15 12:00:00" "Tool A";
      report_row "2024-01-31 00:00:00" "Tool A";
      report_row "2024-01-31 10:00:00" "Tool B" ]
    [] [].

Section UploadVocabulary.
Context {pandas : Pandas}.

(** An upload [insert_unique_data] can take: one cell per label in every
    row, labels that name distinct columns once cleaned, ["Unique ID"]
    among them. *)
Definition well_formed_upload (df : DataFrame) : Prop :=
  rectangular df
  /\ sql_distinct (clean_column_names (columns df))
  /\ In primary_key_col (clean_column_names (columns df)).

(** The table after [insert_unique_data]; a run that raises leaves it as
    it was. *)
Definition ingest (conn : connection) (df : DataFrame) : connection :=
  match insert_unique_data conn df with
  | Ok (conn', _) => conn'
  | Raise _ => conn
  end.

End UploadVocabulary.

(** The day of a [datetime]. *)
Definition date_of (d : datetime) : date :=
  mkDate (year d) (month d) (day d).

(** A date whose fields fit the widths of its literal, as every
    [datetime.date] does. *)
Definition date_fits (d : date) : Prop :=
  (date_year d < 10000 /\ date_month d < 100 /\ date_day d < 100)%N.

(** A message that is a warning. *)
Definition is_warning (m : message) : bool :=
  match m with st_warning _ => true | _ => false end.

(** A message that is an error. *)
Definition is_error (m : message) : bool :=
  match m with st_error _ => true | _ => false end.

(** What a cell of a column of the given type may be after coercion: a
    number or nothing in a decimal or integer column, a formatted date
    or nothing in a timestamp column, trimmed text in any other. *)
Definition fits_dtype (dtype : string) (c : cell) : Prop :=
  if PyStr.startswith dtype "datetime64" then
    c = CMissing \/ exists d, c = CStr (strftime d)
  else if String.eqb dtype "float64" || String.eqb dtype "Int64" then
    c = CNaN \/ exists q, c = CNum q
  else
    exists s, c = CStr s /\ stripped s = true.

(** A frame with a number, a gap and padded text under a text column. *)
Definition gaps_frame : DataFrame :=
  mkDataFrame ["Payer"; "Tax Amt"; "Remarks"]
    [ [CMissing; CStr "1.50"; CStr " keep me "];
      [CStr " Acme "; CMissing; CMissing] ].

(** A label that stands over more than one column of the header. *)
Definition repeated (labels : list string) (item : string * string) : bool :=
  2 <=? label_count (fst item) labels.

(** An entry of the catalog whose conversion ends in an exception: its
    label stands over more than one column, or over one column of
    timestamps that [pd.to_datetime] does not return as dates. *)
Definition unconverted {pandas : Pandas} (df : DataFrame)
           (item : string * string) : bool :=
  repeated (columns df) item
  || match index_of (fst item) (columns df) with
     | Some j =>
         match conversion_error (snd item) (column_at j df) with
         | Some _ => true
         | None => false
         end
     | None => false
     end.

(** A frame with two columns cleaned to the same catalogued label. *)
Definition twice_frame : DataFrame :=
  mkDataFrame ["Tax Amt"; "Payer"; "Tax Amt"]
    [ [CStr "1.5"; CStr " Acme "; CStr "abc"] ].

(** The order of [ORDER BY n DESC] on two groups. *)
Definition ranks_before (a b : sqlval * nat) : Prop := snd b <= snd a.

(** A row of the answer of a query as [pd.DataFrame] holds it. *)
Definition answer_row (g : sqlval * nat) : list cell :=
  [cell_of_sql (fst g); CNum (inject_Z (Z.of_nat (snd g)))].

(** A [datetime.date] strictly before another. *)
Definition date_ltb (a b : date) : bool := date_gtb b a.

(** A table whose one row has no key, and an upload whose one row has
    the key [None], padded. *)
Definition table_with_null : connection :=
  mkConnection true [ [("Unique ID", VNull); ("Payer", VStr "Acme")] ] [] [].

Definition upload_none : DataFrame :=
  mkDataFrame ["Unique ID"; "Payer"] [ [CStr " None "; CStr "Initech"] ].

(** The errors the dashboard shows when no query can be answered: one
    for each section, with the text of the failure. *)
Definition failures (text : string) : list message :=
  map (fun entry =>
         st_error ("Error fetching " ++ PyStr.lower (fst entry) ++ " data: " ++ text))
      data_fetchers.

(* PROPERTIES *)

(* ================================================================== *)
(** ** Strings *)
(* ================================================================== *)

Lemma isspace_lower_char c : PyStr.isspace (PyStr.lower_char c) = PyStr.isspace c.
Proof. destruct c as [[] [] [] [] [] [] [] []]; reflexivity. Qed.

Lemma lower_char_idem c :
  PyStr.lower_char (PyStr.lower_char c) = PyStr.lower_char c.
Proof. destruct c as [[] [] [] [] [] [] [] []]; reflexivity. Qed.

Lemma lower_idem s : PyStr.lower (PyStr.lower s) = PyStr.lower s.
Proof.
  induction s as [|c s IH]; simpl; [reflexivity|].
  now rewrite lower_char_idem, IH.
Qed.

Lemma lstrip_lower s : PyStr.lstrip (PyStr.lower s) = PyStr.lower (PyStr.lstrip s).
Proof.
  induction s as [|c s IH]; simpl; [reflexivity|].
  rewrite isspace_lower_char. destruct (PyStr.isspace c); [exact IH|reflexivity].
Qed.

Lemma rstrip_lower s : PyStr.rstrip (PyStr.lower s) = PyStr.lower (PyStr.rstrip s).
Proof.
  induction s as [|c s IH]; simpl; [reflexivity|].
  rewrite IH, isspace_lower_char.
  destruct (PyStr.rstrip s); simpl; [destruct (PyStr.isspace c)|]; reflexivity.
Qed.

Lemma strip_lower s : PyStr.strip (PyStr.lower s) = PyStr.lower (PyStr.strip s).
Proof. unfold PyStr.strip. now rewrite lstrip_lower, rstrip_lower. Qed.

Lemma lstrip_all_space p : PyStr.all_space p = true -> PyStr.lstrip p = "".
Proof.
  induction p as [|c p IH]; simpl; [reflexivity|].
  intros H. apply andb_true_iff in H as [Hc Hp]. now rewrite Hc, IH.
Qed.

Lemma rstrip_all_space p : PyStr.all_space p = true -> PyStr.rstrip p = "".
Proof.
  induction p as [|c p IH]; simpl; [reflexivity|].
  intros H. apply andb_true_iff in H as [Hc Hp]. now rewrite IH, Hc.
Qed.

Lemma lstrip_app_l p s :
  PyStr.all_space p = true -> PyStr.lstrip (p ++ s) = PyStr.lstrip s.
Proof.
  induction p as [|c p IH]; simpl; [reflexivity|].
  intros H. apply andb_true_iff in H as [Hc Hp]. now rewrite Hc, IH.
Qed.

Lemma rstrip_app_r s q :
  PyStr.all_space q = true -> PyStr.rstrip (s ++ q) = PyStr.rstrip s.
Proof.
  intros Hq. induction s as [|c s IH]; simpl.
  - now apply rstrip_all_space.
  - now rewrite IH.
Qed.

Lemma lstrip_app_r s q :
  PyStr.all_space q = true ->
  PyStr.rstrip (PyStr.lstrip (s ++ q)) = PyStr.rstrip (PyStr.lstrip s).
Proof.
  intros Hq. induction s as [|c s IH]; simpl.
  - rewrite lstrip_all_space by assumption. reflexivity.
  - destruct (PyStr.isspace c); [exact IH|].
    change (String c (s ++ q)) with (String c s ++ q)%string.
    now apply rstrip_app_r.
Qed.

Lemma strip_padded core s : padded core s -> PyStr.strip s = PyStr.strip core.
Proof.
  intros (p & q & Hp & Hq & ->). unfold PyStr.strip.
  rewrite lstrip_app_l by assumption. now apply lstrip_app_r.
Qed.

Lemma rstrip_head_nonspace c s :
  PyStr.isspace c = false -> PyStr.rstrip (String c s) = String c (PyStr.rstrip s).
Proof. intros H. simpl. rewrite H. now destruct (PyStr.rstrip s). Qed.

Lemma rstrip_last s :
  match PyStr.last (PyStr.rstrip s) with
  | None => True
  | Some c => PyStr.isspace c = false
  end.
Proof.
  induction s as [|c s IH]; simpl; [exact I|].
  destruct (PyStr.rstrip s) as [|d r] eqn:E.
  - destruct (PyStr.isspace c) eqn:Hc; simpl; [exact I|exact Hc].
  - exact IH.
Qed.

Lemma lstrip_head s :
  match PyStr.head (PyStr.lstrip s) with
  | None => True
  | Some c => PyStr.isspace c = false
  end.
Proof.
  induction s as [|c s IH]; simpl; [exact I|].
  destruct (PyStr.isspace c) eqn:Hc; [exact IH|exact Hc].
Qed.

Lemma stripped_strip s : stripped (PyStr.strip s) = true.
Proof.
  unfold stripped, PyStr.strip.
  pose proof (lstrip_head s) as Hh. pose proof (rstrip_last (PyStr.lstrip s)) as Hl.
  destruct (PyStr.lstrip s) as [|c t] eqn:E; [reflexivity|].
  simpl in Hh. rewrite (rstrip_head_nonspace c t Hh) in *.
  cbn [PyStr.head]. rewrite Hh. cbn [negb andb].
  destruct (PyStr.last (String c (PyStr.rstrip t))); [now rewrite Hl|reflexivity].
Qed.

Lemma stripped_lstrip s : stripped s = true -> PyStr.lstrip s = s.
Proof.
  unfold stripped. destruct s as [|c s]; [reflexivity|]. simpl PyStr.head.
  intros H. apply andb_true_iff in H as [H _]. apply negb_true_iff in H.
  simpl. now rewrite H.
Qed.

Lemma last_nonspace_rstrip s :
  match PyStr.last s with
  | None => True
  | Some c => PyStr.isspace c = false
  end -> PyStr.rstrip s = s.
Proof.
  induction s as [|c s IH]; [reflexivity|].
  destruct s as [|d s'].
  - simpl. now intros ->.
  - intros H. change (PyStr.last (String c (String d s'))) with (PyStr.last (String d s')) in H.
    specialize (IH H). change (PyStr.rstrip (String c (String d s')))
      with (match PyStr.rstrip (String d s') with
            | EmptyString => if PyStr.isspace c then EmptyString else String c EmptyString
            | r => String c r end).
    now rewrite IH.
Qed.

Lemma stripped_rstrip s : stripped s = true -> PyStr.rstrip s = s.
Proof.
  unfold stripped. intros H. apply andb_true_iff in H as [_ H].
  apply last_nonspace_rstrip. destruct (PyStr.last s); [|exact I].
  now apply negb_true_iff in H.
Qed.

Lemma stripped_fixed s : stripped s = true -> PyStr.strip s = s.
Proof.
  intros H. unfold PyStr.strip. rewrite (stripped_lstrip s H). now apply stripped_rstrip.
Qed.

Lemma strip_idem s : PyStr.strip (PyStr.strip s) = PyStr.strip s.
Proof. apply stripped_fixed, stripped_strip. Qed.

(** Trimming and lowering a key twice changes nothing more. *)
Lemma normal_form_idem s :
  PyStr.lower (PyStr.strip (PyStr.lower (PyStr.strip s)))
  = PyStr.lower (PyStr.strip s).
Proof. now rewrite strip_lower, strip_idem, lower_idem. Qed.

Lemma head_replace s :
  PyStr.head (PyStr.replace nbsp space s)
  = option_map (fun c => if Ascii.eqb c nbsp then space else c) (PyStr.head s).
Proof. destruct s; reflexivity. Qed.

Lemma last_replace s :
  PyStr.last (PyStr.replace nbsp space s)
  = option_map (fun c => if Ascii.eqb c nbsp then space else c) (PyStr.last s).
Proof.
  induction s as [|c s IH]; [reflexivity|].
  destruct s as [|d s']; [reflexivity|].
  change (PyStr.last (String c (String d s'))) with (PyStr.last (String d s')).
  rewrite <- IH. reflexivity.
Qed.

Lemma isspace_replace c :
  PyStr.isspace (if Ascii.eqb c nbsp then space else c) = PyStr.isspace c.
Proof. destruct c as [[] [] [] [] [] [] [] []]; reflexivity. Qed.

Lemma stripped_replace s :
  stripped (PyStr.replace nbsp space s) = stripped s.
Proof.
  unfold stripped. rewrite head_replace, last_replace.
  destruct (PyStr.head s), (PyStr.last s); simpl; now rewrite ?isspace_replace.
Qed.

Lemma contains_replace s :
  PyStr.contains nbsp (PyStr.replace nbsp space s) = false.
Proof.
  induction s as [|c s IH]; [reflexivity|]. simpl. rewrite IH, orb_false_r.
  destruct (Ascii.eqb c nbsp) eqn:E; [reflexivity|exact E].
Qed.

Lemma lstrip_replace s :
  PyStr.lstrip (PyStr.replace nbsp space s)
  = PyStr.replace nbsp space (PyStr.lstrip s).
Proof.
  induction s as [|c s IH]; simpl; [reflexivity|].
  rewrite isspace_replace. destruct (PyStr.isspace c); [exact IH|reflexivity].
Qed.

Lemma rstrip_replace s :
  PyStr.rstrip (PyStr.replace nbsp space s)
  = PyStr.replace nbsp space (PyStr.rstrip s).
Proof.
  induction s as [|c s IH]; simpl; [reflexivity|].
  rewrite IH, isspace_replace.
  destruct (PyStr.rstrip s); simpl; [destruct (PyStr.isspace c)|]; reflexivity.
Qed.

Lemma strip_replace s :
  PyStr.strip (PyStr.replace nbsp space s)
  = PyStr.replace nbsp space (PyStr.strip s).
Proof. unfold PyStr.strip. now rewrite lstrip_replace, rstrip_replace. Qed.

Lemma replace_without_nbsp s :
  PyStr.contains nbsp s = false -> PyStr.replace nbsp space s = s.
Proof.
  induction s as [|c s IH]; simpl; [reflexivity|].
  intros H. apply orb_false_iff in H as [Hc Hs]. now rewrite Hc, IH.
Qed.

(* ================================================================== *)
(** ** Header cleaning *)
(* ================================================================== *)

(** C7. [clean_column_names] strips the leading and the trailing white
    space, the non-breaking space among it, from every column name: a
    name that is some text between two runs of white space, the text
    itself beginning and ending with none, is cleaned to that text, any
    non-breaking space inside it turned into a space; nothing is left to
    strip at either end of a cleaned name and no non-breaking space is
    left in it; two headers whose names differ only in the white space
    around them are cleaned to the same names; and so are two headers
    that differ only in a non-breaking space standing where the other
    has a space. *)
Theorem clean_column_names_ignores_padding :
  forall names : list string,
    List.length (clean_column_names names) = List.length names
    /\ (forall cores,
          Forall2 (fun core name => padded core name /\ stripped core = true)
                  cores names ->
          clean_column_names names = map (PyStr.replace nbsp space) cores)
    /\ (forall cores,
          Forall2 (fun core name =>
                     padded core name /\ stripped core = true
                     /\ PyStr.contains nbsp core = false)
                  cores names ->
          clean_column_names names = cores)
    /\ (forall name, In name (clean_column_names names) ->
          PyStr.lstrip name = name /\ PyStr.rstrip name = name
          /\ PyStr.contains nbsp name = false)
    /\ (forall names', Forall2 differ_only_in_padding names names' ->
          clean_column_names names = clean_column_names names')
    /\ (forall names',
          map (PyStr.replace nbsp space) names
          = map (PyStr.replace nbsp space) names' ->
          clean_column_names names = clean_column_names names')
    /\ clean_column_names
         [String nbsp " Unique ID  "; ("Tax" ++ String nbsp "Amt")%string; ""; "  "]
       = ["Unique ID"; "Tax Amt"; ""; ""].
Proof.
  intros names. split; [apply length_map|].
  assert (Hcore : forall cores,
             Forall2 (fun core name => padded core name /\ stripped core = true)
                     cores names ->
             clean_column_names names = map (PyStr.replace nbsp space) cores).
  { intros cores H. induction H as [|core name cores names [Hp Hs] _ IH];
      [reflexivity|].
    cbn [clean_column_names map]. fold (clean_column_names names).
    rewrite IH, (strip_padded core name Hp), (stripped_fixed core Hs).
    reflexivity. }
  split; [exact Hcore|]. split.
  { intros cores H.
    rewrite (Hcore cores)
      by (eapply Forall2_impl; [|exact H]; cbn beta; tauto).
    clear Hcore. induction H as [|core name cores names (_ & _ & Hn) _ IH];
      [reflexivity|].
    cbn [map]. now rewrite IH, (replace_without_nbsp core Hn). }
  clear Hcore.
  assert (Hsame : forall names',
             map (PyStr.replace nbsp space) names
             = map (PyStr.replace nbsp space) names' ->
             clean_column_names names = clean_column_names names').
  { intros names' H. unfold clean_column_names.
    rewrite <- (map_ext _ _ strip_replace names),
            <- (map_ext _ _ strip_replace names').
    rewrite <- !(map_map (PyStr.replace nbsp space) PyStr.strip). now rewrite H. }
  split; [|split; [|split; [exact Hsame|vm_compute; reflexivity]]].
  - intros name Hin. unfold clean_column_names in Hin.
    apply in_map_iff in Hin as (col & <- & _).
    assert (Hs : stripped (PyStr.replace nbsp space (PyStr.strip col)) = true)
      by (rewrite stripped_replace; apply stripped_strip).
    split; [now apply stripped_lstrip|].
    split; [now apply stripped_rstrip|apply contains_replace].
  - intros names' H. clear Hsame.
    induction H as [|a b l l' (core & Ha & Hb) _ IH]; [reflexivity|].
    simpl. rewrite (strip_padded core a Ha), (strip_padded core b Hb).
    f_equal. exact IH.
Qed.

Lemma clean_column_names_ignores_padding_witness :
  Forall2 (fun core name => padded core name /\ stripped core = true)
    ["Unique ID"; "Tax Amt"]
    [String nbsp " Unique ID  "; ("  Tax Amt" ++ String nbsp "")%string]
  /\ clean_column_names
       [String nbsp " Unique ID  "; ("  Tax Amt" ++ String nbsp "")%string]
     = ["Unique ID"; "Tax Amt"].
Proof.
  assert (H : Forall2 (fun core name => padded core name /\ stripped core = true)
                ["Unique ID"; "Tax Amt"]
                [String nbsp " Unique ID  "; ("  Tax Amt" ++ String nbsp "")%string]).
  { constructor; [|constructor; [|constructor]].
    - split; [|reflexivity].
      exists (String nbsp " "), "  ". repeat split; reflexivity.
    - split; [|reflexivity].
      exists "  ", (String nbsp ""). repeat split; reflexivity. }
  split; [exact H|].
  exact (proj1 (proj2 (clean_column_names_ignores_padding _)) _ H).
Defined.

(* ================================================================== *)
(** ** Frames *)
(* ================================================================== *)

Lemma mem_In x l : PyStr.mem x l = true <-> In x l.
Proof.
  unfold PyStr.mem. rewrite existsb_exists. split.
  - intros (y & Hy & E). apply String.eqb_eq in E. now subst.
  - intros H. exists x. split; [assumption|apply String.eqb_refl].
Qed.

Lemma mem_false x l : PyStr.mem x l = false <-> ~ In x l.
Proof.
  rewrite <- mem_In. destruct (PyStr.mem x l); split; intros; congruence.
Qed.

Lemma index_of_lt name labels j :
  index_of name labels = Some j -> j < List.length labels.
Proof.
  revert j. induction labels as [|l ls IH]; simpl; [discriminate|].
  intros j. destruct (String.eqb name l).
  - intros [= <-]. lia.
  - destruct (index_of name ls) as [i|]; [|discriminate].
    intros [= <-]. specialize (IH i eq_refl). lia.
Qed.

Lemma index_of_nth name labels j :
  index_of name labels = Some j -> nth_error labels j = Some name.
Proof.
  revert j. induction labels as [|l ls IH]; simpl; [discriminate|].
  intros j. destruct (String.eqb name l) eqn:E.
  - intros [= <-]. apply String.eqb_eq in E. now subst.
  - destruct (index_of name ls) as [i|]; [|discriminate].
    intros [= <-]. now apply IH.
Qed.

Lemma index_of_In name labels :
  In name labels -> exists j, index_of name labels = Some j.
Proof.
  induction labels as [|l ls IH]; simpl; [contradiction|].
  intros H. destruct (String.eqb name l) eqn:E; [now exists 0|].
  destruct H as [->|H]; [now rewrite String.eqb_refl in E|].
  destruct (IH H) as [j ->]. now exists (S j).
Qed.

Lemma index_of_inj a b labels j :
  index_of a labels = Some j -> index_of b labels = Some j -> a = b.
Proof.
  intros Ha Hb. apply index_of_nth in Ha, Hb. congruence.
Qed.

Lemma length_set_nth {A} i (x : A) l : List.length (set_nth i x l) = List.length l.
Proof.
  revert i. induction l as [|h t IH]; intros [|i]; simpl; auto.
Qed.

Lemma nth_set_nth_same i (x : cell) l :
  i < List.length l -> cell_at i (set_nth i x l) = x.
Proof.
  unfold cell_at. revert i. induction l as [|h t IH]; intros [|i]; simpl; try lia; auto.
  intros H. apply IH. lia.
Qed.

Lemma nth_set_nth_other i j (x : cell) l :
  i <> j -> cell_at j (set_nth i x l) = cell_at j l.
Proof.
  unfold cell_at. revert i j. induction l as [|h t IH]; intros [|i] [|j]; simpl; auto; try congruence.
Qed.

Lemma length_set_column i rs values :
  List.length (set_column i rs values) = List.length rs.
Proof.
  revert values. induction rs as [|r rs IH]; intros [|v values]; simpl; auto.
Qed.

Lemma set_column_widths i rs values n :
  Forall (fun r => List.length r = n) rs ->
  Forall (fun r => List.length r = n) (set_column i rs values).
Proof.
  intros H. revert values. induction H as [|r rs Hr Hrs IH]; intros [|v values]; simpl.
  - constructor.
  - constructor.
  - now constructor.
  - constructor; [now rewrite length_set_nth|apply IH].
Qed.

Lemma set_column_same i rs values n :
  Forall (fun r => List.length r = n) rs -> i < n ->
  List.length values = List.length rs ->
  map (cell_at i) (set_column i rs values) = values.
Proof.
  intros H Hi. revert values.
  induction H as [|r rs Hr _ IH]; intros [|v values]; simpl; try discriminate; auto.
  intros [= Hlen]. rewrite nth_set_nth_same by lia. f_equal. now apply IH.
Qed.

Lemma set_column_other i j rs values :
  i <> j -> map (cell_at j) (set_column i rs values) = map (cell_at j) rs.
Proof.
  intros Hij. revert values.
  induction rs as [|r rs IH]; intros [|v values]; simpl; auto.
  rewrite nth_set_nth_other by assumption. f_equal. apply IH.
Qed.

(** [set_column] with a value computed from the cell it replaces. *)
Lemma set_column_map i rs (f : cell -> cell) :
  set_column i rs (map f (map (cell_at i) rs))
  = map (fun r => set_nth i (f (cell_at i r)) r) rs.
Proof. induction rs as [|r rs IH]; simpl; [reflexivity|]. now rewrite IH. Qed.

(* ================================================================== *)
(** ** Type coercion *)
(* ================================================================== *)

Section CoercionFacts.
Context {pandas : Pandas}.

Lemma length_converted dtype s : List.length (converted dtype s) = List.length s.
Proof.
  unfold converted, dt_strftime, timestamps.
  destruct (PyStr.startswith dtype "datetime64").
  - pose proof (to_datetime_length s) as E.
    destruct (to_datetime s) as [values|values]; rewrite length_map; exact E.
  - destruct (String.eqb dtype "float64"); [apply length_map|].
    destruct (String.eqb dtype "Int64"); apply length_map.
Qed.

Lemma getitem_once df column j :
  index_of column (columns df) = Some j ->
  label_count column (columns df) = 1 ->
  getitem df column = Series (column_at j df).
Proof. intros Hj Hc. unfold getitem. now rewrite Hj, Hc. Qed.

Lemma getitem_repeated df column j :
  index_of column (columns df) = Some j ->
  label_count column (columns df) <> 1 ->
  getitem df column = SubFrame.
Proof.
  intros Hj Hc. unfold getitem. rewrite Hj.
  destruct (Nat.eqb_spec (label_count column (columns df)) 1); congruence.
Qed.

Lemma convert_once df column dtype j :
  index_of column (columns df) = Some j ->
  label_count column (columns df) = 1 ->
  convert df column dtype
  = (mkDataFrame (columns df)
       (set_column j (rows df) (converted dtype (column_at j df))),
     conversion_error dtype (column_at j df)).
Proof.
  intros Hj Hc.
  unfold convert, converted, conversion_error, setitem, to_numeric.
  rewrite (getitem_once df column j Hj Hc), Hj.
  destruct (PyStr.startswith dtype "datetime64").
  - destruct (to_datetime (column_at j df)) as [values|values]; reflexivity.
  - destruct (String.eqb dtype "float64"); [reflexivity|].
    destruct (String.eqb dtype "Int64"); reflexivity.
Qed.

Lemma convert_repeated df column dtype j :
  index_of column (columns df) = Some j ->
  label_count column (columns df) <> 1 ->
  exists e, convert df column dtype = (df, Some e).
Proof.
  intros Hj Hc. unfold convert. rewrite (getitem_repeated df column j Hj Hc).
  destruct (PyStr.startswith dtype "datetime64"); [eauto|].
  destruct (String.eqb dtype "float64"); [eauto|].
  destruct (String.eqb dtype "Int64"); eauto.
Qed.

(** One turn of the loop touches the column it names and nothing else. *)
Lemma enforce_step_spec df log column dtype :
  rectangular df ->
  let df' := fst (enforce_step (df, log) (column, dtype)) in
  columns df' = columns df /\ rectangular df' /\ len df' = len df
  /\ forall name j,
       index_of name (columns df) = Some j ->
       label_count name (columns df) = 1 ->
       column_at j df'
       = if String.eqb name column then converted dtype (column_at j df)
         else column_at j df.
Proof.
  intros Hrect. unfold enforce_step.
  destruct (PyStr.mem column (columns df)) eqn:Hmem.
  - apply mem_In in Hmem. destruct (index_of_In _ _ Hmem) as [jc Hjc].
    destruct (Nat.eq_dec (label_count column (columns df)) 1) as [Hc|Hc].
    + rewrite (convert_once df column dtype jc Hjc Hc).
      assert (Hframe :
                let df1 := mkDataFrame (columns df)
                             (set_column jc (rows df)
                                (converted dtype (column_at jc df))) in
                columns df1 = columns df /\ rectangular df1 /\ len df1 = len df
                /\ forall name j,
                     index_of name (columns df) = Some j ->
                     label_count name (columns df) = 1 ->
                     column_at j df1
                     = if String.eqb name column
                       then converted dtype (column_at j df)
                       else column_at j df).
      { cbv zeta. split; [reflexivity|]. split; [|split].
        * unfold rectangular. simpl. now apply set_column_widths.
        * unfold len. simpl. apply length_set_column.
        * intros name j Hj Hn. unfold column_at at 1. simpl.
          destruct (String.eqb_spec name column) as [->|Hne].
          -- assert (j = jc) by congruence. subst j.
             apply (set_column_same jc (rows df) _ (List.length (columns df)) Hrect).
             ++ now apply index_of_lt with column.
             ++ rewrite length_converted. apply length_map.
          -- apply set_column_other. intros ->. apply Hne.
             now apply (index_of_inj name column (columns df) j). }
      destruct (conversion_error dtype (column_at jc df)) as [e|];
        cbn [fst]; exact Hframe.
    + destruct (convert_repeated df column dtype jc Hjc Hc) as [e ->]. cbn [fst].
      repeat split; auto. intros name j Hj Hn.
      destruct (String.eqb_spec name column) as [->|Hne]; [contradiction|reflexivity].
  - simpl. repeat split; auto. intros name j Hj Hn.
    destruct (String.eqb_spec name column) as [->|Hne]; [|reflexivity].
    apply mem_false in Hmem. exfalso. apply Hmem.
    apply index_of_nth in Hj. now apply nth_error_In in Hj.
Qed.

Lemma lookup_dtype_absent name items :
  ~ In name (map fst items) -> lookup_dtype name items = None.
Proof.
  induction items as [|[n t] items IH]; simpl; [reflexivity|].
  intros H. destruct (String.eqb_spec name n) as [->|_]; [tauto|].
  apply IH. tauto.
Qed.

(** The loop over any catalog with distinct keys. *)
Lemma enforce_fold_spec items :
  NoDup (map fst items) ->
  forall df log, rectangular df ->
  let df' := fst (fold_left enforce_step items (df, log)) in
  columns df' = columns df /\ rectangular df' /\ len df' = len df
  /\ forall name j,
       index_of name (columns df) = Some j ->
       label_count name (columns df) = 1 ->
       column_at j df'
       = match lookup_dtype name items with
         | Some dtype => converted dtype (column_at j df)
         | None => column_at j df
         end.
Proof.
  induction items as [|[column dtype] items IH]; intros Hnd df log Hrect.
  - simpl. repeat split; auto.
  - simpl map in Hnd. apply NoDup_cons_iff in Hnd as [Hnotin Hnd].
    cbn [fold_left].
    destruct (enforce_step_spec df log column dtype Hrect) as (Hc1 & Hr1 & Hl1 & Hcol1).
    destruct (enforce_step (df, log) (column, dtype)) as [df1 log1] eqn:E1.
    simpl in Hc1, Hr1, Hl1, Hcol1.
    destruct (IH Hnd df1 log1 Hr1) as (Hc2 & Hr2 & Hl2 & Hcol2).
    cbv zeta. split; [congruence|]. split; [assumption|]. split; [congruence|].
    intros name j Hj Hn. rewrite (Hcol2 name j) by (rewrite Hc1; assumption).
    rewrite (Hcol1 name j Hj Hn). cbn [lookup_dtype].
    destruct (String.eqb_spec name column) as [->|Hne]; [|reflexivity].
    now rewrite (lookup_dtype_absent column items Hnotin).
Qed.

Lemma COLUMN_DATA_TYPES_keys : NoDup (map fst COLUMN_DATA_TYPES).
Proof.
  assert (E : nodup string_dec (map fst COLUMN_DATA_TYPES) = map fst COLUMN_DATA_TYPES)
    by (vm_compute; reflexivity).
  rewrite <- E. apply NoDup_nodup.
Qed.

(** [enforce_data_types] keeps the labels and the rows of the frame and
    converts every column the catalog knows, each on its own. *)
Lemma enforce_data_types_spec df :
  rectangular df ->
  let df' := fst (enforce_data_types df) in
  columns df' = columns df /\ rectangular df' /\ len df' = len df
  /\ forall name j,
       index_of name (columns df) = Some j ->
       label_count name (columns df) = 1 ->
       column_at j df'
       = match lookup_dtype name COLUMN_DATA_TYPES with
         | Some dtype => converted dtype (column_at j df)
         | None => column_at j df
         end.
Proof. apply enforce_fold_spec, COLUMN_DATA_TYPES_keys. Qed.

End CoercionFacts.

(* ================================================================== *)
(** ** The timestamp format *)
(* ================================================================== *)

Lemma below_in_seq (n k : N) : (n < k)%N -> In n (map N.of_nat (seq 0 (N.to_nat k))).
Proof.
  intros H. apply in_map_iff. exists (N.to_nat n). split; [apply N2Nat.id|].
  apply in_seq. lia.
Qed.

Lemma two_digit_all : forallb two_digit_ok (map N.of_nat (seq 0 (N.to_nat 100))) = true.
Proof. vm_compute. reflexivity. Qed.

Lemma four_digit_all : forallb four_digit_ok (map N.of_nat (seq 0 (N.to_nat 10000))) = true.
Proof. vm_compute. reflexivity. Qed.

Lemma two_digit (n : N) :
  (n < 100)%N ->
  exists a b, PyStr.zfill 2 (str_of_N n) = String a (String b EmptyString)
              /\ Reference.digits 0 (String a (String b EmptyString)) = Some n.
Proof.
  intros H. pose proof two_digit_all as Hall. rewrite forallb_forall in Hall.
  specialize (Hall n (below_in_seq n 100 H)). unfold two_digit_ok in Hall.
  destruct (PyStr.zfill 2 (str_of_N n)) as [|a [|b [|]]]; try discriminate.
  exists a, b. split; [reflexivity|].
  destruct (Reference.digits 0 (String a (String b ""))); [|discriminate].
  apply N.eqb_eq in Hall. now subst.
Qed.

Lemma four_digit (n : N) :
  (n < 10000)%N ->
  exists a b c d,
    PyStr.zfill 4 (str_of_N n) = String a (String b (String c (String d EmptyString)))
    /\ Reference.digits 0 (String a (String b (String c (String d EmptyString)))) = Some n.
Proof.
  intros H. pose proof four_digit_all as Hall. rewrite forallb_forall in Hall.
  specialize (Hall n (below_in_seq n 10000 H)). unfold four_digit_ok in Hall.
  destruct (PyStr.zfill 4 (str_of_N n)) as [|a [|b [|c [|d [|]]]]]; try discriminate.
  exists a, b, c, d. split; [reflexivity|].
  destruct (Reference.digits 0 (String a (String b (String c (String d ""))))); [|discriminate].
  apply N.eqb_eq in Hall. now subst.
Qed.

Lemma strftime_iso d :
  valid_datetime d ->
  String.length (strftime d) = 19 /\ Reference.iso_datetime (strftime d) = Some d.
Proof.
  destruct d as [y mo dd h mi s]. unfold valid_datetime. simpl.
  intros (Hy & Hmo & Hd & Hh & Hmi & Hs).
  destruct (four_digit y) as (y1 & y2 & y3 & y4 & Ey & Dy); [lia|].
  destruct (two_digit mo) as (m1 & m2 & Em & Dm); [lia|].
  destruct (two_digit dd) as (d1 & d2 & Ed & Dd); [lia|].
  destruct (two_digit h) as (h1 & h2 & Eh & Dh); [lia|].
  destruct (two_digit mi) as (i1 & i2 & Ei & Di); [lia|].
  destruct (two_digit s) as (s1 & s2 & Es & Ds); [lia|].
  unfold strftime. simpl year; simpl month; simpl day; simpl hour; simpl minute; simpl second.
  rewrite Ey, Em, Ed, Eh, Ei, Es.
  split; [reflexivity|].
  unfold Reference.iso_datetime, Reference.field, Reference.char_is.
  cbn [String.append String.length String.substring String.get Nat.eqb negb orb andb Ascii.eqb Bool.eqb].
  rewrite Dy, Dm, Dd, Dh, Di, Ds.
  assert (E1 : ((1 <=? mo) && (mo <=? 12) && (1 <=? dd) && (dd <=? 31))%N = true).
  { repeat (apply andb_true_iff; split); apply N.leb_le; lia. }
  assert (E2 : ((h <? 24) && (mi <? 60) && (s <? 60))%N = true).
  { repeat (apply andb_true_iff; split); apply N.ltb_lt; lia. }
  rewrite E1, E2. reflexivity.
Qed.

(* ================================================================== *)
(** ** Coercion of the typed columns *)
(* ================================================================== *)

Lemma lookup_dtype_In items name dtype :
  NoDup (map fst items) -> In (name, dtype) items ->
  lookup_dtype name items = Some dtype.
Proof.
  induction items as [|[n t] items IH]; simpl; [contradiction|].
  intros Hnd [E|Hin].
  - injection E as -> ->. now rewrite String.eqb_refl.
  - apply NoDup_cons_iff in Hnd as [Hn Hnd].
    destruct (String.eqb_spec name n) as [->|_]; [|now apply IH].
    exfalso. apply Hn. apply in_map_iff. now exists (n, dtype).
Qed.

Lemma catalog_dtype name dtype :
  In (name, dtype) COLUMN_DATA_TYPES ->
  lookup_dtype name COLUMN_DATA_TYPES = Some dtype.
Proof. apply lookup_dtype_In, COLUMN_DATA_TYPES_keys. Qed.

(** The column of a catalogued label after [enforce_data_types]. *)
Lemma enforce_data_types_column {pandas : Pandas} df column dtype j :
  rectangular df ->
  In (column, dtype) COLUMN_DATA_TYPES ->
  index_of column (columns df) = Some j ->
  label_count column (columns df) = 1 ->
  column_at j (fst (enforce_data_types df)) = converted dtype (column_at j df).
Proof.
  intros Hrect Hin Hj Hc.
  destruct (enforce_data_types_spec df Hrect) as (_ & _ & _ & H).
  rewrite (H column j Hj Hc). now rewrite (catalog_dtype column dtype Hin).
Qed.

(** A frame with a cell that no numeric column holds yields rows of
    dtype [object]. *)
Lemma float_frame_false df r c :
  In r (rows df) -> In c r -> float_cell c = false -> float_frame df = false.
Proof.
  intros Hr Hc Hf. unfold float_frame.
  destruct (forallb (forallb float_cell) (rows df)) eqn:E; [|reflexivity].
  rewrite forallb_forall in E. specialize (E r Hr).
  rewrite forallb_forall in E. specialize (E c Hc). congruence.
Qed.

Lemma row_tuple_object df r :
  float_frame df = false -> row_tuple df r = map sql_of_cell r.
Proof. unfold row_tuple. now intros ->. Qed.

Lemma nth_row_tuple_object df r j :
  float_frame df = false ->
  nth j (row_tuple df r) VNull = sql_of_cell (cell_at j r).
Proof.
  intros H. rewrite (row_tuple_object df r H). unfold cell_at.
  change VNull with (sql_of_cell CNaN). apply map_nth.
Qed.

(** C5, as the code has it.  [enforce_data_types] keeps every label and
    every row, and in each typed column under a label that occurs once it
    converts every cell by itself, whatever the other columns and rows
    hold: a cell of a decimal or integer column that does not parse is
    [NaN], any other is the number parsed; a cell of a timestamp column
    that pandas gives up on is missing ([NaN] beside the formatted dates
    when the column came back as dates, [NaT] beside the [Timestamp]
    objects when it did not); every cell of a text column is trimmed.  On the example frame, ["not-a-date"] and ["abc"] become
    null, ["12.5"] becomes the number 12.5, and the cells beside and
    below them are converted all the same. *)
Theorem coercion_failure_gives_null :
  forall (pandas : Pandas) (df : DataFrame),
    rectangular df ->
    let df' := fst (enforce_data_types df) in
    columns df' = columns df /\ len df' = len df /\ rectangular df'
    /\ (forall column dtype j,
          In (column, dtype) COLUMN_DATA_TYPES ->
          index_of column (columns df) = Some j ->
          label_count column (columns df) = 1 ->
          forall i c,
            nth_error (column_at j df) i = Some c ->
            (dtype = "float64" \/ dtype = "Int64" ->
               nth_error (column_at j df') i = Some (to_numeric_cell c)
               /\ forall s, c = CStr s -> to_numeric_str s = None ->
                            nth_error (column_at j df') i = Some CNaN)
            /\ (dtype = "datetime64" ->
                  match to_datetime (column_at j df) with
                  | DatetimeSeries values =>
                      match nth_error values i with
                      | Some (Some d) =>
                          nth_error (column_at j df') i
                          = Some (CStr (strftime d))
                      | Some None =>
                          nth_error (column_at j df') i = Some CMissing
                      | None => False
                      end
                  | ObjectSeries values =>
                      match nth_error values i with
                      | Some (Some (d, utcoffset)) =>
                          nth_error (column_at j df') i
                          = Some (CTimestamp d utcoffset)
                      | Some None =>
                          nth_error (column_at j df') i = Some CNaT
                      | None => False
                      end
                  end)
            /\ (dtype = "string" ->
                  nth_error (column_at j df') i
                  = Some (CStr (PyStr.strip (astype_str c)))))
    /\ notna CNaN = false /\ notna CMissing = false /\ notna CNaT = false
    /\ enforce_data_types (pandas := Reference.pandas) example_frame
       = (mkDataFrame ["Timestamp"; "Tax Amt"; "Payer"]
            [ [CMissing; CNum (25 # 2); CStr "Acme"];
              [CStr "2024-01-05 00:00:00"; CNaN; CStr "Initech"] ],
          []).
Proof.
  intros pandas df Hrect df'.
  destruct (enforce_data_types_spec df Hrect) as (Hc & Hr & Hl & _).
  split; [exact Hc|]. split; [exact Hl|]. split; [exact Hr|]. split.
  - intros column dtype j Hin Hj Hcount i c Hi.
    pose proof (enforce_data_types_column df column dtype j Hrect Hin Hj Hcount) as E.
    fold df' in E. rewrite E.
    assert (Hlt : i < List.length (column_at j df))
      by (apply nth_error_Some; congruence).
    split; [|split].
    + intros Hd.
      assert (Hconv : converted dtype (column_at j df) = map to_numeric_cell (column_at j df))
        by (destruct Hd as [-> | ->]; reflexivity).
      rewrite Hconv, nth_error_map, Hi. split; [reflexivity|].
      intros s -> Hs. simpl. now rewrite Hs.
    + intros ->. unfold converted.
      change (PyStr.startswith "datetime64" "datetime64") with true.
      pose proof (to_datetime_length (column_at j df)) as Hlen.
      destruct (to_datetime (column_at j df)) as [values|values];
        cbv beta iota; cbn [datetimes_length] in Hlen.
      * unfold dt_strftime. rewrite nth_error_map.
        destruct (nth_error values i) as [[d|]|] eqn:En; try reflexivity.
        apply nth_error_None in En. lia.
      * unfold timestamps. rewrite nth_error_map.
        destruct (nth_error values i) as [[[d o]|]|] eqn:En; try reflexivity.
        apply nth_error_None in En. lia.
    + intros ->. change (converted "string" (column_at j df))
        with (map (fun c => CStr (PyStr.strip (astype_str c))) (column_at j df)).
      now rewrite nth_error_map, Hi.
  - repeat (split; [reflexivity|]). vm_compute. reflexivity.
Qed.

Lemma coercion_failure_gives_null_witness :
  rectangular example_frame
  /\ len (fst (enforce_data_types (pandas := Reference.pandas) example_frame))
     = len example_frame.
Proof.
  assert (H : rectangular example_frame) by (repeat constructor).
  split; [exact H|].
  exact (proj1 (proj2 (coercion_failure_gives_null Reference.pandas example_frame H))).
Defined.

(** C5 as it is written fails where a typed label stands over two
    columns: ["abc"] under the second ["Tax Amt"] does not parse as a
    number, and it is still the text ["abc"] afterwards, not null; the
    code shows a warning and leaves both columns as they were. *)
Lemma repeated_label_keeps_unparsed_text :
  In ("Tax Amt", "float64") COLUMN_DATA_TYPES
  /\ nth_error (columns twice_frame) 2 = Some "Tax Amt"
  /\ map (cell_at 2) (rows twice_frame) = [CStr "abc"]
  /\ to_numeric_str (Pandas := Reference.pandas) "abc" = None
  /\ enforce_data_types (pandas := Reference.pandas) twice_frame
     = (mkDataFrame ["Tax Amt"; "Payer"; "Tax Amt"]
          [ [CStr "1.5"; CStr "Acme"; CStr "abc"] ],
        [st_warning
           "Could not convert column Tax Amt to float64: arg must be a list, tuple, 1-d array, or Series"])
  /\ notna (CStr "abc") = true.
Proof.
  split; [now do 17 right; left|].
  split; [reflexivity|]. split; [reflexivity|]. split; [vm_compute; reflexivity|].
  split; [vm_compute; reflexivity|reflexivity].
Qed.

(** C6, as the code has it.  In a timestamp column (["Timestamp"],
    ["US Date"], ["IND Date"]) under a label that occurs once, and that
    [pd.to_datetime] returns as a column of dates, every cell pandas
    parses is replaced by the text [strftime('%Y-%m-%d %H:%M:%S')] of the
    date parsed, and that text is what the [INSERT] is given; every cell
    pandas gives up on is [NaN], and the [INSERT] is given [NULL] for it.
    For a date within the calendar ranges and a four-digit year the text
    is nineteen characters and reads back, as [YYYY-MM-DD HH:MM:SS], as
    that date. *)
Theorem timestamp_stored_as_text_or_null :
  forall (pandas : Pandas) (df : DataFrame) (column : string) (j : nat)
         (values : list (option datetime)),
    rectangular df ->
    In (column, "datetime64") COLUMN_DATA_TYPES ->
    index_of column (columns df) = Some j ->
    label_count column (columns df) = 1 ->
    to_datetime (column_at j df) = DatetimeSeries values ->
    let df' := fst (enforce_data_types df) in
    forall i r,
      nth_error (rows df') i = Some r ->
      match nth_error values i with
      | Some (Some d) =>
          cell_at j r = CStr (strftime d)
          /\ nth j (row_tuple df' r) VNull = VStr (strftime d)
          /\ (valid_datetime d ->
              String.length (strftime d) = 19
              /\ Reference.iso_datetime (strftime d) = Some d)
      | Some None =>
          cell_at j r = CMissing /\ nth j (row_tuple df' r) VNull = VNull
      | None => False
      end.
Proof.
  intros pandas df column j values Hrect Hin Hj Hcount Ed df' i r Hr.
  pose proof (enforce_data_types_column df column "datetime64" j Hrect Hin Hj Hcount) as E.
  fold df' in E. unfold converted in E.
  change (PyStr.startswith "datetime64" "datetime64") with true in E.
  rewrite Ed in E.
  assert (Hcell : nth_error (dt_strftime values) i = Some (cell_at j r)).
  { rewrite <- E. unfold column_at. now rewrite nth_error_map, Hr. }
  destruct (enforce_data_types_spec df Hrect) as (Hc' & Hr' & _).
  fold df' in Hc', Hr'.
  assert (Hin_r : In r (rows df')) by (eapply nth_error_In; exact Hr).
  assert (Hwidth : j < List.length r).
  { unfold rectangular in Hr'. rewrite Forall_forall in Hr'.
    rewrite (Hr' r Hin_r), Hc'. exact (index_of_lt _ _ _ Hj). }
  assert (Hobject : float_cell (cell_at j r) = false -> float_frame df' = false).
  { apply (float_frame_false df' r); [exact Hin_r|]. apply nth_In. exact Hwidth. }
  unfold dt_strftime in Hcell. rewrite nth_error_map in Hcell.
  clear E Ed.
  destruct (nth_error values i) as [[d|]|];
    cbn [option_map] in Hcell; [| |discriminate Hcell].
  - injection Hcell as Hcell. rewrite <- Hcell in Hobject.
    rewrite (nth_row_tuple_object df' r j (Hobject eq_refl)), <- Hcell.
    split; [reflexivity|]. split; [reflexivity|]. apply strftime_iso.
  - injection Hcell as Hcell. rewrite <- Hcell in Hobject.
    rewrite (nth_row_tuple_object df' r j (Hobject eq_refl)), <- Hcell.
    split; reflexivity.
Qed.

Lemma timestamp_stored_as_text_or_null_witness :
  rectangular example_frame
  /\ In ("Timestamp", "datetime64") COLUMN_DATA_TYPES
  /\ index_of "Timestamp" (columns example_frame) = Some 0
  /\ label_count "Timestamp" (columns example_frame) = 1
  /\ to_datetime (Pandas := Reference.pandas) (column_at 0 example_frame)
     = DatetimeSeries [None; Some (mkDatetime 2024 1 5 0 0 0)]
  /\ cell_at 0 [CStr "2024-01-05 00:00:00"; CNaN; CStr "Initech"]
     = CStr (strftime (mkDatetime 2024 1 5 0 0 0)).
Proof.
  assert (H : rectangular example_frame) by (repeat constructor).
  assert (Hin : In ("Timestamp", "datetime64") COLUMN_DATA_TYPES)
    by (left; reflexivity).
  assert (Ed : to_datetime (Pandas := Reference.pandas) (column_at 0 example_frame)
               = DatetimeSeries [None; Some (mkDatetime 2024 1 5 0 0 0)])
    by (vm_compute; reflexivity).
  split; [exact H|]. split; [exact Hin|]. split; [reflexivity|]. split; [reflexivity|].
  split; [exact Ed|].
  exact (proj1 (timestamp_stored_as_text_or_null Reference.pandas example_frame
                  "Timestamp" 0 _ H Hin eq_refl eq_refl Ed 1
                  [CStr "2024-01-05 00:00:00"; CNaN; CStr "Initech"] eq_refl)).
Defined.

(** C6 as it is written fails in two ways.  On a column whose
    timestamps carry different offsets from UTC both cells parse,
    [pd.to_datetime] returns them as [Timestamp] objects, [.dt] raises,
    and the column goes on as those objects, to the [INSERT] too, not as
    text.  And where the label stands over two columns nothing is parsed
    at all: ["2024-01-05"], which parses, is stored as it was written,
    not as ["2024-01-05 00:00:00"]. *)
Lemma parsed_timestamps_not_stored_as_text :
  In ("Timestamp", "datetime64") COLUMN_DATA_TYPES
  /\ (label_count "Timestamp" (columns offsets_frame) = 1
      /\ to_datetime (Pandas := Reference.pandas) (column_at 0 offsets_frame)
         = ObjectSeries [Some (mkDatetime 2024 1 1 10 0 0, 60%Z);
                         Some (mkDatetime 2024 1 2 10 0 0, 120%Z)]
      /\ enforce_data_types (pandas := Reference.pandas) offsets_frame
         = (mkDataFrame ["Timestamp"; "Payer"]
              [ [CTimestamp (mkDatetime 2024 1 1 10 0 0) 60; CStr "Acme"];
                [CTimestamp (mkDatetime 2024 1 2 10 0 0) 120; CStr "Initech"] ],
            [st_warning
               "Could not convert column Timestamp to datetime64: Can only use .dt accessor with datetimelike values"])
      /\ (let df' := fst (enforce_data_types (pandas := Reference.pandas)
                            offsets_frame) in
          map (row_tuple df') (rows df')
          = [ [VTimestamp (mkDatetime 2024 1 1 10 0 0) 60; VStr "Acme"];
              [VTimestamp (mkDatetime 2024 1 2 10 0 0) 120; VStr "Initech"] ])
      /\ VTimestamp (mkDatetime 2024 1 1 10 0 0) 60
         <> VStr (strftime (mkDatetime 2024 1 1 10 0 0)))
  /\ (label_count "Timestamp" (columns twice_dated_frame) = 2
      /\ to_datetime (Pandas := Reference.pandas) [CStr "2024-01-05"]
         = DatetimeSeries [Some (mkDatetime 2024 1 5 0 0 0)]
      /\ enforce_data_types (pandas := Reference.pandas) twice_dated_frame
         = (mkDataFrame ["Timestamp"; "Payer"; "Timestamp"]
              [ [CStr "2024-01-05"; CStr "Acme"; CStr "2024-01-06"] ],
            [st_warning
               "Could not convert column Timestamp to datetime64: cannot assemble with duplicate keys"])
      /\ (let df' := fst (enforce_data_types (pandas := Reference.pandas)
                            twice_dated_frame) in
          map (row_tuple df') (rows df')
          = [ [VStr "2024-01-05"; VStr "Acme"; VStr "2024-01-06"] ])
      /\ VStr "2024-01-05" <> VStr (strftime (mkDatetime 2024 1 5 0 0 0))).
Proof.
  split; [now left|]. split.
  - split; [reflexivity|].
    split; [vm_compute; reflexivity|]. split; [vm_compute; reflexivity|].
    split; [vm_compute; reflexivity|discriminate].
  - split; [reflexivity|].
    split; [vm_compute; reflexivity|]. split; [vm_compute; reflexivity|].
    split; [vm_compute; reflexivity|]. vm_compute. discriminate.
Qed.

(** C4, where the code departs from it.  An integer-typed column is
    converted exactly as a decimal column is: the cell is parsed as a
    number, not as a whole number.  What does not parse becomes [NaN],
    but the text ["12.5"] under ["Bill Lines"] becomes the number 12.5,
    which is not integral, and that is the value the [INSERT] is given. *)
Theorem integer_column_keeps_fraction :
  (forall (pandas : Pandas) (s : list cell),
      converted "Int64" s = converted "float64" s)
  /\ converted (pandas := Reference.pandas) "Int64" [CStr "abc"; CStr "7"]
     = [CNaN; CNum 7]
  /\ enforce_data_types (pandas := Reference.pandas) fraction_frame
     = (mkDataFrame ["Bill Lines"; "Tax Amt"] [ [CNum (25 # 2); CNum (25 # 2)] ], [])
  /\ map (row_tuple
            (fst (enforce_data_types (pandas := Reference.pandas) fraction_frame)))
       (rows (fst (enforce_data_types (pandas := Reference.pandas) fraction_frame)))
     = [ [VNum (25 # 2); VNum (25 # 2)] ]
  /\ map (sql_get "Bill Lines")
       (table_after
          (import_csv_page (pandas := Reference.pandas)
             (Some (Ok (upload_of [("u1", "12.5")]))) true (Some empty_table)))
     = [VNum (25 # 2)]
  /\ Qden (25 # 2) <> 1%positive.
Proof.
  split; [reflexivity|]. split; [vm_compute; reflexivity|].
  split; [vm_compute; reflexivity|]. split; [vm_compute; reflexivity|].
  split; [vm_compute; reflexivity|discriminate].
Qed.

(* ================================================================== *)
(** ** Batched insert *)
(* ================================================================== *)

Lemma firstn_add {A} a b (l : list A) :
  firstn (a + b) l = firstn a l ++ firstn b (skipn a l).
Proof.
  revert l. induction a as [|a IH]; intros l; simpl; [reflexivity|].
  destruct l as [|x l]; simpl; [now rewrite firstn_nil|]. now rewrite IH.
Qed.

Lemma skipn_add {A} a b (l : list A) : skipn b (skipn a l) = skipn (a + b) l.
Proof.
  revert l. induction a as [|a IH]; intros l; simpl; [reflexivity|].
  destruct l as [|x l]; simpl; [now rewrite skipn_nil|]. apply IH.
Qed.

Lemma iloc_batch {A} (rs : list A) i n : iloc rs i (i + n) = firstn n (skipn i rs).
Proof. unfold iloc. now replace (i + n - i) with n by lia. Qed.

Lemma batch_step_spec df batch_size conn i :
  pending conn = [] ->
  let conn' := batch_step df batch_size conn i in
  committed conn'
  = committed conn
    ++ map (stored_as df) (firstn batch_size (skipn i (rows df)))
  /\ pending conn' = []
  /\ table_present conn' = table_present conn
  /\ round_trips conn'
     = round_trips conn ++ [List.length (firstn batch_size (skipn i (rows df)))].
Proof.
  intros Hp. unfold batch_step, commit, executemany. simpl.
  rewrite Hp, iloc_batch. simpl. rewrite map_map, length_map. repeat split.
Qed.

Lemma length_range_from fuel start stop step :
  List.length (range_from fuel start stop step) <= fuel.
Proof.
  revert start. induction fuel as [|fuel IH]; intros start; simpl; [lia|].
  destruct (start <? stop); simpl; [specialize (IH (start + step))|]; lia.
Qed.

(** The first [k] turns of the loop commit the first [k] batches. *)
Lemma run_batches_prefix df batch_size :
  0 < batch_size ->
  forall k fuel start conn,
    pending conn = [] -> len df <= fuel + start ->
    let conn' :=
      run_batches df batch_size
        (firstn k (range_from fuel start (len df) batch_size)) conn in
    committed conn'
    = committed conn
      ++ map (stored_as df)
           (firstn (k * batch_size) (skipn start (rows df)))
    /\ pending conn' = [] /\ table_present conn' = table_present conn.
Proof.
  intros Hbs. induction k as [|k IH]; intros fuel start conn Hp Hfuel.
  - simpl. rewrite app_nil_r. auto.
  - assert (Hdone : len df <= start ->
                    firstn (S k * batch_size) (skipn start (rows df)) = []).
    { intros H. rewrite skipn_all2 by exact H. apply firstn_nil. }
    destruct fuel as [|fuel].
    + cbn [range_from firstn]. unfold run_batches. cbn [fold_left].
      rewrite Hdone by lia. cbn [map]. rewrite app_nil_r. auto.
    + cbn [range_from]. destruct (Nat.ltb_spec start (len df)) as [Hlt|Hge].
      * cbn [firstn]. unfold run_batches. cbn [fold_left].
        destruct (batch_step_spec df batch_size conn start Hp) as (Hc & Hp' & Ht & _).
        destruct (IH fuel (start + batch_size) (batch_step df batch_size conn start) Hp')
          as (Hc2 & Hp2 & Ht2); [lia|].
        unfold run_batches in Hc2, Hp2, Ht2. cbv zeta.
        rewrite Hc2, Hp2, Ht2, Hc, Ht. split; [|auto].
        rewrite <- app_assoc, <- map_app. do 2 f_equal.
        change (S k * batch_size) with (batch_size + k * batch_size).
        rewrite firstn_add. f_equal. now rewrite skipn_add.
      * cbn [firstn]. unfold run_batches. cbn [fold_left].
        rewrite Hdone by lia. cbn [map]. rewrite app_nil_r. auto.
Qed.

Lemma run_batches_round_trips df batch_size starts :
  forall conn,
    round_trips (run_batches df batch_size starts conn)
    = round_trips conn
      ++ map (fun i => Nat.min batch_size (len df - i)) starts.
Proof.
  unfold run_batches. induction starts as [|i starts IH]; intros conn; simpl.
  - now rewrite app_nil_r.
  - rewrite IH. unfold batch_step, commit, executemany. cbn [round_trips].
    rewrite <- app_assoc. cbn [app]. do 2 f_equal.
    rewrite length_map, iloc_batch, length_firstn, length_skipn. reflexivity.
Qed.

(** The whole loop commits every row, in order. *)
Lemma insert_data_in_batches_spec conn df batch_size :
  0 < batch_size -> pending conn = [] ->
  exists conn',
    insert_data_in_batches conn df batch_size = Ok conn'
    /\ committed conn'
       = committed conn ++ map (stored_as df) (rows df)
    /\ pending conn' = []
    /\ table_present conn' = table_present conn
    /\ round_trips conn'
       = round_trips conn
         ++ map (fun i => Nat.min batch_size (len df - i))
              (range 0 (len df) batch_size).
Proof.
  intros Hbs Hp. unfold insert_data_in_batches.
  destruct (Nat.eqb_spec batch_size 0) as [E|_]; [lia|].
  eexists. split; [reflexivity|].
  destruct (run_batches_prefix df batch_size Hbs (len df) (len df) 0 conn Hp)
    as (Hc & Hp' & Ht); [lia|].
  unfold range.
  rewrite firstn_all2 in Hc, Hp', Ht by apply length_range_from.
  split; [|split; [exact Hp'|split; [exact Ht|apply run_batches_round_trips]]].
  rewrite Hc. simpl skipn. rewrite firstn_all2; [reflexivity|].
  unfold len. nia.
Qed.

(* ================================================================== *)
(** ** De-duplication on the key *)
(* ================================================================== *)

Section KeyFacts.
Context {pandas : Pandas}.

Lemma select_rows_filter (f : cell -> bool) j rs :
  select_rows rs (map f (map (cell_at j) rs)) = filter (fun r => f (cell_at j r)) rs.
Proof.
  induction rs as [|r rs IH]; simpl; [reflexivity|]. rewrite IH. reflexivity.
Qed.

Lemma cell_at_with_key j r :
  j < List.length r -> cell_at j (with_key j r) = CStr (key_of j r).
Proof. intros H. unfold with_key. now rewrite nth_set_nth_same. Qed.

Lemma existsb_seen k seen :
  existsb (cell_eqb (CStr k)) (map CStr seen) = PyStr.mem k seen.
Proof.
  unfold PyStr.mem. induction seen as [|s seen IH]; simpl; [reflexivity|].
  now rewrite IH.
Qed.

Lemma drop_duplicate_rows_with_key j rs :
  Forall (fun r => j < List.length r) rs ->
  forall seen,
    drop_duplicate_rows j (map CStr seen) (map (with_key j) rs)
    = map (with_key j) (first_rows j seen rs).
Proof.
  induction 1 as [|r rs Hr _ IH]; intros seen; simpl; [reflexivity|].
  rewrite (cell_at_with_key j r Hr), existsb_seen.
  destruct (PyStr.mem (key_of j r) seen); [apply IH|].
  simpl. f_equal. apply (IH (key_of j r :: seen)).
Qed.

Lemma filter_with_key j existing rs :
  Forall (fun r => j < List.length r) rs ->
  filter (fun r => negb (isin existing (cell_at j r))) (map (with_key j) rs)
  = map (with_key j) (filter (fun r => negb (PyStr.mem (key_of j r) existing)) rs).
Proof.
  induction 1 as [|r rs Hr _ IH]; simpl; [reflexivity|].
  rewrite (cell_at_with_key j r Hr). simpl.
  destruct (PyStr.mem (key_of j r) existing); simpl; now rewrite IH.
Qed.

Lemma first_rows_incl j seen rs r :
  In r (first_rows j seen rs) -> In r rs /\ ~ In (key_of j r) seen.
Proof.
  revert seen. induction rs as [|r0 rs IH]; intros seen; simpl; [contradiction|].
  destruct (PyStr.mem (key_of j r0) seen) eqn:E.
  - intros H. destruct (IH seen H). auto.
  - intros [<-|H].
    + split; [auto|]. now apply mem_false.
    + destruct (IH _ H) as [H1 H2]. split; [auto|]. intros H3. apply H2. now right.
Qed.

Lemma first_rows_keys_NoDup j seen rs :
  NoDup (map (key_of j) (first_rows j seen rs)).
Proof.
  revert seen. induction rs as [|r0 rs IH]; intros seen; simpl; [constructor|].
  destruct (PyStr.mem (key_of j r0) seen); [apply IH|].
  simpl. constructor; [|apply IH].
  intros H. apply in_map_iff in H as (r & E & H).
  apply first_rows_incl in H as [_ H]. apply H. left. auto.
Qed.

Lemma first_rows_complete j seen rs r :
  In r rs -> ~ In (key_of j r) seen ->
  In (key_of j r) (map (key_of j) (first_rows j seen rs)).
Proof.
  revert seen. induction rs as [|r0 rs IH]; intros seen; simpl; [contradiction|].
  intros [->|Hin] Hseen.
  - apply mem_false in Hseen. rewrite Hseen. now left.
  - destruct (PyStr.mem (key_of j r0) seen) eqn:E; [now apply IH|].
    simpl. destruct (String.eqb_spec (key_of j r0) (key_of j r)) as [Heq|Hne]; [now left|].
    right. apply IH; [assumption|]. intros [H|H]; auto.
Qed.

Lemma first_rows_first j seen rs r :
  In r (first_rows j seen rs) -> first_with_key j (key_of j r) rs = Some r.
Proof.
  unfold first_with_key.
  revert seen. induction rs as [|r0 rs IH]; intros seen; simpl; [contradiction|].
  destruct (PyStr.mem (key_of j r0) seen) eqn:E.
  - intros H. pose proof (first_rows_incl _ _ _ _ H) as [_ Hns].
    destruct (String.eqb_spec (key_of j r0) (key_of j r)) as [Heq|_]; [|now apply IH with seen].
    exfalso. apply Hns. rewrite <- Heq. now apply mem_In.
  - intros [<-|H]; [now rewrite String.eqb_refl|].
    pose proof (first_rows_incl _ _ _ _ H) as [_ Hns].
    destruct (String.eqb_spec (key_of j r0) (key_of j r)) as [Heq|_]; [|now apply IH with (key_of j r0 :: seen)].
    exfalso. apply Hns. now left.
Qed.

Lemma filter_length_partition {A} (f : A -> bool) l :
  List.length (filter f l) + List.length (filter (fun x => negb (f x)) l)
  = List.length l.
Proof.
  induction l as [|x l IH]; simpl; [reflexivity|].
  destruct (f x); simpl; lia.
Qed.

Lemma filter_count_NoDup_equiv (f : string -> bool) l l' :
  NoDup l -> NoDup l' -> (forall x, In x l <-> In x l') ->
  List.length (filter f l) = List.length (filter f l').
Proof.
  intros H H' Heq. apply Permutation_length.
  apply NoDup_Permutation.
  - now apply NoDup_filter.
  - now apply NoDup_filter.
  - intros x. rewrite !filter_In, Heq. reflexivity.
Qed.

(** The count of the rows inserted. *)
Lemma new_rows_count j existing rs :
  let keys := map (key_of j) rs in
  List.length (new_rows j existing rs)
  + pre_existing_duplicates existing keys + intra_upload_duplicates keys
  = List.length rs.
Proof.
  intros keys. unfold new_rows, pre_existing_duplicates, intra_upload_duplicates.
  set (firsts := map (key_of j) (first_rows j [] rs)).
  assert (Hnd : NoDup firsts) by apply first_rows_keys_NoDup.
  assert (Heq : forall k, In k firsts <-> In k (nodup string_dec keys)).
  { intros k. rewrite nodup_In. unfold firsts, keys. split.
    - intros H. apply in_map_iff in H as (r & <- & H).
      apply first_rows_incl in H as [H _]. now apply in_map.
    - intros H. apply in_map_iff in H as (r & <- & H).
      apply first_rows_complete; auto. }
  assert (Hlen : List.length firsts = List.length (nodup string_dec keys)).
  { apply Permutation_length, NoDup_Permutation; auto.
    apply NoDup_nodup. }
  assert (Hnew : List.length (filter (fun r => negb (PyStr.mem (key_of j r) existing))
                                (first_rows j [] rs))
                 = List.length (filter (fun k => negb (PyStr.mem k existing)) firsts)).
  { unfold firsts. generalize (first_rows j [] rs). intros l.
    induction l as [|r l IH]; simpl; [reflexivity|].
    destruct (PyStr.mem (key_of j r) existing); simpl; now rewrite IH. }
  rewrite Hnew.
  rewrite <- (filter_count_NoDup_equiv (fun k => PyStr.mem k existing) firsts
                (nodup string_dec keys) Hnd (NoDup_nodup _ _) Heq).
  pose proof (filter_length_partition (fun k => PyStr.mem k existing) firsts) as Hp.
  assert (Hle : List.length (nodup string_dec keys) <= List.length keys).
  { apply NoDup_incl_length; [apply NoDup_nodup|]. intros x Hx. now apply nodup_In in Hx. }
  unfold keys in *. rewrite length_map in *. lia.
Qed.

End KeyFacts.

Lemma label_count_absent name labels :
  ~ In name labels -> label_count name labels = 0.
Proof.
  induction labels as [|l ls IH]; simpl; [reflexivity|].
  intros H. destruct (String.eqb_spec name l) as [->|_]; [tauto|].
  rewrite IH; tauto.
Qed.

Lemma label_count_NoDup name labels :
  NoDup labels -> In name labels -> label_count name labels = 1.
Proof.
  induction labels as [|l ls IH]; simpl; [contradiction|].
  intros Hnd Hin. apply NoDup_cons_iff in Hnd as [Hn Hnd].
  destruct (String.eqb_spec name l) as [->|Hne].
  - now rewrite label_count_absent.
  - destruct Hin as [->|Hin]; [congruence|]. now rewrite IH.
Qed.

Lemma sql_distinct_NoDup names : sql_distinct names -> NoDup names.
Proof. apply NoDup_map_inv. Qed.

Lemma length_clean_column_names names :
  List.length (clean_column_names names) = List.length names.
Proof. apply length_map. Qed.

Section IngestionFacts.
Context {pandas : Pandas}.

(** [insert_unique_data] on a well-formed upload, step by step. *)
Lemma insert_unique_data_eq conn df j :
  rectangular df ->
  sql_distinct (clean_column_names (columns df)) ->
  index_of primary_key_col (clean_column_names (columns df)) = Some j ->
  table_present conn = true ->
  pending conn = [] ->
  insert_unique_data conn df
  = let new_records :=
      mkDataFrame (clean_column_names (columns df))
        (map (with_key j)
             (new_rows j (existing_keys (committed conn)) (rows df))) in
    if empty new_records then
      Ok (conn, [st_warning "No new unique records found."])
    else
      match insert_data_in_batches conn new_records default_batch_size with
      | Raise e => Raise e
      | Ok conn' =>
          Ok (conn',
              [st_success (PyStr.of_nat (len new_records)
                 ++ " unique records uploaded successfully.")])
      end.
Proof.
  intros Hrect Hd Hj Htable Hp.
  set (cols := clean_column_names (columns df)) in *.
  assert (Hin : In primary_key_col cols).
  { apply index_of_nth in Hj. now apply nth_error_In in Hj. }
  assert (Hcount : label_count primary_key_col cols = 1)
    by (apply label_count_NoDup; [now apply sql_distinct_NoDup|assumption]).
  assert (Hwide : Forall (fun r => j < List.length r) (rows df)).
  { apply index_of_lt in Hj. unfold cols in Hj.
    rewrite length_clean_column_names in Hj.
    eapply Forall_impl; [|exact Hrect]. simpl. intros r Hr. lia. }
  apply mem_In in Hin.
  unfold insert_unique_data. cbv zeta. fold cols.
  change (columns (set_columns df cols)) with cols.
  rewrite Hin. cbn [negb].
  rewrite (getitem_once (set_columns df cols) primary_key_col j Hj Hcount).
  unfold setitem. cbn [columns set_columns]. fold cols. rewrite Hj.
  unfold column_at. cbn [rows set_columns].
  rewrite (set_column_map j (rows df) normalize_key).
  change (map (fun r => set_nth j (normalize_key (cell_at j r)) r) (rows df))
    with (map (with_key j) (rows df)).
  unfold drop_duplicates. cbn [columns rows]. rewrite Hj.
  change (@nil cell) with (map CStr []).
  rewrite (drop_duplicate_rows_with_key j (rows df) Hwide []).
  unfold select_all. rewrite Htable, Hp, app_nil_r.
  rewrite (getitem_once
             (mkDataFrame cols (map (with_key j) (first_rows j [] (rows df))))
             primary_key_col j Hj Hcount).
  unfold column_at. cbn [rows columns].
  rewrite (select_rows_filter (fun c => negb (isin (existing_keys (committed conn)) c))).
  rewrite filter_with_key.
  - reflexivity.
  - apply Forall_forall. intros r Hr. apply first_rows_incl in Hr as [Hr _].
    rewrite Forall_forall in Hwide. now apply Hwide.
Qed.

(** The value the table holds under a column name. *)
Lemma sql_get_combine names :
  sql_distinct names ->
  forall name j values,
    index_of name names = Some j ->
    sql_get name (combine names values) = nth j values VNull.
Proof.
  unfold sql_distinct.
  induction names as [|n names IH]; intros Hd name j values Hj; [discriminate|].
  simpl in Hd. apply NoDup_cons_iff in Hd as [Hn Hd].
  simpl in Hj. destruct values as [|v values].
  - simpl. now destruct j.
  - simpl. destruct (String.eqb_spec name n) as [->|Hne].
    + injection Hj as <-. unfold sql_ident_eqb. now rewrite String.eqb_refl.
    + destruct (index_of name names) as [i|] eqn:Ei; [|discriminate].
      injection Hj as <-. unfold sql_ident_eqb.
      destruct (String.eqb_spec (PyStr.lower name) (PyStr.lower n)) as [E|_].
      * exfalso. apply Hn. rewrite <- E. apply in_map.
        apply index_of_nth in Ei. now apply nth_error_In in Ei.
      * now apply IH.
Qed.

Lemma sql_get_stored_row names name j r :
  sql_distinct names -> index_of name names = Some j ->
  sql_get name (stored_row names r) = sql_of_cell (cell_at j r).
Proof.
  intros Hd Hj. unfold stored_row. rewrite (sql_get_combine names Hd name j _ Hj).
  unfold cell_at. change VNull with (sql_of_cell CNaN). apply map_nth.
Qed.

(** The key read back from a row that was just inserted is the key it
    was inserted under. *)
Lemma stored_key_with_key names j r :
  sql_distinct names -> index_of primary_key_col names = Some j ->
  j < List.length r ->
  sql_get primary_key_col (stored_row names (with_key j r)) = VStr (key_of j r)
  /\ stored_key (stored_row names (with_key j r)) = key_of j r.
Proof.
  intros Hd Hj Hlt. unfold stored_key.
  rewrite (sql_get_stored_row names primary_key_col j _ Hd Hj).
  rewrite (cell_at_with_key j r Hlt). simpl. split; [reflexivity|].
  unfold key_of. apply normal_form_idem.
Qed.

End IngestionFacts.

Section DeduplicationFacts.
Context {pandas : Pandas}.

Lemma row_width df j r :
  rectangular df ->
  index_of primary_key_col (clean_column_names (columns df)) = Some j ->
  In r (rows df) -> j < List.length r.
Proof.
  intros Hrect Hj Hr. apply index_of_lt in Hj.
  rewrite length_clean_column_names in Hj.
  unfold rectangular in Hrect. rewrite Forall_forall in Hrect.
  rewrite (Hrect r Hr). exact Hj.
Qed.

Lemma new_rows_In j existing rs r :
  In r (new_rows j existing rs) ->
  In r rs /\ ~ In (key_of j r) existing
  /\ first_with_key j (key_of j r) rs = Some r.
Proof.
  unfold new_rows. intros H. apply filter_In in H as [H Hm].
  apply negb_true_iff, mem_false in Hm.
  split; [now apply first_rows_incl in H|]. split; [exact Hm|].
  now apply first_rows_first with (seen := []).
Qed.

(** The frame [insert_unique_data] hands to the insert holds the key as
    text in every row: its rows are of dtype [object]. *)
Lemma with_key_object names j rs r :
  In r rs -> j < List.length r ->
  float_frame (mkDataFrame names (map (with_key j) rs)) = false.
Proof.
  intros Hr Hj.
  apply (float_frame_false _ (with_key j r) (CStr (key_of j r))).
  - cbn [rows]. now apply in_map.
  - rewrite <- (cell_at_with_key j r Hj). unfold cell_at. apply nth_In.
    unfold with_key. now rewrite length_set_nth.
  - reflexivity.
Qed.

(** What [insert_unique_data] leaves in the table for a well-formed
    upload. *)
Lemma insert_unique_data_spec conn df j :
  rectangular df ->
  sql_distinct (clean_column_names (columns df)) ->
  index_of primary_key_col (clean_column_names (columns df)) = Some j ->
  table_present conn = true ->
  pending conn = [] ->
  let names := clean_column_names (columns df) in
  let inserted := new_rows j (existing_keys (committed conn)) (rows df) in
  exists conn' shown,
    insert_unique_data conn df = Ok (conn', shown)
    /\ committed conn'
       = committed conn ++ map (fun r => stored_row names (with_key j r)) inserted
    /\ pending conn' = []
    /\ table_present conn' = true
    /\ (inserted = [] ->
        conn' = conn /\ shown = [st_warning "No new unique records found."]).
Proof.
  intros Hrect Hd Hj Htable Hp names inserted.
  rewrite (insert_unique_data_eq conn df j Hrect Hd Hj Htable Hp). cbv zeta.
  fold names. fold inserted. unfold empty. cbn [rows].
  destruct inserted as [|r rs] eqn:E.
  - exists conn, [st_warning "No new unique records found."].
    cbn [map]. rewrite app_nil_r. repeat split; auto.
  - cbn [map].
    destruct (insert_data_in_batches_spec conn
                (mkDataFrame names (map (with_key j) (r :: rs)))
                default_batch_size)
      as (conn' & Eq & Hc & Hp' & Ht & _);
      [unfold default_batch_size; lia|exact Hp|].
    cbn [map] in Eq. rewrite Eq. eexists conn', _. split; [reflexivity|].
    split.
    { rewrite Hc. cbn [rows]. rewrite map_map. f_equal.
      assert (Hobject : float_frame
                          (mkDataFrame names (map (with_key j) (r :: rs))) = false).
      { assert (Hr : In r inserted) by (rewrite E; now left).
        apply new_rows_In in Hr as (Hr & _).
        apply (with_key_object names j (r :: rs) r);
          [now left|exact (row_width df j r Hrect Hj Hr)]. }
      change (stored_row names (with_key j r)
              :: map (fun r0 => stored_row names (with_key j r0)) rs)
        with (map (fun r0 => stored_row names (with_key j r0)) (r :: rs)).
      apply map_ext. intros r'.
      unfold stored_as, stored_row. cbn [columns].
      now rewrite (row_tuple_object _ _ Hobject). }
    split; [exact Hp'|]. split; [congruence|]. discriminate.
Qed.


Lemma new_rows_keys_NoDup j existing rs :
  NoDup (map (key_of j) (new_rows j existing rs)).
Proof.
  unfold new_rows.
  pose proof (first_rows_keys_NoDup j [] rs) as H.
  induction (first_rows j [] rs) as [|r l IH]; simpl; [constructor|].
  simpl in H. apply NoDup_cons_iff in H as [Hn H].
  destruct (PyStr.mem (key_of j r) existing); simpl; [now apply IH|].
  constructor; [|now apply IH].
  intros Hin. apply Hn. apply in_map_iff in Hin as (r' & E & Hin).
  apply filter_In in Hin as [Hin _]. rewrite <- E. now apply in_map.
Qed.

Lemma new_rows_complete j existing rs r :
  In r rs -> ~ In (key_of j r) existing ->
  In (key_of j r) (map (key_of j) (new_rows j existing rs)).
Proof.
  intros Hr Hex.
  pose proof (first_rows_complete j [] rs r Hr (fun H => H)) as H.
  apply in_map_iff in H as (r' & E & H).
  apply in_map_iff. exists r'. split; [exact E|].
  unfold new_rows. apply filter_In. split; [exact H|].
  apply negb_true_iff, mem_false. now rewrite E.
Qed.

(** The keys read back from the rows just inserted. *)
Lemma stored_keys_of_new_rows df j existing :
  rectangular df ->
  sql_distinct (clean_column_names (columns df)) ->
  index_of primary_key_col (clean_column_names (columns df)) = Some j ->
  map stored_key
      (map (fun r => stored_row (clean_column_names (columns df)) (with_key j r))
           (new_rows j existing (rows df)))
  = map (key_of j) (new_rows j existing (rows df)).
Proof.
  intros Hrect Hd Hj. rewrite map_map. apply map_ext_in. intros r Hr.
  apply new_rows_In in Hr as (Hr & _).
  apply (stored_key_with_key _ j r Hd Hj). now apply (row_width df).
Qed.

End DeduplicationFacts.

Section InvariantFacts.
Context {pandas : Pandas}.

Lemma key_of_idem j r :
  PyStr.lower (PyStr.strip (key_of j r)) = key_of j r.
Proof. unfold key_of. apply normal_form_idem. Qed.

(** No two rows of the table share a key after [insert_unique_data] if
    none did before. *)
Lemma insert_unique_data_keeps_distinct conn df j conn' shown :
  rectangular df ->
  sql_distinct (clean_column_names (columns df)) ->
  index_of primary_key_col (clean_column_names (columns df)) = Some j ->
  table_present conn = true ->
  pending conn = [] ->
  insert_unique_data conn df = Ok (conn', shown) ->
  NoDup (map stored_key (committed conn)) ->
  NoDup (map stored_key (committed conn'))
  /\ table_present conn' = true /\ pending conn' = [].
Proof.
  intros Hrect Hd Hj Htable Hp E Hnd.
  destruct (insert_unique_data_spec conn df j Hrect Hd Hj Htable Hp)
    as (c & s & E' & Hc & Hp' & Ht' & _).
  rewrite E in E'. injection E' as <- <-.
  split; [|split; assumption].
  rewrite Hc, map_app.
  rewrite (stored_keys_of_new_rows df j _ Hrect Hd Hj).
  apply NoDup_app; [exact Hnd|apply new_rows_keys_NoDup|].
  intros k Hk Hk'. apply in_map_iff in Hk' as (r & <- & Hr).
  apply new_rows_In in Hr as (_ & Hr & _). now apply Hr.
Qed.

(** The same over any number of uploads, one after the other. *)
Lemma ingest_all_keeps_distinct uploads :
  Forall well_formed_upload uploads ->
  forall conn,
    table_present conn = true -> pending conn = [] ->
    NoDup (map stored_key (committed conn)) ->
    NoDup (map stored_key (committed (fold_left ingest uploads conn))).
Proof.
  induction 1 as [|df uploads (Hrect & Hd & Hin) _ IH]; intros conn Ht Hp Hnd;
    [exact Hnd|].
  cbn [fold_left]. destruct (index_of_In _ _ Hin) as [j Hj].
  destruct (insert_unique_data_spec conn df j Hrect Hd Hj Ht Hp)
    as (conn' & shown & E & _).
  destruct (insert_unique_data_keeps_distinct conn df j conn' shown
              Hrect Hd Hj Ht Hp E Hnd) as (Hnd' & Ht' & Hp').
  unfold ingest at 2. rewrite E. now apply IH.
Qed.

End InvariantFacts.

(** Whether the rows of a frame are of dtype [float64], read off its
    cells. *)
Lemma float_frame_spec df :
  float_frame df = true
  <-> forall r c, In r (rows df) -> In c r -> c = CNaN \/ exists q, c = CNum q.
Proof.
  unfold float_frame. rewrite forallb_forall. split.
  - intros H r c Hr Hc. specialize (H r Hr). rewrite forallb_forall in H.
    specialize (H c Hc). destruct c; try discriminate H; eauto.
  - intros H r Hr. apply forallb_forall. intros c Hc.
    destruct (H r c Hr Hc) as [->|[q ->]]; reflexivity.
Qed.

(** C8. The rows that survive are inserted in consecutive batches of
    [batch_size] rows, 2000 unless told otherwise, each batch in one
    [executemany] followed by its own [commit]: the loop run to its end
    commits every row in order, and the loop cut after [k] turns has
    committed the first [k] batches and holds nothing uncommitted.  The
    [INSERT] is given the text, the number or the [Timestamp] of a cell
    and [None] for a missing one; only in a frame all of whose cells are
    numbers or [NaN], whose rows are of dtype [float64], does [NaN] stay.
    The frame of the surviving rows is never such a frame, it holds the
    key as text in every row: [insert_unique_data] stores [NULL] for
    every missing cell of every row it inserts.  For 4500 rows the round
    trips are of 2000, 2000 and 500 rows, and after two of them the first
    4000 rows are committed. *)
Theorem batches_commit_one_by_one :
  default_batch_size = 2000
  /\ (forall df r,
        row_tuple df r
        = map (fun c =>
                 match c with
                 | CStr s => VStr s
                 | CNum q => VNum q
                 | CTimestamp d utcoffset => VTimestamp d utcoffset
                 | CMissing | CNaT => VNull
                 | CNaN => if float_frame df then VNaN else VNull
                 end) r)
  /\ (forall df,
        float_frame df = true
        <-> forall r c, In r (rows df) -> In c r ->
                        c = CNaN \/ exists q, c = CNum q)
  /\ (forall conn df batch_size,
        0 < batch_size -> pending conn = [] ->
        exists conn',
          insert_data_in_batches conn df batch_size = Ok conn'
          /\ committed conn'
             = committed conn
               ++ map (fun r => combine (columns df) (row_tuple df r)) (rows df)
          /\ pending conn' = []
          /\ round_trips conn'
             = round_trips conn
               ++ map (fun i => Nat.min batch_size (len df - i))
                    (range 0 (len df) batch_size)
          /\ forall k,
               let cut :=
                 run_batches df batch_size
                   (firstn k (range 0 (len df) batch_size)) conn in
               committed cut
               = committed conn
                 ++ map (fun r => combine (columns df) (row_tuple df r))
                      (firstn (k * batch_size) (rows df))
               /\ pending cut = [])
  /\ (forall (pandas : Pandas) conn df j,
        rectangular df ->
        sql_distinct (clean_column_names (columns df)) ->
        index_of primary_key_col (clean_column_names (columns df)) = Some j ->
        table_present conn = true ->
        pending conn = [] ->
        exists conn' shown,
          insert_unique_data conn df = Ok (conn', shown)
          /\ committed conn'
             = committed conn
               ++ map (fun r =>
                         combine (clean_column_names (columns df))
                           (map (fun c =>
                                   match c with
                                   | CStr s => VStr s
                                   | CNum q => VNum q
                                   | CTimestamp d utcoffset =>
                                       VTimestamp d utcoffset
                                   | CNaN | CMissing | CNaT => VNull
                                   end) (with_key j r)))
                    (new_rows j (existing_keys (committed conn)) (rows df)))
  /\ (forall conn df,
        len df = 4500 -> pending conn = [] ->
        exists conn',
          insert_data_in_batches conn df default_batch_size = Ok conn'
          /\ round_trips conn' = round_trips conn ++ [2000; 2000; 500]
          /\ committed conn'
             = committed conn
               ++ map (fun r => combine (columns df) (row_tuple df r)) (rows df)
          /\ let cut :=
               run_batches df default_batch_size
                 (firstn 2 (range 0 (len df) default_batch_size)) conn in
             committed cut
             = committed conn
               ++ map (fun r => combine (columns df) (row_tuple df r))
                    (firstn 4000 (rows df))
             /\ pending cut = []
             /\ round_trips cut = round_trips conn ++ [2000; 2000])
  /\ insert_data_in_batches empty_table
       (mkDataFrame ["Unique ID"; "Tax Amt"; "Timestamp"]
          [ [CStr "u1"; CNaN; CMissing] ])
       default_batch_size
     = Ok (mkConnection true
             [ [("Unique ID", VStr "u1"); ("Tax Amt", VNull);
                ("Timestamp", VNull)] ]
             [] [1])
  /\ insert_data_in_batches empty_table
       (mkDataFrame ["Tax Amt"; "Total Amt"] [ [CNum 1; CNaN] ])
       default_batch_size
     = Ok (mkConnection true
             [ [("Tax Amt", VNum 1); ("Total Amt", VNaN)] ] [] [1]).
Proof.
  split; [reflexivity|]. split.
  { intros df r. unfold row_tuple.
    destruct (float_frame df); apply map_ext; intros [s|q| | |d o|]; reflexivity. }
  split; [exact float_frame_spec|].
  assert (Hcut : forall conn df batch_size k,
             0 < batch_size -> pending conn = [] ->
             let cut :=
               run_batches df batch_size
                 (firstn k (range 0 (len df) batch_size)) conn in
             committed cut
             = committed conn
               ++ map (stored_as df) (firstn (k * batch_size) (rows df))
             /\ pending cut = []).
  { intros conn df batch_size k Hbs Hp.
    destruct (run_batches_prefix df batch_size Hbs k (len df) 0 conn Hp)
      as (Hc & Hp' & _); [lia|]. split; [exact Hc|exact Hp']. }
  split.
  { intros conn df batch_size Hbs Hp.
    destruct (insert_data_in_batches_spec conn df batch_size Hbs Hp)
      as (conn' & E & Hc & Hp' & _ & Hr).
    exists conn'. split; [exact E|]. split; [exact Hc|]. split; [exact Hp'|].
    split; [exact Hr|]. intros k. exact (Hcut conn df batch_size k Hbs Hp). }
  split.
  { intros pandas conn df j Hrect Hd Hj Htable Hp.
    destruct (insert_unique_data_spec conn df j Hrect Hd Hj Htable Hp)
      as (conn' & shown & E & Hc & _).
    exists conn', shown. split; [exact E|]. rewrite Hc. reflexivity. }
  split; [|split; vm_compute; reflexivity].
  intros conn df Hlen Hp.
  assert (Hbs : 0 < default_batch_size) by (unfold default_batch_size; lia).
  destruct (insert_data_in_batches_spec conn df default_batch_size Hbs Hp)
    as (conn' & E & Hc & Hp' & _ & Hr).
  exists conn'. split; [exact E|]. split.
  { rewrite Hr, Hlen. reflexivity. }
  split; [exact Hc|].
  destruct (Hcut conn df default_batch_size 2 Hbs Hp) as (Hc2 & Hp2).
  split; [exact Hc2|]. split; [exact Hp2|].
  rewrite run_batches_round_trips, Hlen. reflexivity.
Qed.

Lemma batches_commit_one_by_one_witness :
  len frame_4500 = 4500 /\ pending empty_table = []
  /\ exists conn',
       insert_data_in_batches empty_table frame_4500 default_batch_size = Ok conn'
       /\ round_trips conn' = [2000; 2000; 500].
Proof.
  assert (Hlen : len frame_4500 = 4500) by (vm_compute; reflexivity).
  split; [exact Hlen|]. split; [reflexivity|].
  destruct (proj1 (proj2 (proj2 (proj2 (proj2 (proj2 batches_commit_one_by_one)))))
              empty_table frame_4500 Hlen eq_refl)
    as (conn' & E & Hr & _).
  exists conn'. split; [exact E|exact Hr].
Defined.

(** C1. On an upload whose labels name distinct columns, ["Unique ID"]
    among them, and a table that exists, [insert_unique_data] stores
    every row under its key trimmed and lowered; it inserts no row whose
    key the table already holds, as it stands or once trimmed and
    lowered, and of the rows of one key only the first; every key the
    table does not hold is inserted; the rows inserted number the rows
    uploaded less the keys the table already holds (each counted once)
    less the rows that repeat the key of an earlier row; and if no two
    rows of the table shared a key before, no two share one afterwards,
    nor after any further uploads. *)
Theorem insert_unique_data_deduplicates :
  forall (pandas : Pandas) (conn : connection) (df : DataFrame) (j : nat),
    rectangular df ->
    sql_distinct (clean_column_names (columns df)) ->
    index_of primary_key_col (clean_column_names (columns df)) = Some j ->
    table_present conn = true ->
    pending conn = [] ->
    let names := clean_column_names (columns df) in
    let keys := map (key_of j) (rows df) in
    let existing := map stored_key (committed conn) in
    exists conn' shown inserted,
      insert_unique_data conn df = Ok (conn', shown)
      /\ committed conn'
         = committed conn ++ map (fun r => stored_row names (with_key j r)) inserted
      /\ (forall r, In r inserted ->
            In r (rows df)
            /\ stored_key (stored_row names (with_key j r))
               = PyStr.lower (PyStr.strip (astype_str (cell_at j r))))
      /\ (forall r, In r inserted ->
            ~ In (key_of j r) existing
            /\ forall row, In row (committed conn) ->
                           sql_get primary_key_col row <> VStr (key_of j r))
      /\ NoDup (map (key_of j) inserted)
      /\ (forall r, In r inserted ->
            first_with_key j (key_of j r) (rows df) = Some r)
      /\ (forall r, In r (rows df) -> ~ In (key_of j r) existing ->
            In (key_of j r) (map (key_of j) inserted))
      /\ List.length inserted
         + pre_existing_duplicates existing keys + intra_upload_duplicates keys
         = len df
      /\ List.length inserted
         = len df - pre_existing_duplicates existing keys
           - intra_upload_duplicates keys
      /\ (NoDup (map stored_key (committed conn)) ->
          NoDup (map stored_key (committed conn'))
          /\ forall later,
               Forall well_formed_upload later ->
               NoDup (map stored_key
                        (committed (fold_left ingest later conn')))).
Proof.
  intros pandas conn df j Hrect Hd Hj Htable Hp names keys existing.
  destruct (insert_unique_data_spec conn df j Hrect Hd Hj Htable Hp)
    as (conn' & shown & E & Hc & _).
  change (existing_keys (committed conn)) with existing in Hc.
  fold names in Hc.
  exists conn', shown, (new_rows j existing (rows df)).
  split; [exact E|]. split; [exact Hc|].
  pose proof (new_rows_count j existing (rows df)) as Hcount. cbv zeta in Hcount.
  fold keys in Hcount.
  split.
  { intros r Hr. apply new_rows_In in Hr as (Hr & _). split; [exact Hr|].
    apply (stored_key_with_key names j r Hd Hj). now apply (row_width df). }
  split.
  { intros r Hr. apply new_rows_In in Hr as (_ & Hr & _). split; [exact Hr|].
    intros row Hrow Hget. apply Hr. unfold existing.
    apply in_map_iff. exists row. split; [|exact Hrow].
    unfold stored_key. rewrite Hget. apply key_of_idem. }
  split; [apply new_rows_keys_NoDup|].
  split; [intros r Hr; now apply new_rows_In in Hr|].
  split; [intros r; apply new_rows_complete|].
  split; [exact Hcount|]. split; [unfold len; lia|].
  intros Hnd.
  destruct (insert_unique_data_keeps_distinct conn df j conn' shown
              Hrect Hd Hj Htable Hp E Hnd) as (Hnd' & Ht' & Hp').
  split; [exact Hnd'|]. intros later Hlater.
  now apply ingest_all_keeps_distinct.
Qed.

Lemma NoDup_by_nodup (l : list string) : nodup string_dec l = l -> NoDup l.
Proof. intros <-. apply NoDup_nodup. Qed.

Lemma insert_unique_data_deduplicates_witness :
  rectangular upload_four
  /\ sql_distinct (clean_column_names (columns upload_four))
  /\ index_of primary_key_col (clean_column_names (columns upload_four)) = Some 0
  /\ table_present table_with_b2 = true
  /\ pending table_with_b2 = []
  /\ exists conn' shown (inserted : list (list cell)),
       insert_unique_data (pandas := Reference.pandas) table_with_b2 upload_four
       = Ok (conn', shown)
       /\ List.length inserted = 2.
Proof.
  assert (H1 : rectangular upload_four) by (repeat constructor).
  assert (H2 : sql_distinct (clean_column_names (columns upload_four)))
    by (apply NoDup_by_nodup; vm_compute; reflexivity).
  assert (H3 : index_of primary_key_col (clean_column_names (columns upload_four))
               = Some 0) by (vm_compute; reflexivity).
  repeat (split; [first [assumption | reflexivity]|]).
  destruct (insert_unique_data_deduplicates Reference.pandas table_with_b2
              upload_four 0 H1 H2 H3 eq_refl eq_refl)
    as (conn' & shown & inserted & E & _ & _ & _ & _ & _ & _ & _ & Hn & _).
  exists conn', shown, inserted. split; [exact E|]. rewrite Hn.
  vm_compute. reflexivity.
Defined.

(** C10. What is stored under ["Unique ID"] for an inserted row is the
    uploaded cell as text, trimmed and lowered, not the cell as
    uploaded; every other cell is stored as the frame holds it.  So an
    upload whose only row has the key ["  AbC-1 "] leaves ["abc-1"] in
    the table. *)
Theorem stored_key_is_the_normalized_one :
  forall (pandas : Pandas) (conn : connection) (df : DataFrame) (j : nat),
    rectangular df ->
    sql_distinct (clean_column_names (columns df)) ->
    index_of primary_key_col (clean_column_names (columns df)) = Some j ->
    table_present conn = true ->
    pending conn = [] ->
    let names := clean_column_names (columns df) in
    (exists conn' shown inserted,
       insert_unique_data conn df = Ok (conn', shown)
       /\ committed conn'
          = committed conn ++ map (fun r => stored_row names (with_key j r)) inserted
       /\ forall r, In r inserted ->
            In r (rows df)
            /\ sql_get primary_key_col (stored_row names (with_key j r))
               = VStr (PyStr.lower (PyStr.strip (astype_str (cell_at j r))))
            /\ forall name i,
                 index_of name names = Some i -> i <> j ->
                 sql_get name (stored_row names (with_key j r))
                 = sql_of_cell (cell_at i r))
    /\ map (sql_get "Unique ID")
         (table_after
            (import_csv_page (pandas := Reference.pandas)
               (Some (Ok (upload_of [("  AbC-1 ", "3")]))) true (Some empty_table)))
       = [VStr "abc-1"].
Proof.
  intros pandas conn df j Hrect Hd Hj Htable Hp names. split.
  - destruct (insert_unique_data_spec conn df j Hrect Hd Hj Htable Hp)
      as (conn' & shown & E & Hc & _).
    fold names in Hc.
    exists conn', shown, (new_rows j (existing_keys (committed conn)) (rows df)).
    split; [exact E|]. split; [exact Hc|].
    intros r Hr. apply new_rows_In in Hr as (Hr & _). split; [exact Hr|].
    pose proof (row_width df j r Hrect Hj Hr) as Hw.
    split; [apply (stored_key_with_key names j r Hd Hj Hw)|].
    intros name i Hi Hne.
    rewrite (sql_get_stored_row names name i _ Hd Hi).
    unfold with_key. now rewrite nth_set_nth_other by congruence.
  - vm_compute. reflexivity.
Qed.

Lemma stored_key_is_the_normalized_one_witness :
  rectangular upload_four
  /\ sql_distinct (clean_column_names (columns upload_four))
  /\ index_of primary_key_col (clean_column_names (columns upload_four)) = Some 0
  /\ table_present table_with_b2 = true
  /\ pending table_with_b2 = []
  /\ exists conn' shown,
       insert_unique_data (pandas := Reference.pandas) table_with_b2 upload_four
       = Ok (conn', shown).
Proof.
  assert (H1 : rectangular upload_four) by (repeat constructor).
  assert (H2 : sql_distinct (clean_column_names (columns upload_four)))
    by (apply NoDup_by_nodup; vm_compute; reflexivity).
  assert (H3 : index_of primary_key_col (clean_column_names (columns upload_four))
               = Some 0) by (vm_compute; reflexivity).
  repeat (split; [first [assumption | reflexivity]|]).
  destruct (proj1 (stored_key_is_the_normalized_one Reference.pandas table_with_b2
                     upload_four 0 H1 H2 H3 eq_refl eq_refl))
    as (conn' & shown & inserted & E & _).
  exists conn', shown. exact E.
Defined.

(* ================================================================== *)
(** ** The import page *)
(* ================================================================== *)

Lemma REQUIRED_COLUMNS_NoDup : NoDup REQUIRED_COLUMNS.
Proof. apply NoDup_by_nodup. vm_compute. reflexivity. Qed.

(** C2. When a required column is absent from the cleaned header, the
    page shows one error, ["Invalid file: Missing required columns - "]
    followed by the absent names, and returns: the names listed are the
    required columns that are absent, each once, nothing else is shown,
    and the database is the one it was, whether the button was pressed
    or not. *)
Theorem missing_columns_block_ingestion :
  forall (pandas : Pandas) (df : DataFrame) (button : bool)
         (db : option connection),
    (exists col, In col REQUIRED_COLUMNS
                 /\ ~ In col (clean_column_names (columns df))) ->
    exists missing_columns,
      import_csv_page (Some (Ok df)) button db
      = ([st_error ("Invalid file: Missing required columns - "
                    ++ PyStr.join ", " missing_columns)], db)
      /\ (forall col, In col missing_columns <->
                      In col REQUIRED_COLUMNS
                      /\ ~ In col (clean_column_names (columns df)))
      /\ NoDup missing_columns.
Proof.
  intros pandas df button db (col & Hreq & Habs).
  set (absent := fun c => negb (PyStr.mem c (clean_column_names (columns df)))).
  exists (filter absent REQUIRED_COLUMNS).
  assert (Hspec : forall c, In c (filter absent REQUIRED_COLUMNS) <->
                            In c REQUIRED_COLUMNS
                            /\ ~ In c (clean_column_names (columns df))).
  { intros c. rewrite filter_In. unfold absent.
    rewrite negb_true_iff, mem_false. reflexivity. }
  split; [|split; [exact Hspec|apply NoDup_filter, REQUIRED_COLUMNS_NoDup]].
  unfold import_csv_page. cbv zeta.
  change (columns (set_columns (fillna "" df)
                     (clean_column_names (columns (fillna "" df)))))
    with (clean_column_names (columns df)).
  fold absent.
  destruct (filter absent REQUIRED_COLUMNS) as [|m ms] eqn:E; [|reflexivity].
  exfalso. apply (Hspec col). split; assumption.
Qed.

Lemma missing_columns_block_ingestion_witness :
  (exists col, In col REQUIRED_COLUMNS
               /\ ~ In col (clean_column_names (columns upload_four)))
  /\ snd (import_csv_page (pandas := Reference.pandas)
            (Some (Ok upload_four)) true (Some table_with_b2))
     = Some table_with_b2.
Proof.
  assert (H : exists col, In col REQUIRED_COLUMNS
                          /\ ~ In col (clean_column_names (columns upload_four))).
  { exists "Timestamp". split; [left; reflexivity|].
    intros [E|[E|[]]]; discriminate E. }
  split; [exact H|].
  destruct (missing_columns_block_ingestion Reference.pandas upload_four true
              (Some table_with_b2) H) as (missing & E & _).
  rewrite E. reflexivity.
Defined.

Lemma replace_idem s :
  PyStr.replace nbsp space (PyStr.replace nbsp space s) = PyStr.replace nbsp space s.
Proof.
  induction s as [|c s IH]; simpl; [reflexivity|]. rewrite IH. f_equal.
  destruct (Ascii.eqb c nbsp) eqn:E; [reflexivity|now rewrite E].
Qed.

Lemma clean_column_names_idem names :
  clean_column_names (clean_column_names names) = clean_column_names names.
Proof.
  unfold clean_column_names. rewrite map_map. apply map_ext. intros s.
  rewrite stripped_fixed by (rewrite stripped_replace; apply stripped_strip).
  apply replace_idem.
Qed.

Lemma rectangular_cleaned df :
  rectangular df ->
  rectangular (set_columns (fillna "" df)
                 (clean_column_names (columns (fillna "" df)))).
Proof.
  unfold rectangular. cbn [rows columns set_columns fillna].
  rewrite length_clean_column_names. intros H.
  apply Forall_map. eapply Forall_impl; [|exact H].
  cbn beta. intros r Hr. now rewrite length_map.
Qed.

Lemma close_idle conn : pending conn = [] -> close conn = conn.
Proof. destruct conn as [t c p r]. cbn. now intros ->. Qed.

Lemma filter_none {A} (f : A -> bool) l :
  (forall x, In x l -> f x = false) -> filter f l = [].
Proof.
  induction l as [|x l IH]; intros H; simpl; [reflexivity|].
  rewrite (H x (or_introl eq_refl)). apply IH. intros y Hy. apply H. now right.
Qed.

Section IdempotenceFacts.
Context {pandas : Pandas}.

(** With the rows of an upload in the table, the same upload has no new
    row. *)
Lemma new_rows_after_insert df j existing :
  rectangular df ->
  sql_distinct (clean_column_names (columns df)) ->
  index_of primary_key_col (clean_column_names (columns df)) = Some j ->
  new_rows j
    (existing
     ++ existing_keys
          (map (fun r => stored_row (clean_column_names (columns df)) (with_key j r))
               (new_rows j existing (rows df))))
    (rows df)
  = [].
Proof.
  intros Hrect Hd Hj.
  change (existing_keys
            (map (fun r => stored_row (clean_column_names (columns df)) (with_key j r))
                 (new_rows j existing (rows df))))
    with (map stored_key
            (map (fun r => stored_row (clean_column_names (columns df)) (with_key j r))
                 (new_rows j existing (rows df)))).
  rewrite (stored_keys_of_new_rows df j existing Hrect Hd Hj).
  unfold new_rows at 1. apply filter_none. intros r Hr.
  apply negb_false_iff, mem_In, in_or_app.
  destruct (PyStr.mem (key_of j r) existing) eqn:E; [left; now apply mem_In|].
  right. apply in_map. unfold new_rows. apply filter_In. split; [exact Hr|].
  now rewrite E.
Qed.

(** [insert_unique_data] run again on the table it left. *)
Lemma insert_unique_data_again conn df j conn' shown :
  rectangular df ->
  sql_distinct (clean_column_names (columns df)) ->
  index_of primary_key_col (clean_column_names (columns df)) = Some j ->
  table_present conn = true ->
  pending conn = [] ->
  insert_unique_data conn df = Ok (conn', shown) ->
  pending conn' = []
  /\ insert_unique_data conn' df
     = Ok (conn', [st_warning "No new unique records found."]).
Proof.
  intros Hrect Hd Hj Htable Hp E.
  destruct (insert_unique_data_spec conn df j Hrect Hd Hj Htable Hp)
    as (c1 & s1 & E1 & Hc1 & Hp1 & Ht1 & _).
  rewrite E in E1. injection E1 as <- <-. split; [exact Hp1|].
  destruct (insert_unique_data_spec conn' df j Hrect Hd Hj Ht1 Hp1)
    as (c2 & s2 & E2 & _ & _ & _ & Hnone).
  rewrite E2. rewrite Hc1 in Hnone. unfold existing_keys at 1 in Hnone.
  rewrite map_app in Hnone.
  destruct Hnone as [-> ->]; [|reflexivity].
  apply (new_rows_after_insert df j _ Hrect Hd Hj).
Qed.

End IdempotenceFacts.

(** C3. Ingesting a file twice: on an upload whose labels name distinct
    columns, the first run of the page with the button pressed leaves
    some table, and the second run on that table leaves it as it is: no
    row is added, no round trip is made.  When the upload has every
    required column and the table exists, the second run ends on
    ["No new unique records found."]. *)
Theorem second_ingestion_inserts_nothing :
  forall (pandas : Pandas) (df : DataFrame) (conn : connection),
    rectangular df ->
    sql_distinct (clean_column_names (columns df)) ->
    pending conn = [] ->
    exists log1 conn1,
      import_csv_page (Some (Ok df)) true (Some conn) = (log1, Some conn1)
      /\ exists log2,
           import_csv_page (Some (Ok df)) true (Some conn1) = (log2, Some conn1)
           /\ (table_present conn = true ->
               (forall col, In col REQUIRED_COLUMNS ->
                            In col (clean_column_names (columns df))) ->
               exists shown,
                 log2 = shown ++ [st_warning "No new unique records found."]).
Proof.
  intros pandas df conn Hrect Hd Hp.
  set (absent := fun c => negb (PyStr.mem c (clean_column_names (columns df)))).
  assert (Hspec : forall c, In c (filter absent REQUIRED_COLUMNS) <->
                            In c REQUIRED_COLUMNS
                            /\ ~ In c (clean_column_names (columns df))).
  { intros c. rewrite filter_In. unfold absent.
    rewrite negb_true_iff, mem_false. reflexivity. }
  unfold import_csv_page. cbv zeta.
  change (columns (set_columns (fillna "" df)
                     (clean_column_names (columns (fillna "" df)))))
    with (clean_column_names (columns df)).
  fold absent.
  destruct (filter absent REQUIRED_COLUMNS) as [|m ms] eqn:Emissing.
  - pose proof (rectangular_cleaned df Hrect) as Hrect2.
    destruct (enforce_data_types_spec _ Hrect2) as (Hcols & Hrect3 & _).
    destruct (enforce_data_types
                (set_columns (fillna "" df)
                   (clean_column_names (columns (fillna "" df)))))
      as [df3 warnings] eqn:Een.
    cbn [fst] in Hcols, Hrect3.
    change (columns (set_columns (fillna "" df)
                       (clean_column_names (columns (fillna "" df)))))
      with (clean_column_names (columns df)) in Hcols.
    unfold table_exists.
    destruct (table_present conn) eqn:Htable.
    + assert (Hpk : In primary_key_col (clean_column_names (columns df))).
      { destruct (in_dec string_dec primary_key_col
                    (clean_column_names (columns df))) as [H|H]; [exact H|].
        exfalso. apply (Hspec primary_key_col). split; [|exact H].
        apply mem_In. vm_compute. reflexivity. }
      assert (Hclean : clean_column_names (columns df3)
                       = clean_column_names (columns df))
        by (rewrite Hcols; apply clean_column_names_idem).
      destruct (index_of_In _ _ Hpk) as [j Hj].
      rewrite <- Hclean in Hd, Hj.
      destruct (insert_unique_data_spec conn df3 j Hrect3 Hd Hj Htable Hp)
        as (conn' & shown & E & _ & Hp' & Ht' & _).
      destruct (insert_unique_data_again conn df3 j conn' shown
                  Hrect3 Hd Hj Htable Hp E) as (_ & E').
      rewrite E. rewrite (close_idle conn' Hp').
      eexists _, conn'. split; [reflexivity|].
      rewrite Ht', E', (close_idle conn' Hp').
      eexists. split; [reflexivity|].
      intros _ _. eexists. reflexivity.
    + eexists _, (close conn). split; [reflexivity|].
      cbn [table_present close]. rewrite Htable.
      eexists. split; [reflexivity|]. discriminate.
  - eexists _, conn. split; [reflexivity|].
    eexists. split; [reflexivity|].
    intros _ Hall. exfalso.
    destruct (proj1 (Hspec m) (or_introl eq_refl)) as [Hreq Habs].
    apply Habs, Hall, Hreq.
Qed.

Lemma second_ingestion_inserts_nothing_witness :
  rectangular (upload_of [("u1", "1"); (" U1", "2"); ("u2", "3")])
  /\ sql_distinct
       (clean_column_names
          (columns (upload_of [("u1", "1"); (" U1", "2"); ("u2", "3")])))
  /\ pending empty_table = []
  /\ exists log1 conn1,
       import_csv_page (pandas := Reference.pandas)
         (Some (Ok (upload_of [("u1", "1"); (" U1", "2"); ("u2", "3")])))
         true (Some empty_table)
       = (log1, Some conn1)
       /\ exists log2,
            import_csv_page (pandas := Reference.pandas)
              (Some (Ok (upload_of [("u1", "1"); (" U1", "2"); ("u2", "3")])))
              true (Some conn1)
            = (log2, Some conn1).
Proof.
  assert (H1 : rectangular (upload_of [("u1", "1"); (" U1", "2"); ("u2", "3")]))
    by (repeat constructor).
  assert (H2 : sql_distinct
                 (clean_column_names
                    (columns (upload_of [("u1", "1"); (" U1", "2"); ("u2", "3")]))))
    by (apply NoDup_by_nodup; vm_compute; reflexivity).
  split; [exact H1|]. split; [exact H2|]. split; [reflexivity|].
  destruct (second_ingestion_inserts_nothing Reference.pandas _ empty_table
              H1 H2 eq_refl) as (log1 & conn1 & E1 & log2 & E2 & _).
  exists log1, conn1. split; [exact E1|]. exists log2. exact E2.
Defined.

(* ================================================================== *)
(** ** Reporting queries *)
(* ================================================================== *)

Lemma datetime_eqb_eq a b : datetime_eqb a b = true <-> a = b.
Proof.
  destruct a, b. unfold datetime_eqb. cbn [year month day hour minute second].
  rewrite !andb_true_iff, !N.eqb_eq. split.
  - intros (((((-> & ->) & ->) & ->) & ->) & ->). reflexivity.
  - intros [= -> -> -> -> -> ->]. repeat split.
Qed.

(** Equality of two timestamps with their offsets. *)
Lemma timestamp_eqb_eq d o d' o' :
  datetime_eqb d d' && (o =? o')%Z = true <-> d = d' /\ o = o'.
Proof. now rewrite andb_true_iff, datetime_eqb_eq, Z.eqb_eq. Qed.

Lemma sqlval_eqb_refl v : sqlval_eqb v v = true.
Proof.
  destruct v as [|s|q| |d o]; simpl;
    [reflexivity|apply String.eqb_refl| |reflexivity|now apply timestamp_eqb_eq].
  apply Qeq_bool_iff. reflexivity.
Qed.

Lemma filter_filter_implied {A} (f g : A -> bool) l :
  (forall x, f x = true -> g x = true) ->
  filter f (filter g l) = filter f l.
Proof.
  intros H. induction l as [|x l IH]; simpl; [reflexivity|].
  destruct (g x) eqn:Eg; simpl.
  - now rewrite IH.
  - destruct (f x) eqn:Ef; [|exact IH]. rewrite (H x Ef) in Eg. discriminate.
Qed.

Lemma where_clause_in_range q lo hi row :
  where_clause q lo hi row = true ->
  sql_between (sql_get "timestamp" row) lo hi = true.
Proof. unfold where_clause. intros H. now apply andb_true_iff in H as [_ H]. Qed.

Lemma distinct_values_incl seen values v :
  In v (distinct_values seen values) -> In v values.
Proof.
  revert seen. induction values as [|x values IH]; intros seen; simpl; [auto|].
  destruct (existsb (sqlval_eqb x) seen).
  - intros H. right. now apply IH with seen.
  - intros [->|H]; [now left|]. right. now apply IH with (x :: seen).
Qed.

Lemma count_value_positive v values : In v values -> 1 <= count_value v values.
Proof.
  unfold count_value. induction values as [|x values IH]; simpl; [contradiction|].
  intros [->|H].
  - rewrite sqlval_eqb_refl. simpl. lia.
  - specialize (IH H). destruct (sqlval_eqb x v); simpl; lia.
Qed.

Lemma count_value_map_filter (g : sqlrow -> sqlval) (w : sqlrow -> bool) v table :
  count_value v (map g (filter w table))
  = List.length (filter (fun row => w row && sqlval_eqb (g row) v) table).
Proof.
  unfold count_value. induction table as [|row table IH]; simpl; [reflexivity|].
  destruct (w row); simpl; [|exact IH].
  destruct (sqlval_eqb (g row) v); simpl; now rewrite IH.
Qed.

Lemma insert_desc_In g sorted x :
  In x (insert_desc g sorted) <-> x = g \/ In x sorted.
Proof.
  induction sorted as [|h t IH]; simpl; [intuition|].
  destruct (snd h <? snd g); simpl; [intuition|]. rewrite IH. intuition.
Qed.

Lemma order_by_count_desc_In groups x :
  In x (order_by_count_desc groups) <-> In x groups.
Proof.
  unfold order_by_count_desc. induction groups as [|g groups IH]; simpl; [reflexivity|].
  rewrite insert_desc_In, IH. intuition.
Qed.

Lemma apply_limit_In {A} k (l : list A) x : In x (apply_limit k l) -> In x l.
Proof.
  destruct k as [n|]; simpl; [|auto]. intros H.
  rewrite <- (firstn_skipn n l). apply in_or_app. now left.
Qed.

Lemma apply_limit_nil {A} k : apply_limit k (@nil A) = [].
Proof. destruct k as [n|]; simpl; [apply firstn_nil|reflexivity]. Qed.

Lemma leb_refl s : String.leb s s = true.
Proof. destruct (String.leb_total s s); assumption. Qed.

Lemma compare_app_same_length a a' r r' :
  String.length a = String.length a' ->
  String.compare (a ++ r) (a' ++ r')
  = match String.compare a a' with
    | Eq => String.compare r r'
    | ne => ne
    end.
Proof.
  revert a'. induction a as [|c a IH]; intros [|c' a']; simpl; try discriminate.
  - reflexivity.
  - intros [= H]. destruct (Ascii.compare c c'); auto.
Qed.

Lemma digit_code c u : Reference.digit c = Some u -> (N_of_ascii c = 48 + u /\ u < 10)%N.
Proof.
  unfold Reference.digit.
  destruct ((48 <=? N_of_ascii c) && (N_of_ascii c <=? 57))%N eqn:E; [|discriminate].
  intros [= <-]. apply andb_true_iff in E as [E1 E2].
  apply N.leb_le in E1, E2. lia.
Qed.

Lemma digits_bounds s : forall acc x,
  Reference.digits acc s = Some x ->
  (acc * 10 ^ N.of_nat (String.length s) <= x
   < (acc + 1) * 10 ^ N.of_nat (String.length s))%N.
Proof.
  induction s as [|c s IH]; intros acc x; simpl Reference.digits.
  - intros [= <-]. simpl. lia.
  - destruct (Reference.digit c) as [u|] eqn:Eu; [|discriminate].
    intros H. apply IH in H. apply digit_code in Eu as [_ Hu].
    change (String.length (String c s)) with (S (String.length s)).
    rewrite Nat2N.inj_succ, N.pow_succ_r'. nia.
Qed.

Lemma compare_digits a : forall b acc x y,
  String.length a = String.length b ->
  Reference.digits acc a = Some x -> Reference.digits acc b = Some y ->
  String.compare a b = N.compare x y.
Proof.
  induction a as [|c a IH]; intros [|c' b] acc x y; simpl String.length; try discriminate.
  - intros _. simpl. intros [= <-] [= <-]. symmetry. apply N.compare_refl.
  - intros [= Hlen]. cbn [Reference.digits].
    destruct (Reference.digit c) as [u|] eqn:Eu; [|discriminate].
    destruct (Reference.digit c') as [v|] eqn:Ev; [|discriminate].
    intros Hx Hy. cbn [String.compare]. unfold Ascii.compare.
    destruct (digit_code c u Eu) as [-> Hu], (digit_code c' v Ev) as [-> Hv].
    destruct (N.compare_spec (48 + u) (48 + v)) as [E|E|E].
    + assert (u = v) by lia. subst v. now apply IH with (acc * 10 + u)%N.
    + apply digits_bounds in Hx, Hy. rewrite <- Hlen in Hy.
      symmetry. apply N.compare_lt_iff. nia.
    + apply digits_bounds in Hx, Hy. rewrite <- Hlen in Hy.
      symmetry. apply N.compare_gt_iff. nia.
Qed.

Lemma append_empty_r s : (s ++ "")%string = s.
Proof. induction s as [|c s IH]; simpl; [reflexivity|now rewrite IH]. Qed.

Lemma two_digit_field n :
  (n < 100)%N ->
  String.length (PyStr.zfill 2 (str_of_N n)) = 2
  /\ Reference.digits 0 (PyStr.zfill 2 (str_of_N n)) = Some n.
Proof.
  intros H. destruct (two_digit n H) as (a & b & -> & E). split; [reflexivity|exact E].
Qed.

Lemma four_digit_field n :
  (n < 10000)%N ->
  String.length (PyStr.zfill 4 (str_of_N n)) = 4
  /\ Reference.digits 0 (PyStr.zfill 4 (str_of_N n)) = Some n.
Proof.
  intros H. destruct (four_digit n H) as (a & b & c & d & -> & E).
  split; [reflexivity|exact E].
Qed.

Ltac decide_dates :=
  unfold date_gtb; cbn [date_year date_month date_day date_of];
  repeat match goal with
         | |- context [(?a <? ?b)%N] => destruct (N.ltb_spec a b)
         | |- context [(?a =? ?b)%N] => destruct (N.eqb_spec a b)
         end;
  cbn [orb andb]; try reflexivity; lia.

(** A stored timestamp between the literals of two dates is a moment of
    a day from the first date to the second. *)
Lemma between_within_dates d s e :
  valid_datetime d -> date_fits s -> date_fits e ->
  sql_between (VStr (strftime d)) (date_literal s) (date_literal e) = true ->
  date_gtb s (date_of d) = false /\ date_gtb (date_of d) e = false.
Proof.
  intros (Hy & Hm & Hd & _) (Hsy & Hsm & Hsd) (Hey & Hem & Hed).
  destruct (four_digit_field (year d)) as (Ly & Dy); [lia|].
  destruct (two_digit_field (month d)) as (Lm & Dm); [lia|].
  destruct (two_digit_field (day d)) as (Ld & Dd); [lia|].
  destruct (four_digit_field (date_year s) Hsy) as (Lsy & Dsy).
  destruct (two_digit_field (date_month s) Hsm) as (Lsm & Dsm).
  destruct (two_digit_field (date_day s) Hsd) as (Lsd & Dsd).
  destruct (four_digit_field (date_year e) Hey) as (Ley & Dey).
  destruct (two_digit_field (date_month e) Hem) as (Lem & Dem).
  destruct (two_digit_field (date_day e) Hed) as (Led & Ded).
  unfold sql_between, String.leb, strftime, date_literal.
  generalize dependent (PyStr.zfill 4 (str_of_N (year d))). intros Y Ly Dy.
  generalize dependent (PyStr.zfill 2 (str_of_N (month d))). intros M Lm Dm.
  generalize dependent (PyStr.zfill 2 (str_of_N (day d))). intros D Ld Dd.
  generalize dependent (PyStr.zfill 4 (str_of_N (date_year s))). intros Ys Lsy Dsy.
  generalize dependent (PyStr.zfill 2 (str_of_N (date_month s))). intros Ms Lsm Dsm.
  generalize dependent (PyStr.zfill 2 (str_of_N (date_day s))). intros Ds Lsd Dsd.
  generalize dependent (PyStr.zfill 4 (str_of_N (date_year e))). intros Ye Ley Dey.
  generalize dependent (PyStr.zfill 2 (str_of_N (date_month e))). intros Me Lem Dem.
  generalize dependent (PyStr.zfill 2 (str_of_N (date_day e))). intros De Led Ded.
  generalize (PyStr.zfill 2 (str_of_N (hour d)) ++ ":" ++
              PyStr.zfill 2 (str_of_N (minute d)) ++ ":" ++
              PyStr.zfill 2 (str_of_N (second d)))%string.
  intros rest. cbn [String.append].
  rewrite <- (append_empty_r Ds), <- (append_empty_r De).
  rewrite !compare_app_same_length by congruence.
  cbn [String.compare]. rewrite !compare_app_same_length by congruence.
  cbn [String.compare]. rewrite !compare_app_same_length by congruence.
  rewrite (compare_digits Ys Y 0%N _ _ ltac:(congruence) Dsy Dy).
  rewrite (compare_digits Ms M 0%N _ _ ltac:(congruence) Dsm Dm).
  rewrite (compare_digits Ds D 0%N _ _ ltac:(congruence) Dsd Dd).
  rewrite (compare_digits Y Ye 0%N _ _ ltac:(congruence) Dy Dey).
  rewrite (compare_digits M Me 0%N _ _ ltac:(congruence) Dm Dem).
  rewrite (compare_digits D De 0%N _ _ ltac:(congruence) Dd Ded).
  change (Ascii.compare "-" "-") with Eq. cbn [String.compare].
  intros H. apply andb_true_iff in H as [H1 H2]. split.
  - clear H2.
    destruct (N.compare_spec (date_year s) (year d)),
             (N.compare_spec (date_month s) (month d)),
             (N.compare_spec (date_day s) (day d));
      try discriminate H1; decide_dates.
  - clear H1.
    destruct (N.compare_spec (year d) (date_year e)),
             (N.compare_spec (month d) (date_month e)),
             (N.compare_spec (day d) (date_day e));
      try discriminate H2; decide_dates.
Qed.

(** The groups a query returns, and how many rows stand behind each. *)
Lemma aggregate_counts q lo hi table v n :
  In (v, n) (aggregate q lo hi table) ->
  1 <= n
  /\ n = List.length
           (filter (fun row => where_clause q lo hi row
                               && sqlval_eqb (sql_get (group_column q) row) v)
                   table).
Proof.
  unfold aggregate. intros H. apply apply_limit_In in H.
  apply (proj1 (order_by_count_desc_In _ _)) in H.
  unfold group_count in H. apply in_map_iff in H as (v' & E & H).
  injection E as -> <-. apply distinct_values_incl in H.
  split; [now apply count_value_positive|apply count_value_map_filter].
Qed.

Lemma aggregate_only_in_range q lo hi table :
  aggregate q lo hi table
  = aggregate q lo hi
      (filter (fun row => sql_between (sql_get "timestamp" row) lo hi) table).
Proof.
  unfold aggregate. rewrite filter_filter_implied; [reflexivity|].
  apply where_clause_in_range.
Qed.

Lemma lookup_query_In key q :
  In (key, q) QUERIES -> lookup_query key QUERIES = Some q.
Proof.
  intros H. repeat (destruct H as [E|H]; [injection E as <- <-; reflexivity|]).
  destruct H.
Qed.

(** C9, where the code departs from it.  The queries bound the
    timestamp by [BETWEEN start_date AND end_date], but the timestamps
    are stored with their time of day and compared as text with the bare
    dates: a row of the end date itself, at midnight or later, compares
    above the end and is not counted.  Of three rows of January 2024, two
    of them of the 31st, the query from the 1st to the 31st counts one;
    asked for the 31st alone it counts none.  The empty answer is given
    as an empty frame with no error, as the claim has it. *)
Theorem end_date_rows_are_not_counted :
  In ("processing_tool_usage", processing_tool_usage) QUERIES
  /\ map (sql_get "timestamp") (committed end_day_rows)
     = [ VStr (strftime (mkDatetime 2024 1 15 12 0 0));
         VStr (strftime (mkDatetime 2024 1 31 0 0 0));
         VStr (strftime (mkDatetime 2024 1 31 10 0 0)) ]
  /\ map (fun d => date_gtb (mkDate 2024 1 1) (date_of d)
                   || date_gtb (date_of d) (mkDate 2024 1 31))
       [ mkDatetime 2024 1 15 12 0 0; mkDatetime 2024 1 31 0 0 0;
         mkDatetime 2024 1 31 10 0 0 ]
     = [false; false; false]
  /\ map (where_clause processing_tool_usage
            (date_literal (mkDate 2024 1 1)) (date_literal (mkDate 2024 1 31)))
       (committed end_day_rows)
     = [true; false; false]
  /\ fetch_data processing_tool_usage (mkDate 2024 1 1) (mkDate 2024 1 31)
       (Some end_day_rows)
     = (Some (mkDataFrame ["OCR"; "user_count"] [ [CStr "Tool A"; CNum 1] ]),
        None)
  /\ fetch_data processing_tool_usage (mkDate 2024 1 31) (mkDate 2024 1 31)
       (Some end_day_rows)
     = (Some (mkDataFrame [] []), None)
  /\ show_section (mkDate 2024 1 31) (mkDate 2024 1 31) (Some end_day_rows)
       ("OCR wise volume", "processing_tool_usage")
     = [].
Proof.
  split; [now left|]. repeat (split; [vm_compute; reflexivity|]).
  vm_compute. reflexivity.
Qed.


(* ================================================================== *)
(** ** Further properties: the frame through [enforce_data_types] *)
(* ================================================================== *)

Section EnforceAnyFrame.
Context {pandas : Pandas}.

Lemma setitem_keeps_shape df column values :
  columns (setitem df column values) = columns df
  /\ len (setitem df column values) = len df.
Proof.
  unfold setitem, len. destruct (index_of column (columns df));
    cbn [columns rows]; split; auto using length_set_column.
Qed.

Lemma convert_keeps_shape df column dtype :
  columns (fst (convert df column dtype)) = columns df
  /\ len (fst (convert df column dtype)) = len df.
Proof.
  unfold convert.
  destruct (PyStr.startswith dtype "datetime64");
    [|destruct (String.eqb dtype "float64"); [|destruct (String.eqb dtype "Int64")]];
    (destruct (getitem df column); [|split; reflexivity..]);
    try apply setitem_keeps_shape.
  destruct (to_datetime values) as [l|l]; cbn [fst];
    apply setitem_keeps_shape.
Qed.

Lemma enforce_step_keeps_shape df log item :
  let out := enforce_step (df, log) item in
  columns (fst out) = columns df /\ len (fst out) = len df
  /\ exists more, snd out = log ++ more
                  /\ forallb is_warning more = true.
Proof.
  destruct item as [column dtype]. unfold enforce_step.
  destruct (PyStr.mem column (columns df)).
  - destruct (convert_keeps_shape df column dtype) as [Hc Hl].
    destruct (convert df column dtype) as [df' [e|]]; cbn [fst snd] in *.
    + repeat split; auto. eexists. split; reflexivity.
    + repeat split; auto. exists []. now rewrite app_nil_r.
  - cbn [fst snd]. repeat split; auto. exists []. now rewrite app_nil_r.
Qed.

Lemma enforce_fold_keeps_shape items : forall df log,
  let out := fold_left enforce_step items (df, log) in
  columns (fst out) = columns df /\ len (fst out) = len df
  /\ exists more, snd out = log ++ more
                  /\ forallb is_warning more = true.
Proof.
  induction items as [|item items IH]; intros df log; cbn [fold_left].
  - repeat split; auto. exists []. now rewrite app_nil_r.
  - destruct (enforce_step_keeps_shape df log item) as (Hc & Hl & more & Hm & Hw).
    destruct (enforce_step (df, log) item) as [df1 log1]. cbn [fst snd] in *.
    destruct (IH df1 log1) as (Hc2 & Hl2 & more2 & Hm2 & Hw2).
    cbv zeta. split; [congruence|]. split; [congruence|].
    exists (more ++ more2). split.
    + rewrite Hm2, Hm. now rewrite app_assoc.
    + rewrite forallb_app. now rewrite Hw, Hw2.
Qed.

(** Whatever the frame, [enforce_data_types] keeps its labels and the
    number of its rows, and shows nothing but warnings. *)
Lemma enforce_data_types_keeps_shape df :
  columns (fst (enforce_data_types df)) = columns df
  /\ len (fst (enforce_data_types df)) = len df
  /\ forallb is_warning (snd (enforce_data_types df)) = true.
Proof.
  destruct (enforce_fold_keeps_shape COLUMN_DATA_TYPES df [])
    as (Hc & Hl & more & Hm & Hw).
  split; [exact Hc|]. split; [exact Hl|].
  unfold enforce_data_types. now rewrite Hm.
Qed.

End EnforceAnyFrame.

(* ================================================================== *)
(** ** Further properties: the table is only ever added to *)
(* ================================================================== *)

Lemma batch_step_appends df batch_size conn i :
  exists added,
    committed (batch_step df batch_size conn i) = committed conn ++ added
    /\ table_present (batch_step df batch_size conn i) = table_present conn.
Proof.
  unfold batch_step, commit, executemany. cbn [committed table_present pending].
  eexists. split; reflexivity.
Qed.

Lemma run_batches_appends df batch_size starts : forall conn,
  exists added,
    committed (run_batches df batch_size starts conn) = committed conn ++ added
    /\ table_present (run_batches df batch_size starts conn) = table_present conn.
Proof.
  unfold run_batches. induction starts as [|i starts IH]; intros conn; cbn [fold_left].
  - exists []. now rewrite app_nil_r.
  - destruct (batch_step_appends df batch_size conn i) as (a1 & H1 & T1).
    destruct (IH (batch_step df batch_size conn i)) as (a2 & H2 & T2).
    exists (a1 ++ a2). rewrite H2, H1, T2, T1. now rewrite app_assoc.
Qed.

Section AppendOnly.
Context {pandas : Pandas}.

Lemma insert_unique_data_appends conn df conn' shown :
  insert_unique_data conn df = Ok (conn', shown) ->
  exists added,
    committed conn' = committed conn ++ added
    /\ table_present conn' = table_present conn.
Proof.
  assert (Hsame : exists added, committed conn = committed conn ++ added
                                /\ table_present conn = table_present conn)
    by (exists []; now rewrite app_nil_r).
  unfold insert_unique_data. cbv zeta.
  destruct (negb (PyStr.mem primary_key_col _)); [intros [= <- _]; exact Hsame|].
  destruct (getitem _ primary_key_col) as [keys| |]; try discriminate.
  destruct (select_all conn) as [fetched|e]; try discriminate.
  destruct (getitem _ primary_key_col) as [keys'| |]; try discriminate.
  destruct (empty _); [intros [= <- _]; exact Hsame|].
  unfold insert_data_in_batches. cbn [Nat.eqb default_batch_size].
  intros [= <- _]. apply run_batches_appends.
Qed.

End AppendOnly.

Section PageSafety.
Context {pandas : Pandas}.

Lemma cleaned_header_of_page df :
  columns (fst (enforce_data_types
                  (set_columns (fillna "" df)
                     (clean_column_names (columns (fillna "" df))))))
  = clean_column_names (columns df).
Proof. now destruct (enforce_data_types_keeps_shape
                       (set_columns (fillna "" df)
                          (clean_column_names (columns (fillna "" df))))) as [-> _]. Qed.

Lemma close_keeps conn :
  committed (close conn) = committed conn
  /\ table_present (close conn) = table_present conn
  /\ round_trips (close conn) = round_trips conn.
Proof. repeat split. Qed.

End PageSafety.

(** X1. Whatever is uploaded, the page only ever adds rows to the table:
    the rows committed before are still there afterwards, unchanged and
    in the same order, before the rows added, and the table is neither
    created nor dropped.  Nothing at all is added when the button is not
    pressed, when no file or no readable file was given, or when the
    table is not there. *)
Theorem import_page_only_adds_rows :
  forall (pandas : Pandas) (uploaded_file : option (result DataFrame))
         (button : bool) (conn : connection),
    exists conn' added,
      snd (import_csv_page uploaded_file button (Some conn)) = Some conn'
      /\ committed conn' = committed conn ++ added
      /\ table_present conn' = table_present conn
      /\ (button = false \/ table_present conn = false
          \/ (forall df, uploaded_file <> Some (Ok df)) ->
          added = [] /\ round_trips conn' = round_trips conn).
Proof.
  intros pandas uploaded_file button conn.
  assert (Hsame : forall c,
             committed c = committed conn -> table_present c = table_present conn ->
             round_trips c = round_trips conn ->
             exists conn' added,
               Some c = Some conn'
               /\ committed conn' = committed conn ++ added
               /\ table_present conn' = table_present conn
               /\ (button = false \/ table_present conn = false
                   \/ (forall df, uploaded_file <> Some (Ok df)) ->
                   added = [] /\ round_trips conn' = round_trips conn)).
  { intros c Hc Ht Hr. exists c, []. rewrite app_nil_r. auto. }
  unfold import_csv_page.
  destruct uploaded_file as [[df|e]|]; cbn [snd];
    try (apply Hsame; reflexivity).
  cbv zeta.
  destruct (filter _ REQUIRED_COLUMNS); [|apply Hsame; reflexivity].
  destruct (enforce_data_types _) as [df3 warnings].
  destruct button; [|apply Hsame; reflexivity].
  unfold table_exists.
  destruct (table_present conn) eqn:Ht; [|cbn [snd]; apply Hsame; auto].
  destruct (insert_unique_data conn df3) as [[conn' shown]|e] eqn:E; cbn [snd];
    [|apply Hsame; auto].
  destruct (insert_unique_data_appends conn df3 conn' shown E) as (added & Hc & Ht').
  exists (close conn'), added. split; [reflexivity|]. split; [exact Hc|].
  split; [cbn; congruence|].
  intros [H|[H|H]]; try discriminate. exfalso. now apply (H df).
Qed.

Lemma import_page_only_adds_rows_witness :
  exists conn' added,
    snd (import_csv_page (pandas := Reference.pandas)
           (Some (Ok upload_four)) false (Some table_with_b2)) = Some conn'
    /\ committed conn' = committed table_with_b2 ++ added
    /\ added = [].
Proof.
  destruct (import_page_only_adds_rows Reference.pandas (Some (Ok upload_four))
              false table_with_b2) as (conn' & added & E & Hc & _ & Hnone).
  exists conn', added. split; [exact E|]. split; [exact Hc|].
  exact (proj1 (Hnone (or_introl eq_refl))).
Defined.

Section PageMessages.
Context {pandas : Pandas}.

Lemma insert_unique_data_shown conn df conn' shown :
  In primary_key_col (clean_column_names (columns df)) ->
  insert_unique_data conn df = Ok (conn', shown) ->
  exists m, shown = [m] /\ is_error m = false.
Proof.
  intros Hin. apply mem_In in Hin.
  unfold insert_unique_data. cbv zeta.
  change (columns (set_columns df (clean_column_names (columns df))))
    with (clean_column_names (columns df)).
  rewrite Hin. cbn [negb].
  destruct (getitem _ primary_key_col) as [keys| |]; try discriminate.
  destruct (select_all conn) as [fetched|e]; try discriminate.
  destruct (getitem _ primary_key_col) as [keys'| |]; try discriminate.
  destruct (empty _); [intros [= _ <-]; eexists; split; reflexivity|].
  destruct (insert_data_in_batches _ _ _); try discriminate.
  intros [= _ <-]. eexists. split; reflexivity.
Qed.

End PageMessages.

(** X2. The page never shows ["Missing primary key column: Unique ID"]:
    a header without the key is stopped by the check of the required
    columns before [insert_unique_data] is reached, so that branch of
    [insert_unique_data] cannot be taken from the page. *)
Theorem page_never_reports_missing_key :
  forall (pandas : Pandas) (uploaded_file : option (result DataFrame))
         (button : bool) (db : option connection),
    ~ In (st_error ("Missing primary key column: " ++ primary_key_col))
         (fst (import_csv_page uploaded_file button db)).
Proof.
  intros pandas uploaded_file button db.
  unfold import_csv_page.
  destruct uploaded_file as [[df|e]|]; cbn [fst];
    try (intros [H|[]]; discriminate H).
  cbv zeta.
  set (absent := fun col => negb (PyStr.mem col _)).
  destruct (filter absent REQUIRED_COLUMNS) eqn:Emissing;
    [|cbn [fst]; intros [H|[]]; discriminate H].
  pose proof (cleaned_header_of_page df) as Hcols.
  pose proof (enforce_data_types_keeps_shape
                (set_columns (fillna "" df)
                   (clean_column_names (columns (fillna "" df))))) as (_ & _ & Hw).
  destruct (enforce_data_types _) as [df3 warnings]. cbn [fst snd] in Hcols, Hw.
  assert (Hlog : forall tail,
             ~ In (st_error ("Missing primary key column: " ++ primary_key_col)) tail ->
             ~ In (st_error ("Missing primary key column: " ++ primary_key_col))
                  ((warnings ++
                    [st_write ("Total records: " ++ PyStr.of_nat (len df3));
                     st_success "File loaded successfully!"; st_dataframe df3])
                   ++ tail)).
  { intros tail Ht H. apply in_app_or in H as [H|H]; [|now apply Ht].
    apply in_app_or in H as [H|H].
    - rewrite forallb_forall in Hw. specialize (Hw _ H). discriminate Hw.
    - destruct H as [H|[H|[H|[]]]]; discriminate H. }
  assert (Hplain : ~ In (st_error ("Missing primary key column: " ++ primary_key_col))
                        (warnings ++
                         [st_write ("Total records: " ++ PyStr.of_nat (len df3));
                          st_success "File loaded successfully!"; st_dataframe df3])).
  { intros H. apply (Hlog [] (fun H => H)). now rewrite app_nil_r. }
  destruct button; [|exact Hplain].
  destruct db as [conn|];
    [|cbn [fst]; apply Hlog; intros [H|[]]; discriminate H].
  destruct (table_exists conn TABLE_NAME);
    [|cbn [fst]; apply Hlog; intros [H|[]]; discriminate H].
  destruct (insert_unique_data conn df3) as [[conn' shown]|e] eqn:E; cbn [fst];
    [|apply Hlog; intros [H|[]]; discriminate H].
  apply Hlog.
  assert (Hpk : In primary_key_col (clean_column_names (columns df3))).
  { rewrite Hcols, clean_column_names_idem.
    destruct (in_dec string_dec primary_key_col (clean_column_names (columns df)))
      as [H|H]; [exact H|].
    exfalso. assert (Hin : In primary_key_col (filter absent REQUIRED_COLUMNS)).
    { apply filter_In. split; [apply mem_In; vm_compute; reflexivity|].
      unfold absent. apply negb_true_iff, mem_false. exact H. }
    rewrite Emissing in Hin. destruct Hin. }
  destruct (insert_unique_data_shown conn df3 conn' shown Hpk E) as (m & -> & Hm).
  intros [H|[]]. subst m. discriminate Hm.
Qed.

(* ================================================================== *)
(** ** Further properties: round trips and the count reported *)
(* ================================================================== *)

Lemma ceil_step n bs :
  0 < bs -> 0 < n -> (n - bs + bs - 1) / bs + 1 = (n + bs - 1) / bs.
Proof.
  intros Hbs Hn. destruct (Nat.le_gt_cases bs n) as [H|H].
  - replace (n - bs + bs - 1) with (n - 1) by lia.
    replace (n + bs - 1) with (n - 1 + 1 * bs) by lia.
    rewrite Nat.div_add by lia. reflexivity.
  - replace (n - bs + bs - 1) with (bs - 1) by lia.
    rewrite (Nat.div_small (bs - 1) bs) by lia. change (0 + 1) with 1.
    apply (Nat.div_unique _ _ 1 (n - 1)); lia.
Qed.

(** The sizes of the batches over [range_from]: none empty, none above
    [batch_size], together the rows from [start] on. *)
Lemma batch_sizes_from n bs :
  0 < bs ->
  forall fuel start,
    n <= fuel + start ->
    let sizes := map (fun i => Nat.min bs (n - i)) (range_from fuel start n bs) in
    Forall (fun s => 1 <= s <= bs) sizes
    /\ list_sum sizes = n - start
    /\ List.length sizes = (n - start + bs - 1) / bs.
Proof.
  intros Hbs. induction fuel as [|fuel IH]; intros start Hfuel; cbn [range_from map].
  - cbn. split; [constructor|]. split; [lia|].
    replace (n - start + bs - 1) with (bs - 1) by lia.
    symmetry. apply Nat.div_small. lia.
  - destruct (Nat.ltb_spec start n) as [Hlt|Hge].
    + destruct (IH (start + bs)) as (Hall & Hsum & Hlen); [lia|].
      unfold list_sum in *. cbn [map fold_right List.length].
      split; [constructor; [lia|exact Hall]|].
      split; [rewrite Hsum; lia|].
      rewrite Hlen. replace (n - (start + bs)) with (n - start - bs) by lia.
      rewrite <- (ceil_step (n - start) bs) by lia. lia.
    + cbn. split; [constructor|]. split; [lia|].
      replace (n - start + bs - 1) with (bs - 1) by lia.
      symmetry. apply Nat.div_small. lia.
Qed.

Lemma batches_partition_rows conn df batch_size :
  0 < batch_size ->
  exists conn' sizes,
    insert_data_in_batches conn df batch_size = Ok conn'
    /\ round_trips conn' = round_trips conn ++ sizes
    /\ Forall (fun s => 1 <= s <= batch_size) sizes
    /\ list_sum sizes = len df
    /\ List.length sizes = (len df + batch_size - 1) / batch_size
    /\ (len df = 0 -> conn' = conn).
Proof.
  intros Hbs. unfold insert_data_in_batches.
  destruct (Nat.eqb_spec batch_size 0) as [E|_]; [lia|].
  eexists _, _. split; [reflexivity|].
  split; [apply run_batches_round_trips|].
  destruct (batch_sizes_from (len df) batch_size Hbs (len df) 0) as (H1 & H2 & H3);
    [lia|].
  unfold range. rewrite Nat.sub_0_r in H2, H3.
  split; [exact H1|]. split; [exact H2|]. split; [exact H3|].
  intros ->. reflexivity.
Qed.

(** X3. For a positive [batch_size], [insert_data_in_batches] makes
    [ceil(len(df) / batch_size)] round trips, none of them empty and none
    of more than [batch_size] rows, and their sizes add up to the rows
    of the frame; for a frame without rows it makes none and hands the
    connection back as it was. *)
Theorem round_trips_partition_rows :
  forall (conn : connection) (df : DataFrame) (batch_size : nat),
    0 < batch_size ->
    exists conn' sizes,
      insert_data_in_batches conn df batch_size = Ok conn'
      /\ round_trips conn' = round_trips conn ++ sizes
      /\ Forall (fun s => 1 <= s <= batch_size) sizes
      /\ list_sum sizes = len df
      /\ List.length sizes = (len df + batch_size - 1) / batch_size
      /\ (len df = 0 -> conn' = conn).
Proof. intros conn df batch_size. apply batches_partition_rows. Qed.

Lemma round_trips_partition_rows_witness :
  0 < default_batch_size
  /\ exists conn' sizes,
       insert_data_in_batches empty_table frame_4500 default_batch_size = Ok conn'
       /\ round_trips conn' = round_trips empty_table ++ sizes
       /\ list_sum sizes = len frame_4500.
Proof.
  assert (H : 0 < default_batch_size) by (unfold default_batch_size; lia).
  split; [exact H|].
  destruct (round_trips_partition_rows empty_table frame_4500 default_batch_size H)
    as (conn' & sizes & E & Hr & _ & Hs & _).
  exists conn', sizes. split; [exact E|]. split; [exact Hr|exact Hs].
Defined.

Section Outcomes.
Context {pandas : Pandas}.

(** X4. [insert_unique_data] that returns has done one of three things:
    shown that the key column is missing, or that there is no new
    record, leaving the connection as it was; or committed [n >= 1] rows
    and shown ["n unique records uploaded successfully."] for that very
    [n], in round trips whose sizes add up to [n]. *)
Theorem success_message_counts_rows :
  forall (conn : connection) (df : DataFrame)
         (conn' : connection) (shown : list message),
    pending conn = [] ->
    insert_unique_data conn df = Ok (conn', shown) ->
    (conn' = conn
     /\ shown = [st_error ("Missing primary key column: " ++ primary_key_col)]
     /\ ~ In primary_key_col (clean_column_names (columns df)))
    \/ (conn' = conn
        /\ shown = [st_warning "No new unique records found."])
    \/ (exists n sizes,
          1 <= n
          /\ shown = [st_success (PyStr.of_nat n
                                  ++ " unique records uploaded successfully.")]
          /\ List.length (committed conn') = List.length (committed conn) + n
          /\ pending conn' = []
          /\ round_trips conn' = round_trips conn ++ sizes
          /\ list_sum sizes = n).
Proof.
  intros conn df conn' shown Hp.
  unfold insert_unique_data. cbv zeta.
  change (columns (set_columns df (clean_column_names (columns df))))
    with (clean_column_names (columns df)).
  destruct (PyStr.mem primary_key_col (clean_column_names (columns df))) eqn:Hmem;
    cbn [negb].
  2:{ intros [= <- <-]. left. repeat split. now apply mem_false. }
  destruct (getitem _ primary_key_col) as [keys| |]; try discriminate.
  destruct (select_all conn) as [fetched|e]; try discriminate.
  destruct (getitem _ primary_key_col) as [keys'| |]; try discriminate.
  match goal with
  | |- context [empty ?d] => set (new_records := d)
  end.
  destruct (empty new_records) eqn:Hempty;
    [intros [= <- <-]; right; left; split; reflexivity|].
  assert (Hbs : 0 < default_batch_size) by (unfold default_batch_size; lia).
  destruct (insert_data_in_batches_spec conn new_records default_batch_size Hbs Hp)
    as (c1 & E1 & Hc & Hp1 & _ & _).
  destruct (batches_partition_rows conn new_records default_batch_size Hbs)
    as (c2 & sizes & E2 & Hr & _ & Hs & _).
  rewrite E1 in E2. injection E2 as <-. rewrite E1.
  intros [= <- <-]. right. right. exists (len new_records), sizes.
  split.
  { unfold empty, len in *. destruct (rows new_records); [discriminate|cbn; lia]. }
  split; [reflexivity|]. split.
  { rewrite Hc, length_app, length_map. reflexivity. }
  split; [exact Hp1|]. split; [exact Hr|exact Hs].
Qed.

End Outcomes.

Lemma success_message_counts_rows_witness :
  pending table_with_b2 = []
  /\ exists conn' n,
       insert_unique_data (pandas := Reference.pandas) table_with_b2 upload_four
       = Ok (conn', [st_success (PyStr.of_nat n
                                 ++ " unique records uploaded successfully.")])
       /\ List.length (committed conn') = List.length (committed table_with_b2) + n.
Proof.
  split; [reflexivity|].
  destruct (insert_unique_data (pandas := Reference.pandas) table_with_b2 upload_four)
    as [[conn' shown]|e] eqn:E; [|vm_compute in E; discriminate E].
  destruct (success_message_counts_rows (pandas := Reference.pandas)
              table_with_b2 upload_four conn' shown eq_refl E)
    as [(_ & Hs & _)|[(_ & Hs)|(n & sizes & _ & Hs & Hlen & _)]].
  - exfalso. vm_compute in E. rewrite Hs in E. discriminate E.
  - exfalso. vm_compute in E. rewrite Hs in E. discriminate E.
  - exists conn', n. rewrite Hs. split; [reflexivity|exact Hlen].
Defined.

(* ================================================================== *)
(** ** Further properties: what coercion leaves in a column *)
(* ================================================================== *)

Lemma column_at_fillna fill df j :
  rectangular df -> j < List.length (columns df) ->
  column_at j (fillna fill df)
  = map (fun c => if notna c then c else CStr fill) (column_at j df).
Proof.
  intros Hrect Hj. unfold column_at, fillna. cbn [rows].
  set (f := fun c => if notna c then c else CStr fill).
  rewrite !map_map.
  apply map_ext_in. intros r Hr. unfold rectangular in Hrect.
  rewrite Forall_forall in Hrect. specialize (Hrect r Hr).
  unfold cell_at.
  rewrite (nth_indep (map f r) CNaN (f (CStr fill)))
    by (rewrite length_map; lia).
  rewrite (nth_indep r CNaN (CStr fill)) by lia.
  apply (map_nth f).
Qed.

Lemma rectangular_fillna fill df : rectangular df -> rectangular (fillna fill df).
Proof.
  unfold rectangular. cbn [rows columns fillna]. intros H.
  apply Forall_map. eapply Forall_impl; [|exact H].
  cbn beta. intros r Hr. now rewrite length_map.
Qed.

(** X5. On the frame the page coerces, the one [fillna("")] has been
    through, a column the catalog names (under a label that occurs once,
    and converted without a warning) holds only what its type allows
    after [enforce_data_types]: numbers or [NaN] in a decimal or integer
    column, formatted dates or [NaN] in a timestamp column, and in a
    text column trimmed text; a cell of a text column that was missing in
    the file ends as the empty string. *)
Theorem coerced_column_fits_its_type :
  forall (pandas : Pandas) (df : DataFrame) (column dtype : string) (j : nat),
    rectangular df ->
    In (column, dtype) COLUMN_DATA_TYPES ->
    index_of column (columns df) = Some j ->
    label_count column (columns df) = 1 ->
    conversion_error dtype (column_at j (fillna "" df)) = None ->
    let df' := fst (enforce_data_types (fillna "" df)) in
    Forall (fits_dtype dtype) (column_at j df')
    /\ (dtype = "string" ->
        forall i c,
          nth_error (column_at j df) i = Some c ->
          notna c = false ->
          nth_error (column_at j df') i = Some (CStr "")).
Proof.
  intros pandas df column dtype j Hrect Hin Hj Hc Herr df'. unfold df'.
  rewrite (enforce_data_types_column (fillna "" df) column dtype j
             (rectangular_fillna "" df Hrect) Hin Hj Hc).
  split.
  - unfold conversion_error in Herr. unfold converted, fits_dtype, dt_strftime.
    destruct (PyStr.startswith dtype "datetime64").
    { destruct (to_datetime (column_at j (fillna "" df))) as [values|values];
        try discriminate Herr.
      apply Forall_map, Forall_forall. intros [d|] _; [right; eauto|now left]. }
    destruct (String.eqb dtype "float64"); cbn [orb].
    { apply Forall_map, Forall_forall. intros c _. unfold to_numeric_cell.
      destruct c as [s|q| | |d o|]; [destruct (to_numeric_str s)|..]; eauto. }
    destruct (String.eqb dtype "Int64").
    { apply Forall_map, Forall_forall. intros c _. unfold to_numeric_cell.
      destruct c as [s|q| | |d o|]; [destruct (to_numeric_str s)|..]; eauto. }
    apply Forall_map, Forall_forall. intros c _. eexists. split; [reflexivity|].
    apply stripped_strip.
  - intros -> i c Hi Hna.
    change (converted "string" (column_at j (fillna "" df)))
      with (map (fun c => CStr (PyStr.strip (astype_str c)))
                (column_at j (fillna "" df))).
    rewrite column_at_fillna by (auto; now apply index_of_lt with column).
    rewrite !nth_error_map, Hi. cbn [option_map]. now rewrite Hna.
Qed.

Lemma coerced_column_fits_its_type_witness :
  rectangular gaps_frame
  /\ In ("Payer", "string") COLUMN_DATA_TYPES
  /\ index_of "Payer" (columns gaps_frame) = Some 0
  /\ label_count "Payer" (columns gaps_frame) = 1
  /\ Forall (fits_dtype "string")
       (column_at 0 (fst (enforce_data_types (pandas := Reference.pandas)
                            (fillna "" gaps_frame)))).
Proof.
  assert (H : rectangular gaps_frame) by (repeat constructor).
  assert (Hin : In ("Payer", "string") COLUMN_DATA_TYPES)
    by (do 8 right; left; reflexivity).
  split; [exact H|]. split; [exact Hin|]. split; [reflexivity|]. split; [reflexivity|].
  exact (proj1 (coerced_column_fits_its_type Reference.pandas gaps_frame
                  "Payer" "string" 0 H Hin eq_refl eq_refl eq_refl)).
Defined.

(* ================================================================== *)
(** ** Further properties: columns left alone, and the warnings *)
(* ================================================================== *)

Lemma label_count_positive name labels :
  In name labels -> 1 <= label_count name labels.
Proof.
  induction labels as [|l ls IH]; simpl; [contradiction|].
  destruct (String.eqb_spec name l) as [->|Hne]; [lia|].
  intros [->|H]; [congruence|]. specialize (IH H). lia.
Qed.

Section LeftAlone.
Context {pandas : Pandas}.

(** The body of the [try] touches the one column it names, and only if
    no other column has its label. *)
Lemma convert_other df column dtype name j :
  nth_error (columns df) j = Some name ->
  name <> column \/ label_count name (columns df) <> 1 ->
  column_at j (fst (convert df column dtype)) = column_at j df.
Proof.
  intros Hn Hwhy.
  assert (Hset : forall values,
             getitem df column <> SubFrame ->
             getitem df column <> NoSuchLabel ->
             column_at j (setitem df column values) = column_at j df).
  { intros values H1 H2. unfold getitem, setitem in *.
    destruct (index_of column (columns df)) as [jc|] eqn:Hjc; [|reflexivity].
    destruct (Nat.eqb_spec (label_count column (columns df)) 1) as [Hc|Hc];
      [|congruence].
    unfold column_at. cbn [rows]. apply set_column_other.
    intros ->. apply index_of_nth in Hjc.
    assert (name = column) by congruence. subst. destruct Hwhy; congruence. }
  unfold convert.
  destruct (PyStr.startswith dtype "datetime64");
    [|destruct (String.eqb dtype "float64"); [|destruct (String.eqb dtype "Int64")]];
    (destruct (getitem df column) as [s| |] eqn:Eg; [|reflexivity..]);
    try (apply Hset; congruence).
  destruct (to_datetime s) as [l|l]; cbn [fst]; apply Hset; congruence.
Qed.

Lemma enforce_step_other df log column dtype name j :
  nth_error (columns df) j = Some name ->
  name <> column \/ label_count name (columns df) <> 1 ->
  column_at j (fst (enforce_step (df, log) (column, dtype))) = column_at j df.
Proof.
  intros Hn Hwhy. unfold enforce_step.
  destruct (PyStr.mem column (columns df)); [|reflexivity].
  pose proof (convert_other df column dtype name j Hn Hwhy) as H.
  destruct (convert df column dtype) as [df' [e|]]; exact H.
Qed.

Lemma enforce_fold_other items : forall df log name j,
  nth_error (columns df) j = Some name ->
  ~ In name (map fst items) \/ label_count name (columns df) <> 1 ->
  column_at j (fst (fold_left enforce_step items (df, log))) = column_at j df.
Proof.
  induction items as [|[column dtype] items IH]; intros df log name j Hn Hwhy;
    cbn [fold_left]; [reflexivity|].
  pose proof (enforce_step_other df log column dtype name j Hn) as Hcol.
  destruct (enforce_step_keeps_shape df log (column, dtype)) as (Hc & _).
  destruct (enforce_step (df, log) (column, dtype)) as [df1 log1].
  cbn [fst snd map] in *.
  rewrite (IH df1 log1 name j).
  - apply Hcol.
    destruct Hwhy as [H|H]; [left; intros ->; apply H; now left|now right].
  - now rewrite Hc.
  - rewrite Hc.
    destruct Hwhy as [H|H]; [left; intros H'; apply H; now right|now right].
Qed.

(** One turn of the loop: the warning it adds. *)
Lemma enforce_step_warning df log column dtype :
  let out := enforce_step (df, log) (column, dtype) in
  if unconverted df (column, dtype)
  then exists text,
         snd out = log ++ [st_warning ("Could not convert column " ++ column
                                       ++ " to " ++ dtype ++ ": " ++ text)]
  else snd out = log.
Proof.
  unfold enforce_step, unconverted, repeated. cbn [fst snd].
  destruct (PyStr.mem column (columns df)) eqn:Hmem.
  - apply mem_In in Hmem. destruct (index_of_In _ _ Hmem) as [jc Hjc].
    rewrite Hjc.
    destruct (Nat.eq_dec (label_count column (columns df)) 1) as [Hc|Hc].
    + rewrite (convert_once df column dtype jc Hjc Hc), Hc.
      cbn [Nat.leb orb].
      destruct (conversion_error dtype (column_at jc df)) as [e|];
        cbn [snd]; [eauto|reflexivity].
    + destruct (convert_repeated df column dtype jc Hjc Hc) as [e ->].
      pose proof (label_count_positive _ _ Hmem) as Hpos.
      destruct (Nat.leb_spec 2 (label_count column (columns df))); [|lia].
      cbn [orb snd]. eauto.
  - apply mem_false in Hmem. rewrite (label_count_absent _ _ Hmem).
    cbn [Nat.leb orb snd].
    destruct (index_of column (columns df)) as [j|] eqn:Hj; [|reflexivity].
    exfalso. apply Hmem. apply index_of_nth in Hj.
    now apply nth_error_In in Hj.
Qed.

(** The entries still to come find their columns as the frame had them
    at first: the turns before them have rewritten other columns. *)
Lemma unconverted_ext df0 df item :
  columns df = columns df0 ->
  (forall j, index_of (fst item) (columns df0) = Some j ->
             label_count (fst item) (columns df0) = 1 ->
             column_at j df = column_at j df0) ->
  unconverted df item = unconverted df0 item.
Proof.
  intros Hc Hcol. unfold unconverted, repeated. rewrite Hc.
  destruct (Nat.leb_spec 2 (label_count (fst item) (columns df0))) as [H|H];
    [reflexivity|].
  cbn [orb].
  destruct (index_of (fst item) (columns df0)) as [j|] eqn:Hj; [|reflexivity].
  rewrite (Hcol j eq_refl); [reflexivity|].
  pose proof (label_count_positive (fst item) (columns df0)) as Hpos.
  apply index_of_nth in Hj. apply nth_error_In in Hj. specialize (Hpos Hj). lia.
Qed.

Lemma enforce_fold_warnings items :
  NoDup (map fst items) ->
  forall df0 df log,
    rectangular df ->
    columns df = columns df0 ->
    (forall name j,
        In name (map fst items) ->
        index_of name (columns df0) = Some j ->
        label_count name (columns df0) = 1 ->
        column_at j df = column_at j df0) ->
    exists ws,
      snd (fold_left enforce_step items (df, log)) = log ++ ws
      /\ Forall2 (fun m item =>
                    exists text,
                      m = st_warning ("Could not convert column " ++ fst item
                                      ++ " to " ++ snd item ++ ": " ++ text))
                 ws (filter (unconverted df0) items).
Proof.
  induction items as [|[column dtype] items IH];
    intros Hnd df0 df log Hrect Hcols Hsame; cbn [fold_left].
  - exists []. split; [now rewrite app_nil_r|constructor].
  - cbn [map] in Hnd. apply NoDup_cons_iff in Hnd as [Hnotin Hnd].
    pose proof (enforce_step_warning df log column dtype) as Hw.
    rewrite (unconverted_ext df0 df (column, dtype) Hcols) in Hw
      by (intros j Hj Hc; apply (Hsame column j); [now left|exact Hj|exact Hc]).
    destruct (enforce_step_spec df log column dtype Hrect)
      as (Hc1 & Hr1 & _ & Hcol1).
    destruct (enforce_step (df, log) (column, dtype)) as [df1 log1].
    cbn [fst snd] in *.
    destruct (IH Hnd df0 df1 log1 Hr1) as (ws & Hws & Hall).
    + congruence.
    + intros name j Hin Hj Hc. rewrite (Hcol1 name j) by (rewrite Hcols; assumption).
      destruct (String.eqb_spec name column) as [->|Hne]; [contradiction|].
      apply (Hsame name j); [now right|exact Hj|exact Hc].
    + cbn [filter]. destruct (unconverted df0 (column, dtype)).
      * destruct Hw as [text ->]. eexists (_ :: ws). split.
        { rewrite Hws, <- app_assoc. reflexivity. }
        constructor; [exists text; reflexivity|exact Hall].
      * subst log1. exists ws. split; [exact Hws|exact Hall].
Qed.

End LeftAlone.

(** X6. [enforce_data_types] shows one warning for every entry of the
    catalog whose conversion ends in an exception, in the order of the
    catalog, and no other message: the entries whose label stands over
    more than one column of the header, and the timestamp entries whose
    column [pd.to_datetime] does not return as dates.  It shows none at
    all when no label is repeated and every timestamp column comes back
    as dates.  It leaves as they were the columns under a repeated label
    and the columns whose label the catalog does not name. *)
Theorem warnings_and_columns_left_alone :
  forall (pandas : Pandas) (df : DataFrame),
    rectangular df ->
    Forall2 (fun m item =>
               exists text,
                 m = st_warning ("Could not convert column " ++ fst item
                                 ++ " to " ++ snd item ++ ": " ++ text))
            (snd (enforce_data_types df))
            (filter (unconverted df) COLUMN_DATA_TYPES)
    /\ (NoDup (columns df) ->
        (forall column j,
            In (column, "datetime64") COLUMN_DATA_TYPES ->
            index_of column (columns df) = Some j ->
            exists values,
              to_datetime (column_at j df) = DatetimeSeries values) ->
        snd (enforce_data_types df) = [])
    /\ forall name j,
         nth_error (columns df) j = Some name ->
         ~ In name (map fst COLUMN_DATA_TYPES)
         \/ label_count name (columns df) <> 1 ->
         column_at j (fst (enforce_data_types df)) = column_at j df.
Proof.
  intros pandas df Hrect.
  destruct (enforce_fold_warnings COLUMN_DATA_TYPES COLUMN_DATA_TYPES_keys
              df df [] Hrect eq_refl (fun _ _ _ _ _ => eq_refl))
    as (ws & Hws & Hall).
  unfold enforce_data_types. rewrite Hws. cbn [app].
  split; [exact Hall|]. split; [|apply enforce_fold_other].
  intros Hnd Hdates.
  assert (Hnone : filter (unconverted df) COLUMN_DATA_TYPES = []).
  { apply filter_none. intros [name dtype] Hin. unfold unconverted, repeated.
    cbn [fst snd].
    assert (Hcount : label_count name (columns df) <= 1).
    { destruct (in_dec string_dec name (columns df)) as [H|H].
      - rewrite (label_count_NoDup _ _ Hnd H). lia.
      - rewrite (label_count_absent _ _ H). lia. }
    destruct (Nat.leb_spec 2 (label_count name (columns df))); [lia|].
    cbn [orb].
    destruct (index_of name (columns df)) as [j|] eqn:Hj; [|reflexivity].
    unfold conversion_error.
    destruct (PyStr.startswith dtype "datetime64") eqn:Ed; [|reflexivity].
    assert (dtype = "datetime64").
    { revert Ed. clear -Hin.
      repeat (destruct Hin as [E|Hin];
              [injection E as <- <-; first [reflexivity|discriminate]|]).
      destruct Hin. }
    subst dtype. destruct (Hdates name j Hin Hj) as [values ->]. reflexivity. }
  rewrite Hnone in Hall. now inversion Hall.
Qed.

Lemma warnings_and_columns_left_alone_witness :
  rectangular offsets_frame
  /\ Forall2 (fun m item =>
                exists text,
                  m = st_warning ("Could not convert column " ++ fst item
                                  ++ " to " ++ snd item ++ ": " ++ text))
             (snd (enforce_data_types (pandas := Reference.pandas) offsets_frame))
             [("Timestamp", "datetime64")].
Proof.
  assert (H : rectangular offsets_frame) by (repeat constructor).
  split; [exact H|].
  exact (proj1 (warnings_and_columns_left_alone Reference.pandas offsets_frame H)).
Defined.

(* ================================================================== *)
(** ** Further properties: header cleaning *)
(* ================================================================== *)

(** X7. Cleaning a header twice is cleaning it once, so the second
    cleaning, the one inside [insert_unique_data], changes nothing after
    the page's; a name with nothing to strip and no non-breaking space
    is left as it is, and so is every required column name: a header
    that spells the required columns exactly has none missing. *)
Theorem clean_column_names_settles :
  forall names : list string,
    clean_column_names (clean_column_names names) = clean_column_names names
    /\ (Forall (fun s => stripped s = true /\ PyStr.contains nbsp s = false) names ->
        clean_column_names names = names)
    /\ clean_column_names REQUIRED_COLUMNS = REQUIRED_COLUMNS
    /\ (incl REQUIRED_COLUMNS names ->
        filter (fun col => negb (PyStr.mem col (clean_column_names names)))
               REQUIRED_COLUMNS = []).
Proof.
  intros names. split; [apply clean_column_names_idem|].
  assert (Hfix : forall s, stripped s = true -> PyStr.contains nbsp s = false ->
                           PyStr.replace nbsp space (PyStr.strip s) = s).
  { intros s Hs Hn. rewrite (stripped_fixed s Hs). now apply replace_without_nbsp. }
  split.
  { intros H. unfold clean_column_names. rewrite <- (map_id names) at 2.
    apply map_ext_in. intros s Hs. rewrite Forall_forall in H.
    destruct (H s Hs). now apply Hfix. }
  split; [vm_compute; reflexivity|].
  intros Hincl. apply filter_none. intros col Hcol.
  apply negb_false_iff, mem_In.
  assert (Hself : PyStr.replace nbsp space (PyStr.strip col) = col).
  { assert (Hreq : In col (clean_column_names REQUIRED_COLUMNS))
      by (replace (clean_column_names REQUIRED_COLUMNS) with REQUIRED_COLUMNS
            by (vm_compute; reflexivity); exact Hcol).
    unfold clean_column_names in Hreq. apply in_map_iff in Hreq as (c & Hc & _).
    rewrite <- Hc at 2. rewrite <- Hc.
    rewrite stripped_fixed by (rewrite stripped_replace; apply stripped_strip).
    apply replace_idem. }
  unfold clean_column_names. apply in_map_iff. exists col.
  split; [exact Hself|now apply Hincl].
Qed.

Lemma clean_column_names_settles_witness :
  incl REQUIRED_COLUMNS (REQUIRED_COLUMNS ++ ["Remarks"])
  /\ filter (fun col => negb (PyStr.mem col
                                (clean_column_names (REQUIRED_COLUMNS ++ ["Remarks"]))))
            REQUIRED_COLUMNS = [].
Proof.
  assert (H : incl REQUIRED_COLUMNS (REQUIRED_COLUMNS ++ ["Remarks"]))
    by (apply incl_appl, incl_refl).
  split; [exact H|].
  exact (proj2 (proj2 (proj2 (clean_column_names_settles
                                (REQUIRED_COLUMNS ++ ["Remarks"])))) H).
Defined.

(* ================================================================== *)
(** ** Further properties: the answer of a query *)
(* ================================================================== *)

Lemma sqlval_eqb_sym a b : sqlval_eqb a b = sqlval_eqb b a.
Proof.
  destruct a as [|s|p| |d o], b as [|t|q| |d' o']; simpl; try reflexivity.
  - apply String.eqb_sym.
  - destruct (Qeq_bool p q) eqn:E1, (Qeq_bool q p) eqn:E2; try reflexivity.
    + apply Qeq_bool_iff in E1. symmetry in E1. apply Qeq_bool_iff in E1. congruence.
    + apply Qeq_bool_iff in E2. symmetry in E2. apply Qeq_bool_iff in E2. congruence.
  - destruct (datetime_eqb d d' && (o =? o')%Z) eqn:E1,
             (datetime_eqb d' d && (o' =? o)%Z) eqn:E2; try reflexivity.
    + apply timestamp_eqb_eq in E1 as [-> ->].
      rewrite (proj2 (timestamp_eqb_eq d' o' d' o') (conj eq_refl eq_refl)) in E2.
      discriminate E2.
    + apply timestamp_eqb_eq in E2 as [-> ->].
      rewrite (proj2 (timestamp_eqb_eq d o d o) (conj eq_refl eq_refl)) in E1.
      discriminate E1.
Qed.

Lemma sqlval_eqb_trans a b c :
  sqlval_eqb a b = true -> sqlval_eqb b c = true -> sqlval_eqb a c = true.
Proof.
  destruct a as [|s|p| |d1 o1], b as [|t|q| |d2 o2], c as [|u|r| |d3 o3];
    simpl; try discriminate; auto.
  - intros H1 H2. apply String.eqb_eq in H1, H2. subst. apply String.eqb_refl.
  - intros H1 H2. apply Qeq_bool_iff in H1, H2. apply Qeq_bool_iff.
    now rewrite H1.
  - intros H1 H2. apply timestamp_eqb_eq in H1 as [-> ->]. exact H2.
Qed.

(** A value [distinct_values] keeps is like none of those seen. *)
Lemma distinct_values_unseen seen values v :
  In v (distinct_values seen values) -> existsb (sqlval_eqb v) seen = false.
Proof.
  revert seen. induction values as [|x values IH]; intros seen; simpl; [contradiction|].
  destruct (existsb (sqlval_eqb x) seen) eqn:E.
  - apply IH.
  - intros [<-|H]; [exact E|].
    specialize (IH _ H). simpl in IH. now apply orb_false_iff in IH as [_ IH].
Qed.

Lemma distinct_values_apart seen values :
  forall v w,
    In v (distinct_values seen values) -> In w (distinct_values seen values) ->
    sqlval_eqb v w = true -> v = w.
Proof.
  revert seen. induction values as [|x values IH]; intros seen v w; simpl; [contradiction|].
  destruct (existsb (sqlval_eqb x) seen); [apply IH|].
  intros [<-|Hv] [<-|Hw] E; auto.
  - apply distinct_values_unseen in Hw. simpl in Hw.
    apply orb_false_iff in Hw as [Hw _]. rewrite sqlval_eqb_sym in Hw. congruence.
  - apply distinct_values_unseen in Hv. simpl in Hv.
    apply orb_false_iff in Hv as [Hv _]. congruence.
  - now apply (IH (x :: seen)).
Qed.

Lemma distinct_values_NoDup seen values : NoDup (distinct_values seen values).
Proof.
  revert seen. induction values as [|x values IH]; intros seen; simpl; [constructor|].
  destruct (existsb (sqlval_eqb x) seen); [apply IH|].
  constructor; [|apply IH]. intros H. apply distinct_values_unseen in H.
  simpl in H. rewrite sqlval_eqb_refl in H. discriminate.
Qed.

Lemma insert_desc_perm g sorted : Permutation (insert_desc g sorted) (g :: sorted).
Proof.
  induction sorted as [|h t IH]; simpl; [reflexivity|].
  destruct (snd h <? snd g); [reflexivity|].
  rewrite IH. apply perm_swap.
Qed.

Lemma order_by_count_desc_perm groups :
  Permutation (order_by_count_desc groups) groups.
Proof.
  unfold order_by_count_desc. induction groups as [|g groups IH]; simpl; [reflexivity|].
  rewrite insert_desc_perm. now constructor.
Qed.

Lemma insert_desc_sorted g sorted :
  StronglySorted ranks_before sorted ->
  StronglySorted ranks_before (insert_desc g sorted).
Proof.
  induction 1 as [|h t Hs IH Hall]; simpl.
  - repeat constructor.
  - destruct (Nat.ltb_spec (snd h) (snd g)) as [Hlt|Hge].
    + constructor; [now constructor|]. constructor; [unfold ranks_before; lia|].
      eapply Forall_impl; [|exact Hall]. unfold ranks_before. intros x Hx. lia.
    + constructor; [exact IH|]. apply Forall_forall. intros x Hx.
      apply insert_desc_In in Hx as [->|Hx]; [exact Hge|].
      rewrite Forall_forall in Hall. now apply Hall.
Qed.

Lemma order_by_count_desc_sorted groups :
  StronglySorted ranks_before (order_by_count_desc groups).
Proof.
  unfold order_by_count_desc. induction groups as [|g groups IH]; simpl;
    [constructor|now apply insert_desc_sorted].
Qed.

Lemma sorted_split {A} (R : A -> A -> Prop) l1 l2 :
  StronglySorted R (l1 ++ l2) ->
  StronglySorted R l1 /\ forall a b, In a l1 -> In b l2 -> R a b.
Proof.
  induction l1 as [|x l1 IH]; simpl; intros H.
  - split; [constructor|contradiction].
  - inversion H as [|? ? Hs Hall]; subst. destruct (IH Hs) as [H1 H2].
    split.
    + constructor; [exact H1|]. apply Forall_forall. intros y Hy.
      rewrite Forall_forall in Hall. apply Hall, in_or_app. now left.
    + intros a b [<-|Ha] Hb; [|now apply H2].
      rewrite Forall_forall in Hall. apply Hall, in_or_app. now right.
Qed.

(** The groups of a query: what the server returns and what [LIMIT]
    cuts off. *)
Lemma aggregate_ranking q lo hi table :
  let values := map (sql_get (group_column q)) (filter (where_clause q lo hi) table) in
  exists cut,
    Permutation (aggregate q lo hi table ++ cut) (group_count values)
    /\ StronglySorted ranks_before (aggregate q lo hi table)
    /\ (forall g h, In g cut -> In h (aggregate q lo hi table) -> snd g <= snd h)
    /\ (limit q = None -> cut = []).
Proof.
  intros values. unfold aggregate. fold values.
  pose proof (order_by_count_desc_sorted (group_count values)) as Hs.
  pose proof (order_by_count_desc_perm (group_count values)) as Hp.
  destruct (limit q) as [k|]; cbn [apply_limit].
  - exists (skipn k (order_by_count_desc (group_count values))).
    rewrite firstn_skipn. split; [exact Hp|].
    rewrite <- (firstn_skipn k (order_by_count_desc (group_count values))) in Hs.
    destruct (sorted_split _ _ _ Hs) as [H1 H2].
    split; [exact H1|]. split; [|discriminate].
    intros g h Hg Hh. apply (H2 h g Hh Hg).
  - exists []. rewrite app_nil_r. repeat split; auto. contradiction.
Qed.

(** X8. The answer of a query is ranked and cut as its SQL says: the
    groups come by falling count, there are no more of them than the
    [LIMIT], and a group the [LIMIT] cuts off has no higher count than
    any group returned; no group is [NULL], and no two groups returned
    hold the same value.  With the table there, [fetch_data] gives these
    groups, in this order, as the rows of its frame, the value first and
    the count second. *)
Theorem query_answer_is_ranked_and_limited :
  forall (q : select_query) (start_date end_date : date) (conn : connection),
    table_present conn = true ->
    let lo := date_literal start_date in
    let hi := date_literal end_date in
    let table := committed conn ++ pending conn in
    let answer := aggregate q lo hi table in
    StronglySorted ranks_before answer
    /\ (forall k, limit q = Some k -> List.length answer <= k)
    /\ (exists cut,
          Permutation (answer ++ cut)
            (group_count (map (sql_get (group_column q))
                              (filter (where_clause q lo hi) table)))
          /\ (forall g h, In g cut -> In h answer -> snd g <= snd h)
          /\ (limit q = None -> cut = []))
    /\ (forall g, In g answer -> is_null (fst g) = false)
    /\ NoDup answer
    /\ (forall g h, In g answer -> In h answer ->
                    sqlval_eqb (fst g) (fst h) = true -> g = h)
    /\ exists df,
         fetch_data q start_date end_date (Some conn) = (Some df, None)
         /\ rows df = map answer_row answer
         /\ (answer <> [] -> columns df = [group_alias q; count_alias q]).
Proof.
  intros q start_date end_date conn Htable lo hi table answer.
  destruct (aggregate_ranking q lo hi table) as (cut & Hperm & Hsorted & Htop & Hnone).
  fold answer in Hperm, Hsorted, Htop.
  set (values := map (sql_get (group_column q)) (filter (where_clause q lo hi) table))
    in *.
  assert (Hin : forall g, In g answer ->
                 In (fst g) (distinct_values [] values)
                 /\ g = (fst g, count_value (fst g) values)).
  { intros g Hg.
    assert (Hg' : In g (group_count values)).
    { apply (Permutation_in _ Hperm), in_or_app. now left. }
    unfold group_count in Hg'. apply in_map_iff in Hg' as (v & <- & Hv).
    split; [exact Hv|reflexivity]. }
  split; [exact Hsorted|]. split.
  { intros k Hk. unfold answer, aggregate. rewrite Hk. apply firstn_le_length. }
  split; [exists cut; auto|]. split.
  { intros g Hg. destruct (Hin g Hg) as [Hv _].
    apply distinct_values_incl in Hv. unfold values in Hv.
    apply in_map_iff in Hv as (row & <- & Hrow). apply filter_In in Hrow as [_ Hw].
    unfold where_clause in Hw. apply andb_true_iff in Hw as [Hw _].
    now apply negb_true_iff in Hw. }
  split.
  { assert (Hnd : NoDup (group_count values)).
    { unfold group_count. apply Finite.Injective_map_NoDup.
      - intros a b E. now injection E.
      - apply distinct_values_NoDup. }
    apply (Permutation_NoDup (Permutation_sym Hperm)) in Hnd.
    now apply NoDup_app_remove_r in Hnd. }
  split.
  { intros g h Hg Hh E. destruct (Hin g Hg) as [Hv ->], (Hin h Hh) as [Hw ->].
    cbn [fst] in E. now rewrite (distinct_values_apart [] values _ _ Hv Hw E). }
  unfold fetch_data, execute_query, select_all. rewrite Htable.
  fold table. fold lo. fold hi. fold answer.
  eexists. split; [reflexivity|]. split.
  { unfold DataFrame_of_records. cbn [rows]. rewrite map_map. reflexivity. }
  intros Hne. unfold DataFrame_of_records. cbn [columns].
  destruct answer; [congruence|reflexivity].
Qed.

Lemma query_answer_is_ranked_and_limited_witness :
  table_present five_rows = true
  /\ StronglySorted ranks_before
       (aggregate processing_tool_usage (date_literal (mkDate 2024 1 1))
          (date_literal (mkDate 2024 1 31))
          (committed five_rows ++ pending five_rows)).
Proof.
  split; [reflexivity|].
  exact (proj1 (query_answer_is_ranked_and_limited processing_tool_usage
                  (mkDate 2024 1 1) (mkDate 2024 1 31) five_rows eq_refl)).
Defined.

Lemma count_value_cons x v values :
  count_value v (x :: values)
  = (if sqlval_eqb x v then 1 else 0) + count_value v values.
Proof. unfold count_value. simpl. now destruct (sqlval_eqb x v). Qed.

Lemma sum_counts_ext (f g : sqlval -> nat) l :
  (forall v, In v l -> f v = g v) -> list_sum (map f l) = list_sum (map g l).
Proof.
  intros H. induction l as [|v l IH]; simpl; [reflexivity|].
  rewrite (H v (or_introl eq_refl)), IH; [reflexivity|].
  intros w Hw. apply H. now right.
Qed.

(** The counts of the groups add up to the values that are like none of
    those seen. *)
Lemma sum_of_counts seen values :
  list_sum (map (fun v => count_value v values) (distinct_values seen values))
  = List.length (filter (fun x => negb (existsb (sqlval_eqb x) seen)) values).
Proof.
  revert seen. induction values as [|x values IH]; intros seen; [reflexivity|].
  cbn [distinct_values filter].
  destruct (existsb (sqlval_eqb x) seen) eqn:Ex; cbn [negb].
  - rewrite <- IH. apply sum_counts_ext. intros v Hv.
    rewrite count_value_cons.
    destruct (sqlval_eqb x v) eqn:E; [|reflexivity].
    exfalso. apply distinct_values_unseen in Hv.
    apply existsb_exists in Ex as (s & Hs & Exs).
    assert (Hvs : sqlval_eqb v s = true).
    { apply sqlval_eqb_trans with x; [now rewrite sqlval_eqb_sym|exact Exs]. }
    assert (Hex : existsb (sqlval_eqb v) seen = true)
      by (apply existsb_exists; eauto).
    congruence.
  - cbn [map list_sum List.length]. unfold list_sum. cbn [fold_right].
    fold (list_sum (map (fun v => count_value v (x :: values))
                        (distinct_values (x :: seen) values))).
    rewrite (sum_counts_ext _ (fun v => count_value v values)).
    + rewrite IH, count_value_cons, sqlval_eqb_refl. unfold count_value.
      cbn [existsb].
      assert (H : forall l,
                 List.length (filter (fun y => sqlval_eqb y x) l)
                 + List.length
                     (filter (fun y => negb (sqlval_eqb y x
                                             || existsb (sqlval_eqb y) seen)) l)
                 = List.length
                     (filter (fun y => negb (existsb (sqlval_eqb y) seen)) l)
                 \/ exists y, In y l /\ sqlval_eqb y x = true
                              /\ existsb (sqlval_eqb y) seen = true).
      { induction l as [|y l IHl]; [now left|].
        destruct IHl as [IHl|(z & Hz & Hzx & Hzs)];
          [|right; exists z; split; [now right|split; assumption]].
        cbn [filter].
        destruct (sqlval_eqb y x) eqn:Eyx, (existsb (sqlval_eqb y) seen) eqn:Eys;
          cbn [orb negb List.length].
        - right. exists y. split; [now left|split; assumption].
        - left. lia.
        - left. lia.
        - left. lia. }
      destruct (H values) as [Hsum|(y & _ & Hyx & Hys)]; [lia|].
      exfalso. apply existsb_exists in Hys as (s & Hs & Eys).
      assert (Hxs : sqlval_eqb x s = true).
      { apply sqlval_eqb_trans with y; [now rewrite sqlval_eqb_sym|exact Eys]. }
      assert (Hex : existsb (sqlval_eqb x) seen = true)
        by (apply existsb_exists; eauto).
      congruence.
    + intros v Hv. rewrite count_value_cons.
      apply distinct_values_unseen in Hv. cbn [existsb] in Hv.
      apply orb_false_iff in Hv as [Hv _]. rewrite sqlval_eqb_sym in Hv.
      now rewrite Hv.
Qed.

Lemma list_sum_perm l l' : Permutation l l' -> list_sum l = list_sum l'.
Proof.
  induction 1; unfold list_sum in *; simpl; lia.
Qed.

(** X9. In the answer of a query without [LIMIT] the counts add up to
    the rows of the table that pass its [WHERE] clause: every such row
    is counted in one group and one only.  With a [LIMIT] they add up to
    no more than that. *)
Theorem counts_add_up_to_matching_rows :
  forall (q : select_query) (lo hi : string) (table : list sqlrow),
    let matching := filter (where_clause q lo hi) table in
    list_sum (map snd (aggregate q lo hi table)) <= List.length matching
    /\ (limit q = None ->
        list_sum (map snd (aggregate q lo hi table)) = List.length matching).
Proof.
  intros q lo hi table matching.
  destruct (aggregate_ranking q lo hi table) as (cut & Hperm & _ & _ & Hnone).
  fold matching in Hperm.
  set (values := map (sql_get (group_column q)) matching) in *.
  assert (Htotal : list_sum (map snd (group_count values)) = List.length matching).
  { unfold group_count. rewrite map_map. cbn [snd].
    rewrite (sum_of_counts [] values).
    assert (H : forall l : list sqlval,
               filter (fun x => negb (existsb (sqlval_eqb x) [])) l = l)
      by (induction l as [|a l IHl];
          [reflexivity
          |change (a :: filter (fun x => negb (existsb (sqlval_eqb x) [])) l = a :: l);
           now f_equal]).
    rewrite H. unfold values. apply length_map. }
  apply (Permutation_map snd) in Hperm. apply list_sum_perm in Hperm.
  rewrite map_app, list_sum_app, Htotal in Hperm.
  split; [lia|]. intros Hl. rewrite (Hnone Hl) in Hperm.
  cbn in Hperm. lia.
Qed.

Lemma counts_add_up_to_matching_rows_witness :
  limit processing_tool_usage = None
  /\ list_sum (map snd (aggregate processing_tool_usage "2024-01-01" "2024-01-31"
                          (committed five_rows)))
     = List.length (filter (where_clause processing_tool_usage
                              "2024-01-01" "2024-01-31")
                           (committed five_rows)).
Proof.
  split; [reflexivity|].
  exact (proj2 (counts_add_up_to_matching_rows processing_tool_usage
                  "2024-01-01" "2024-01-31" (committed five_rows)) eq_refl).
Defined.

(* ================================================================== *)
(** ** Further properties: the range of dates *)
(* ================================================================== *)

Ltac decide_order :=
  unfold date_ltb, date_gtb; cbn [date_year date_month date_day date_of];
  repeat match goal with
         | |- context [(?a <? ?b)%N] => destruct (N.ltb_spec a b)
         | |- context [(?a =? ?b)%N] => destruct (N.eqb_spec a b)
         end;
  cbn [orb andb negb]; try reflexivity; lia.

(** The text of a stored timestamp against the literal of a date: it is
    at or above the literal from that day on, and at or below it only on
    the days before. *)
Lemma timestamp_against_date d s :
  valid_datetime d -> date_fits s ->
  String.leb (date_literal s) (strftime d) = negb (date_gtb s (date_of d))
  /\ String.leb (strftime d) (date_literal s) = date_ltb (date_of d) s.
Proof.
  intros (Hy & Hm & Hd & _) (Hsy & Hsm & Hsd).
  destruct (four_digit_field (year d)) as (Ly & Dy); [lia|].
  destruct (two_digit_field (month d)) as (Lm & Dm); [lia|].
  destruct (two_digit_field (day d)) as (Ld & Dd); [lia|].
  destruct (four_digit_field (date_year s) Hsy) as (Lsy & Dsy).
  destruct (two_digit_field (date_month s) Hsm) as (Lsm & Dsm).
  destruct (two_digit_field (date_day s) Hsd) as (Lsd & Dsd).
  unfold String.leb, strftime, date_literal.
  generalize dependent (PyStr.zfill 4 (str_of_N (year d))). intros Y Ly Dy.
  generalize dependent (PyStr.zfill 2 (str_of_N (month d))). intros M Lm Dm.
  generalize dependent (PyStr.zfill 2 (str_of_N (day d))). intros D Ld Dd.
  generalize dependent (PyStr.zfill 4 (str_of_N (date_year s))). intros Ys Lsy Dsy.
  generalize dependent (PyStr.zfill 2 (str_of_N (date_month s))). intros Ms Lsm Dsm.
  generalize dependent (PyStr.zfill 2 (str_of_N (date_day s))). intros Ds Lsd Dsd.
  generalize (PyStr.zfill 2 (str_of_N (hour d)) ++ ":" ++
              PyStr.zfill 2 (str_of_N (minute d)) ++ ":" ++
              PyStr.zfill 2 (str_of_N (second d)))%string.
  intros rest. cbn [String.append].
  rewrite <- (append_empty_r Ds).
  rewrite !compare_app_same_length by congruence.
  cbn [String.compare]. rewrite !compare_app_same_length by congruence.
  cbn [String.compare]. rewrite !compare_app_same_length by congruence.
  rewrite (compare_digits Ys Y 0%N _ _ ltac:(congruence) Dsy Dy).
  rewrite (compare_digits Ms M 0%N _ _ ltac:(congruence) Dsm Dm).
  rewrite (compare_digits Ds D 0%N _ _ ltac:(congruence) Dsd Dd).
  rewrite (compare_digits Y Ys 0%N _ _ ltac:(congruence) Dy Dsy).
  rewrite (compare_digits M Ms 0%N _ _ ltac:(congruence) Dm Dsm).
  rewrite (compare_digits D Ds 0%N _ _ ltac:(congruence) Dd Dsd).
  change (Ascii.compare "-" "-") with Eq. cbn [String.compare]. split.
  - destruct (N.compare_spec (date_year s) (year d)),
             (N.compare_spec (date_month s) (month d)),
             (N.compare_spec (date_day s) (day d)); decide_order.
  - destruct (N.compare_spec (year d) (date_year s)),
             (N.compare_spec (month d) (date_month s)),
             (N.compare_spec (day d) (date_day s)); decide_order.
Qed.

(** X10. For a timestamp stored in the format the import writes, the
    filter [timestamp BETWEEN start AND end] holds from the first moment
    of [start_date] up to, but not on, [end_date]: the text of a
    timestamp of [end_date] itself is longer than the text of the date
    and compares above it.  So no query counts a row of the end date,
    and a range of one day counts nothing. *)
Theorem between_stops_before_the_end_date :
  forall (d : datetime) (start_date end_date : date),
    valid_datetime d -> date_fits start_date -> date_fits end_date ->
    let lo := date_literal start_date in
    let hi := date_literal end_date in
    sql_between (VStr (strftime d)) lo hi
    = negb (date_gtb start_date (date_of d)) && date_ltb (date_of d) end_date
    /\ (date_of d = end_date ->
        forall q row,
          sql_get "timestamp" row = VStr (strftime d) ->
          where_clause q lo hi row = false)
    /\ (start_date = end_date -> sql_between (VStr (strftime d)) lo hi = false).
Proof.
  intros d start_date end_date Hd Hs He lo hi.
  destruct (timestamp_against_date d start_date Hd Hs) as [H1 _].
  destruct (timestamp_against_date d end_date Hd He) as [_ H2].
  assert (Hb : sql_between (VStr (strftime d)) lo hi
               = negb (date_gtb start_date (date_of d))
                 && date_ltb (date_of d) end_date).
  { unfold sql_between, lo, hi. now rewrite H1, H2. }
  split; [exact Hb|]. split.
  - intros <- q row Hts. unfold where_clause. rewrite Hts, Hb.
    replace (date_ltb (date_of d) (date_of d)) with false by decide_order.
    now rewrite !andb_false_r.
  - intros <-. rewrite Hb.
    destruct (date_gtb start_date (date_of d)) eqn:E; [reflexivity|].
    cbn [negb andb]. revert E. decide_order.
Qed.

Lemma between_stops_before_the_end_date_witness :
  valid_datetime (mkDatetime 2024 1 31 10 0 0)
  /\ date_fits (mkDate 2024 1 1) /\ date_fits (mkDate 2024 1 31)
  /\ sql_between (VStr (strftime (mkDatetime 2024 1 31 10 0 0)))
       (date_literal (mkDate 2024 1 1)) (date_literal (mkDate 2024 1 31))
     = false.
Proof.
  assert (H1 : valid_datetime (mkDatetime 2024 1 31 10 0 0))
    by (unfold valid_datetime; cbn; lia).
  assert (H2 : date_fits (mkDate 2024 1 1)) by (unfold date_fits; cbn; lia).
  assert (H3 : date_fits (mkDate 2024 1 31)) by (unfold date_fits; cbn; lia).
  split; [exact H1|]. split; [exact H2|]. split; [exact H3|].
  rewrite (proj1 (between_stops_before_the_end_date _ _ _ H1 H2 H3)).
  reflexivity.
Defined.

(* ================================================================== *)
(** ** Further properties: the dashboard *)
(* ================================================================== *)

Lemma aggregate_nil q lo hi table :
  (forall k, limit q = Some k -> 0 < k) ->
  aggregate q lo hi table = [] <-> filter (where_clause q lo hi) table = [].
Proof.
  intros Hk. unfold aggregate.
  set (l := filter (where_clause q lo hi) table).
  set (sorted := order_by_count_desc _).
  assert (Hlen : List.length sorted = 0 <-> l = []).
  { unfold sorted. rewrite (Permutation_length (order_by_count_desc_perm _)).
    unfold group_count. rewrite length_map.
    destruct l as [|r l']; cbn; [tauto|]. split; [lia|discriminate]. }
  rewrite <- Hlen. destruct (limit q) as [k|] eqn:E; cbn [apply_limit].
  - specialize (Hk k eq_refl). destruct sorted; [now rewrite firstn_nil|].
    destruct k; [lia|]. cbn. split; [discriminate|lia].
  - destruct sorted; cbn; [tauto|]. split; [discriminate|lia].
Qed.

Lemma lookup_query_limit key q :
  lookup_query key QUERIES = Some q -> forall k, limit q = Some k -> 0 < k.
Proof.
  unfold QUERIES. cbn [lookup_query]. intros H.
  repeat (match type of H with
          | (if ?b then _ else _) = _ => destruct b
          end; [injection H as <-; cbn [limit]; intros k [= <-]; lia
               |injection H as <-; cbn [limit]; intros k [=]|]);
  try discriminate H.
  all: repeat (match type of H with
               | (if ?b then _ else _) = _ => destruct b
               end; [injection H as <-; cbn [limit]; intros k E;
                     first [discriminate E|injection E as <-; lia]|]);
    try discriminate H.
Qed.

Lemma data_fetchers_keys section key :
  In (section, key) data_fetchers -> exists q, lookup_query key QUERIES = Some q.
Proof.
  intros H. repeat (destruct H as [E|H];
                    [injection E as <- <-; eexists; reflexivity|]).
  destruct H.
Qed.

Lemma data_fetchers_titles section key key' :
  In (section, key) data_fetchers -> In (section, key') data_fetchers ->
  key = key'.
Proof.
  intros H H'.
  repeat (destruct H as [E|H]; [injection E as <- <-|]); try destruct H;
    repeat (destruct H' as [E|H']; [try discriminate E; injection E as <-|]);
    try destruct H'; reflexivity.
Qed.

Lemma show_section_present start_date end_date conn section key q :
  lookup_query key QUERIES = Some q ->
  table_present conn = true ->
  let answer := aggregate q (date_literal start_date) (date_literal end_date)
                  (committed conn ++ pending conn) in
  (answer = [] ->
   show_section start_date end_date (Some conn) (section, key) = [])
  /\ (answer <> [] ->
      exists df,
        show_section start_date end_date (Some conn) (section, key)
        = [st_subheader section;
           if String.eqb section "Top 5 Languages" then st_dataframe df
           else st_plotly_chart df]).
Proof.
  intros Hq Ht answer. unfold show_section. rewrite Hq.
  unfold fetch_data, execute_query, select_all. rewrite Ht. fold answer.
  destruct answer as [|g gs]; split; intros H; try congruence.
  - reflexivity.
  - cbn [map DataFrame_of_records empty rows]. eexists.
    destruct (String.eqb section "Top 5 Languages"); reflexivity.
Qed.

(** X11. With a first date not after the second, the dashboard shows an
    error only when no query can be answered, and then one for every
    section: without a connection five times
    ["Failed to connect to the database."], with the table missing five
    times the text of the server.  With the table there it shows no
    error and no warning; every key of [data_fetchers] is a key of
    [QUERIES]; and a section is shown exactly when some row of the table
    holds a value for its column and a timestamp of the range. *)
Theorem dashboard_shows_errors_only_on_failure :
  forall (start_date end_date : date) (db : option connection),
    date_gtb start_date end_date = false ->
    let out := admin_dashboard [start_date; end_date] db in
    (db = None -> out = failures "Failed to connect to the database.")
    /\ (forall conn,
          db = Some conn -> table_present conn = false ->
          exists text, out = failures text)
    /\ (forall conn,
          db = Some conn -> table_present conn = true ->
          (forall m, In m out -> is_error m = false /\ is_warning m = false)
          /\ forall section key,
               In (section, key) data_fetchers ->
               exists q,
                 lookup_query key QUERIES = Some q
                 /\ (In (st_subheader section) out
                     <-> exists row,
                           In row (committed conn ++ pending conn)
                           /\ where_clause q (date_literal start_date)
                                (date_literal end_date) row = true)).
Proof.
  intros start_date end_date db Hle out.
  unfold out, admin_dashboard. rewrite Hle. clear out.
  split; [intros ->; reflexivity|]. split.
  { intros conn -> Ht. eexists. unfold data_fetchers, failures, flat_map, show_section.
    cbn [lookup_query QUERIES String.eqb Ascii.eqb Bool.eqb].
    unfold fetch_data, execute_query, select_all. rewrite Ht.
    cbn [exn_text app map data_fetchers fst]. reflexivity. }
  intros conn -> Ht. split.
  - intros m Hm. apply in_flat_map in Hm as ([section key] & Hentry & Hm).
    destruct (data_fetchers_keys section key Hentry) as (q & Hq).
    destruct (show_section_present start_date end_date conn section key q Hq Ht)
      as [Hnil Hsome].
    destruct (aggregate q _ _ _) as [|g gs].
    + rewrite (Hnil eq_refl) in Hm. destruct Hm.
    + destruct (Hsome ltac:(discriminate)) as (df & E). rewrite E in Hm.
      destruct Hm as [<-|[<-|[]]]; [split; reflexivity|].
      destruct (String.eqb section _); split; reflexivity.
  - intros section key Hentry.
    destruct (data_fetchers_keys section key Hentry) as (q & Hq).
    exists q. split; [exact Hq|].
    assert (Hrows : aggregate q (date_literal start_date) (date_literal end_date)
                      (committed conn ++ pending conn) <> []
                    <-> exists row,
                          In row (committed conn ++ pending conn)
                          /\ where_clause q (date_literal start_date)
                               (date_literal end_date) row = true).
    { rewrite (aggregate_nil q _ _ _ (lookup_query_limit key q Hq)).
      split.
      - intros H. destruct (filter _ _) as [|row l] eqn:E; [congruence|].
        exists row. apply filter_In. rewrite E. now left.
      - intros (row & Hin & Hw) E.
        assert (H : In row (filter (where_clause q (date_literal start_date)
                                      (date_literal end_date))
                              (committed conn ++ pending conn)))
          by (apply filter_In; split; assumption).
        rewrite E in H. destruct H. }
    rewrite <- Hrows. rewrite in_flat_map. split.
    + intros ([section' key'] & Hentry' & Hm).
      destruct (data_fetchers_keys section' key' Hentry') as (q' & Hq').
      destruct (show_section_present start_date end_date conn section' key' q' Hq' Ht)
        as [Hnil Hsome].
      destruct (aggregate q' _ _ _) as [|g gs] eqn:Eagg.
      * rewrite (Hnil eq_refl) in Hm. destruct Hm.
      * destruct (Hsome ltac:(discriminate)) as (df & E). rewrite E in Hm.
        assert (Hs : section' = section).
        { destruct Hm as [Hm|[Hm|[]]]; [now injection Hm|].
          destruct (String.eqb section' _); discriminate Hm. }
        subst section'.
        rewrite (data_fetchers_titles section key key' Hentry Hentry') in Hq.
        assert (q' = q) by congruence. subst q'. rewrite Eagg. discriminate.
    + intros Hne. exists (section, key). split; [exact Hentry|].
      destruct (show_section_present start_date end_date conn section key q Hq Ht)
        as [_ Hsome].
      destruct (Hsome Hne) as (df & ->). now left.
Qed.

Lemma dashboard_shows_errors_only_on_failure_witness :
  date_gtb (mkDate 2024 1 1) (mkDate 2024 1 31) = false
  /\ admin_dashboard [mkDate 2024 1 1; mkDate 2024 1 31] None
     = failures "Failed to connect to the database.".
Proof.
  split; [reflexivity|].
  exact (proj1 (dashboard_shows_errors_only_on_failure
                  (mkDate 2024 1 1) (mkDate 2024 1 31) None eq_refl) eq_refl).
Defined.

(* ================================================================== *)
(** ** Further properties: what the page shows for a complete header *)
(* ================================================================== *)

(** X12. For an upload with every required column, the page shows the
    warnings of the coercion, then the number of rows of the file as
    read, the success notice and the frame, whose header is the cleaned
    one and whose rows are as many as the file's; after them nothing
    when the button is not pressed, and exactly one message when it
    is. *)
Theorem page_log_reports_upload_size :
  forall (pandas : Pandas) (df : DataFrame) (button : bool)
         (db : option connection),
    (forall col, In col REQUIRED_COLUMNS ->
                 In col (clean_column_names (columns df))) ->
    exists warnings shown_frame tail,
      fst (import_csv_page (Some (Ok df)) button db)
      = warnings
        ++ [st_write ("Total records: " ++ PyStr.of_nat (len df));
            st_success "File loaded successfully!";
            st_dataframe shown_frame]
        ++ tail
      /\ forallb is_warning warnings = true
      /\ columns shown_frame = clean_column_names (columns df)
      /\ len shown_frame = len df
      /\ List.length tail = (if button then 1 else 0).
Proof.
  intros pandas df button db Hall.
  unfold import_csv_page. cbv zeta.
  set (absent := fun col => negb (PyStr.mem col _)).
  assert (Hnone : filter absent REQUIRED_COLUMNS = []).
  { apply filter_none. intros col Hcol. unfold absent.
    apply negb_false_iff, mem_In. exact (Hall col Hcol). }
  rewrite Hnone.
  pose proof (cleaned_header_of_page df) as Hcols.
  pose proof (enforce_data_types_keeps_shape
                (set_columns (fillna "" df)
                   (clean_column_names (columns (fillna "" df)))))
    as (_ & Hlen & Hw).
  destruct (enforce_data_types _) as [df3 warnings]. cbn [fst snd] in Hcols, Hlen, Hw.
  assert (Hlen' : len df3 = len df).
  { rewrite Hlen. unfold len. cbn [rows set_columns fillna]. apply length_map. }
  rewrite Hlen'.
  assert (Hshape : forall tail conn',
             List.length tail = (if button then 1 else 0) ->
             exists warnings0 shown_frame tail0,
               fst ((warnings ++
                     [st_write ("Total records: " ++ PyStr.of_nat (len df));
                      st_success "File loaded successfully!"; st_dataframe df3])
                    ++ tail, conn' : option connection)
               = warnings0
                 ++ [st_write ("Total records: " ++ PyStr.of_nat (len df));
                     st_success "File loaded successfully!";
                     st_dataframe shown_frame]
                 ++ tail0
               /\ forallb is_warning warnings0 = true
               /\ columns shown_frame = clean_column_names (columns df)
               /\ len shown_frame = len df
               /\ List.length tail0 = (if button then 1 else 0)).
  { intros tail conn' Htail. exists warnings, df3, tail. cbn [fst].
    rewrite <- app_assoc. auto. }
  destruct button.
  - destruct db as [conn|]; [|now apply Hshape].
    destruct (table_exists conn TABLE_NAME); [|now apply Hshape].
    destruct (insert_unique_data conn df3) as [[conn' shown]|e] eqn:E;
      [|now apply Hshape].
    apply Hshape.
    assert (Hpk : In primary_key_col (clean_column_names (columns df3))).
    { rewrite Hcols, clean_column_names_idem. apply Hall.
      apply mem_In. vm_compute. reflexivity. }
    now destruct (insert_unique_data_shown conn df3 conn' shown Hpk E) as (m & -> & _).
  - rewrite <- (app_nil_r (warnings ++ _)). now apply Hshape.
Qed.

Lemma page_log_reports_upload_size_witness :
  exists warnings shown_frame tail,
    fst (import_csv_page (pandas := Reference.pandas)
           (Some (Ok (upload_of [("u1", "1"); ("u2", "2")]))) true
           (Some empty_table))
    = warnings
      ++ [st_write "Total records: 2";
          st_success "File loaded successfully!";
          st_dataframe shown_frame]
      ++ tail
    /\ List.length tail = 1.
Proof.
  destruct (page_log_reports_upload_size Reference.pandas
              (upload_of [("u1", "1"); ("u2", "2")]) true (Some empty_table))
    as (warnings & shown_frame & tail & E & _ & _ & _ & Ht).
  - intros col Hcol. apply mem_In. apply mem_In in Hcol. revert Hcol.
    change (columns (upload_of [("u1", "1"); ("u2", "2")])) with REQUIRED_COLUMNS.
    replace (clean_column_names REQUIRED_COLUMNS) with REQUIRED_COLUMNS
      by (vm_compute; reflexivity).
    exact (fun H => H).
  - exists warnings, shown_frame, tail. split; [exact E|exact Ht].
Defined.

(* ================================================================== *)
(** ** Further properties: a stored row without a key *)
(* ================================================================== *)

(** X13. A stored row whose ["Unique ID"] is [NULL] is read back under
    the key ["none"], the text of [None] lowered.  Once the table holds
    such a row, a well-formed upload adds no row whose key normalizes to
    ["none"]: the rows added all have another key, and an upload of
    such rows alone adds nothing and is answered with
    ["No new unique records found."]. *)
Theorem stored_null_key_reads_as_none :
  forall (pandas : Pandas) (conn : connection) (df : DataFrame) (j : nat),
    rectangular df ->
    sql_distinct (clean_column_names (columns df)) ->
    index_of primary_key_col (clean_column_names (columns df)) = Some j ->
    table_present conn = true ->
    pending conn = [] ->
    (exists row, In row (committed conn)
                 /\ sql_get primary_key_col row = VNull) ->
    In "none" (existing_keys (committed conn))
    /\ (exists added,
          committed (ingest conn df) = committed conn ++ added
          /\ forall row, In row added -> stored_key row <> "none")
    /\ ((forall r, In r (rows df) -> key_of j r = "none") ->
        insert_unique_data conn df
        = Ok (conn, [st_warning "No new unique records found."])).
Proof.
  intros pandas conn df j Hrect Hd Hj Ht Hp (row & Hrow & Hnull).
  assert (Hnone : In "none" (existing_keys (committed conn))).
  { unfold existing_keys. apply in_map_iff. exists row. split; [|exact Hrow].
    rewrite Hnull. reflexivity. }
  split; [exact Hnone|].
  destruct (insert_unique_data_spec conn df j Hrect Hd Hj Ht Hp)
    as (conn' & shown & E & Hc & _ & _ & Hempty).
  split.
  - unfold ingest. rewrite E. eexists. split; [exact Hc|].
    intros row' Hin. apply in_map_iff in Hin as (r & <- & Hr).
    apply new_rows_In in Hr as (Hr & Hnew & _).
    rewrite (proj2 (stored_key_with_key _ j r Hd Hj (row_width df j r Hrect Hj Hr))).
    intros Hk. apply Hnew. now rewrite Hk.
  - intros Hall.
    assert (Hnil : new_rows j (existing_keys (committed conn)) (rows df) = []).
    { destruct (new_rows j _ (rows df)) as [|r l] eqn:En; [reflexivity|].
      assert (Hr : In r (new_rows j (existing_keys (committed conn)) (rows df)))
        by (rewrite En; now left).
      apply new_rows_In in Hr as (Hr & Hnew & _).
      exfalso. apply Hnew. now rewrite (Hall r Hr). }
    destruct (Hempty Hnil) as [-> ->]. exact E.
Qed.

Lemma stored_null_key_reads_as_none_witness :
  rectangular upload_none
  /\ sql_distinct (clean_column_names (columns upload_none))
  /\ index_of primary_key_col (clean_column_names (columns upload_none)) = Some 0
  /\ (exists row, In row (committed table_with_null)
                  /\ sql_get primary_key_col row = VNull)
  /\ insert_unique_data (pandas := Reference.pandas) table_with_null upload_none
     = Ok (table_with_null, [st_warning "No new unique records found."]).
Proof.
  assert (H1 : rectangular upload_none) by (repeat constructor).
  assert (H2 : sql_distinct (clean_column_names (columns upload_none)))
    by (apply NoDup_by_nodup; vm_compute; reflexivity).
  assert (H3 : index_of primary_key_col (clean_column_names (columns upload_none))
               = Some 0) by reflexivity.
  assert (H4 : exists row, In row (committed table_with_null)
                           /\ sql_get primary_key_col row = VNull).
  { eexists. split; [left; reflexivity|reflexivity]. }
  split; [exact H1|]. split; [exact H2|]. split; [exact H3|]. split; [exact H4|].
  apply (proj2 (proj2 (stored_null_key_reads_as_none Reference.pandas
                         table_with_null upload_none 0 H1 H2 H3 eq_refl eq_refl H4))).
  intros r [<-|[]]. vm_compute. reflexivity.
Defined.
